(** * gocbmgr: the Couchbase cluster-manager client (couchbase.go)

    A shallow embedding of [couchbase.go] and the properties its
    specification states about it.

    Go strings are [string]s (sequences of bytes), Go slices are [list]s
    (a nil slice is the empty list), [int], [int64] and [time.Duration]
    values are [Z], [float64] is the kernel's binary64 [float].  The remote
    cluster is a script of answers, one queue per endpoint, threaded
    through every method together with a virtual clock and the log of the
    requests issued. *)

From Stdlib Require Import ZArith List String Ascii Bool Lia Floats Uint63.
Import ListNotations.

Local Open Scope string_scope.
Local Open Scope bool_scope.
Local Open Scope Z_scope.
Local Open Scope list_scope.

(** ** Strings *)

(** [strings.Split(s, sep)] for a separator [sep] of one byte: the pieces of
    [s] between the successive occurrences of [sep].  There is always at
    least one piece, so indexing the result at [0] cannot fail. *)
Fixpoint Split (s : string) (sep : ascii) : list string :=
  match s with
  | EmptyString => [EmptyString]
  | String c rest =>
      if Ascii.eqb c sep then EmptyString :: Split rest sep
      else match Split rest sep with
           | piece :: pieces => String c piece :: pieces
           | [] => [String c EmptyString]
           end
  end.

(** [strings.Join(elems, sep)]. *)
Fixpoint Join (elems : list string) (sep : string) : string :=
  match elems with
  | [] => ""
  | [e] => e
  | e :: rest => String.append e (String.append sep (Join rest sep))
  end.

(** [func stripPort(str string) string]: [strings.Split(str, ":")[0]]. *)
Definition stripPort (str : string) : string :=
  match Split str ":"%char with
  | first :: _ => first
  | [] => ""
  end.

(** [func strSliceContains(slice []string, item string) bool]. *)
Fixpoint strSliceContains (slice : list string) (item : string) : bool :=
  match slice with
  | [] => false
  | elem :: rest =>
      if String.eqb (stripPort item) (stripPort elem) then true
      else strSliceContains rest item
  end.

(** ** Data model *)

(** [type Node struct]. *)
Record Node := {
  Uptime : string;
  CouchApiBase : string;
  ClusterMembership : string;
  ClusterCompatibility : Z;
  Status : string;
  ThisNode : bool;
  Hostname : string;
  Version : string;
  OS : string;
  Services : list string;
  IndexMemoryQuota : Z;
  MemoryQuota : Z;
  RebalanceStatus : string;
  OTPCookie : string;
  OTPNode : string
}.

(** [type Cluster struct]. *)
Record Cluster := {
  IsAdminCreds : bool;
  IsEnterprise : bool;
  UUID : string
}.

(** [type Pool struct]. *)
Record Pool := {
  Nodes : list Node
}.

(** [type Couchbase struct].  The two pointer fields [info] and [cluster]
    are [None] for [nil]. *)
Record Couchbase := {
  URL : string;
  Username : string;
  Password : string;
  info : option Node;
  cluster : option Cluster
}.

(** Modelled from the spec: the value [c.RebalanceStatus()] returns is
    declared in another file of the package; the specification describes it
    as "a recommended poll-retry interval (float seconds) and the set of
    node identities still participating in an in-progress rebalance", and
    [RemoveNodes] reads its fields [RecommendedRefreshPeriod] and
    [Nodes]. *)
Module Progress.
Record t := {
  RecommendedRefreshPeriod : float;
  Nodes : list string
}.
End Progress.

(** Go [error] values.  [Errorf] keeps the format and its arguments apart
    instead of rendering the message.  [ErrorNodeUninitialized] and the
    [NewError...] constructors are declared in another file of the package
    and are kept by name. *)
Inductive error : Type :=
| Errorf (format : string) (args : list fmt_arg)
| ErrorNodeUninitialized
| NewErrorWaitNodeTimeout (rawURL : string)
| NewErrorWaitNodeUnexpected (rawURL : string)
| NewErrorHealthyTimedOut (url : string)
| External (what : string)
with fmt_arg : Type :=
| ArgError (e : error)
| ArgString (s : string)
| ArgInts (l : list Z)
| ArgInt (n : Z)
| ArgNode (n : Node).

(** ** The remote cluster and the clock *)

(** What reading and decoding the body of an HTTP response gives:
    [ioutil.ReadAll] fails, or it yields a text that [json.Unmarshal]
    rejects, or a text that decodes to [value]. *)
Inductive Body (A : Type) : Type :=
| Unreadable (err : error)
| Malformed (text : string) (err : error)
| Json (text : string) (value : A).
Arguments Unreadable {A} err.
Arguments Malformed {A} text err.
Arguments Json {A} text value.

(** [*http.Response], as far as the client looks at it. *)
Record Response (A : Type) := {
  StatusCode : Z;
  body : Body A
}.
Arguments StatusCode {A} r.
Arguments body {A} r.

(** The result of [client.Do(req)]: a transport error or a response. *)
Definition Answer (A : Type) : Type := (error + Response A)%type.

(** What the client does to the outside world, in order. *)
Inductive Event : Type :=
| Slept (d : Z)
| Requested (method url : string) (form : list (string * string))
| PolledRebalance.

(** The scripts of the remote cluster, one per endpoint: the answers to the
    successive [GET /pools/default], [GET /pools],
    [POST /controller/rebalance], rebalance-status reads and pings. *)
Record Remote := {
  poolsDefault : list (Answer Pool);
  pools : list (Answer Cluster);
  controllerRebalance : list (Answer unit);
  rebalanceProgress : list (error + Progress.t);
  pings : list (Answer unit)
}.

(** The world a client runs in: the [remote] cluster; the clock [now], in
    nanoseconds; [delay k], how long the exchange logged at position [k]
    takes; [timerWins t], which case a [select] takes when its timer and
    its ticker are both ready at [t]; and the [log] of what the client has
    done so far. *)
Record World := {
  remote : Remote;
  now : Z;
  delay : nat -> Z;
  timerWins : Z -> bool;
  log : list Event
}.

(** An endpoint whose script has run out answers like an unreachable host. *)
Definition unreachable {A : Type} : Answer A :=
  inl (External "connection refused").

(** Log [e] and let the exchange take its time. *)
Definition exchange (e : Event) (w : World) : World :=
  {| remote := remote w;
     now := now w + Z.max 0 (delay w (List.length (log w)));
     delay := delay w;
     timerWins := timerWins w;
     log := log w ++ [e] |}.

(** The remote moves on to the scripts [r]. *)
Definition answered (r : Remote) (w : World) : World :=
  {| remote := r;
     now := now w;
     delay := delay w;
     timerWins := timerWins w;
     log := log w |}.

(** [c.request("GET", "/pools/default", ...)]. *)
Definition request_poolsDefault (w : World) : Answer Pool * World :=
  let r := remote w in
  let w := exchange (Requested "GET" "/pools/default" []) w in
  match poolsDefault r with
  | [] => (unreachable, w)
  | a :: rest =>
      (a, answered {| poolsDefault := rest;
                      pools := pools r;
                      controllerRebalance := controllerRebalance r;
                      rebalanceProgress := rebalanceProgress r;
                      pings := pings r |} w)
  end.

(** [c.request("GET", "/pools", ...)]. *)
Definition request_pools (w : World) : Answer Cluster * World :=
  let r := remote w in
  let w := exchange (Requested "GET" "/pools" []) w in
  match pools r with
  | [] => (unreachable, w)
  | a :: rest =>
      (a, answered {| poolsDefault := poolsDefault r;
                      pools := rest;
                      controllerRebalance := controllerRebalance r;
                      rebalanceProgress := rebalanceProgress r;
                      pings := pings r |} w)
  end.

(** [c.request("POST", "/controller/rebalance", data.Encode(), ...)]. *)
Definition request_controllerRebalance (form : list (string * string)) (w : World)
  : Answer unit * World :=
  let r := remote w in
  let w := exchange (Requested "POST" "/controller/rebalance" form) w in
  match controllerRebalance r with
  | [] => (unreachable, w)
  | a :: rest =>
      (a, answered {| poolsDefault := poolsDefault r;
                      pools := pools r;
                      controllerRebalance := rest;
                      rebalanceProgress := rebalanceProgress r;
                      pings := pings r |} w)
  end.

(** [requestUrl(rawURL, "GET", "/", nil, nil, 3*time.Second)]. *)
Definition requestUrl_ping (rawURL : string) (w : World) : Answer unit * World :=
  let r := remote w in
  let w := exchange (Requested "GET" rawURL []) w in
  match pings r with
  | [] => (unreachable, w)
  | a :: rest =>
      (a, answered {| poolsDefault := poolsDefault r;
                      pools := pools r;
                      controllerRebalance := controllerRebalance r;
                      rebalanceProgress := rebalanceProgress r;
                      pings := rest |} w)
  end.

(** [time.Sleep(d)]: a negative or zero [d] returns at once. *)
Definition time_Sleep (d : Z) (w : World) : World :=
  {| remote := remote w;
     now := now w + Z.max 0 d;
     delay := delay w;
     timerWins := timerWins w;
     log := log w ++ [Slept d] |}.

(** The clock moves to [t], for a wait that ends at [t]. *)
Definition wait_until (t : Z) (w : World) : World :=
  {| remote := remote w;
     now := t;
     delay := delay w;
     timerWins := timerWins w;
     log := log w |}.

(** [time.Millisecond] and [time.Second], in nanoseconds. *)
Definition Millisecond : Z := 1000000.
Definition Second : Z := 1000 * Millisecond.

(** ** Floating point to duration *)

Definition int64_min : Z := - 2 ^ 63.
Definition int64_max : Z := 2 ^ 63 - 1.

(** [float64(d)] for a duration [0 <= d < 2^63]. *)
Definition float64 (d : Z) : float := PrimFloat.of_uint63 (Uint63.of_Z d).

(** [int64(f)]: the fraction is discarded (truncation towards zero).  Go
    leaves the result open when the value does not fit; what is modelled is
    the amd64 instruction, which gives the minimum [int64] for every such
    value, for infinities and for NaN. *)
Definition int64 (f : float) : Z :=
  match Prim2SF f with
  | S754_zero _ => 0
  | S754_finite sign m e =>
      let magnitude :=
        if 0 <=? e then Z.shiftl (Z.pos m) e else Z.shiftr (Z.pos m) (- e) in
      let v := if sign then - magnitude else magnitude in
      if (int64_min <=? v) && (v <=? int64_max) then v else int64_min
  | S754_infinity _ => int64_min
  | S754_nan => int64_min
  end.

(** ** The methods of [*Couchbase] *)

(** How a [for] loop whose body has run some number of times stands: still
    inside, with the loop's variables [s]; left through [break]; or the
    process ended by [Fatalf] (logrus logs the message and calls
    [os.Exit(1)]). *)
Inductive Flow (S : Type) : Type :=
| Continue (s : S)
| Break
| Fatal (msg : string).
Arguments Continue {S} s.
Arguments Break {S}.
Arguments Fatal {S} msg.

(** What a call has come to when it is observed: it returned [a], the
    process exited with [code], or it is still running its loop. *)
Inductive Outcome (A : Type) : Type :=
| Returned (a : A)
| Exited (code : Z)
| Running.
Arguments Returned {A} a.
Arguments Exited {A} code.
Arguments Running {A}.

(** The ticker behind the channel of [time.Tick(d)]: ticks are sent at
    [d], [2d], ... after its creation into a channel that holds one tick;
    [next] is the instant of the first tick not yet received. *)
Record Ticker := {
  period : Z;
  next : Z
}.

(** The case a [select] over a timer and a ticker takes. *)
Inductive Selected : Type :=
| TimerFired
| Ticked.

(** [time.Tick(d)], called at [now w]. *)
Definition time_Tick (d : Z) (w : World) : Ticker :=
  {| period := d; next := now w + d |}.

(** [select { case <-time.After(timeout): ... case <-interval: ... }],
    entered at [now w].  [time.After] starts a new timer on every entry, due
    at [now w + timeout] (at once for a [timeout] that is not positive).
    The ticker's case is ready as soon as a tick is in its channel: at
    [next], or at once when [next] has passed.  The earlier case is taken;
    when both come due together [timerWins] picks.  After a tick is
    received the ticker's next tick is the first one later than that
    moment. *)
Definition select (timeout : Z) (interval : Ticker) (w : World)
  : Selected * Ticker * World :=
  let deadline := now w + Z.max 0 timeout in
  let ready := Z.max (now w) (next interval) in
  if (deadline <? ready) || ((deadline =? ready) && timerWins w ready)
  then (TimerFired, interval, wait_until deadline w)
  else (Ticked,
        {| period := period interval;
           next := next interval
                   + period interval * ((ready - next interval) / period interval + 1) |},
        wait_until ready w).

(** ** Numbers in strings *)

(** The two errors of [strconv]'s parsers: [ErrSyntax] and [ErrRange]. *)
Inductive NumError : Type :=
| ErrSyntax
| ErrRange.

Definition maxUint64 : Z := 2 ^ 64 - 1.

(** The loop of [strconv.ParseUint(s, 10, bitSize)] over the bytes of [s],
    with [n] read so far and [maxVal] the largest value of [bitSize] bits.
    A byte that is no decimal digit is a syntax error; a value above
    [maxVal] is a range error, reported at the digit that passes it. *)
Fixpoint ParseUint_loop (s : string) (maxVal n : Z) : Z * option NumError :=
  match s with
  | EmptyString => (n, None)
  | String c rest =>
      let b := Z.of_N (N_of_ascii c) in
      if (48 <=? b) && (b <=? 57) then
        let d := b - 48 in
        if n >=? maxUint64 / 10 + 1 then (maxVal, Some ErrRange)
        else
          let n := n * 10 in
          let n1 := (n + d) mod 2 ^ 64 in
          if (n1 <? n) || (n1 >? maxVal) then (maxVal, Some ErrRange)
          else ParseUint_loop rest maxVal n1
      else (0, Some ErrSyntax)
  end.

(** [strconv.ParseUint(s, 10, bitSize)]. *)
Definition ParseUint (s : string) (bitSize : Z) : Z * option NumError :=
  if String.eqb s "" then (0, Some ErrSyntax)
  else ParseUint_loop s (2 ^ bitSize - 1) 0.

(** [strconv.ParseInt(s, 10, bitSize)]: an optional sign, then
    [ParseUint]; a range error of [ParseUint] is decided again against the
    signed bounds. *)
Definition ParseInt (s : string) (bitSize : Z) : Z * option NumError :=
  match s with
  | EmptyString => (0, Some ErrSyntax)
  | String c rest =>
      let neg := Ascii.eqb c "-"%char in
      let digits := if Ascii.eqb c "+"%char || neg then rest else s in
      match ParseUint digits bitSize with
      | (_, Some ErrSyntax) => (0, Some ErrSyntax)
      | (un, _) =>
          let cutoff := 2 ^ (bitSize - 1) in
          if negb neg && (un >=? cutoff) then (cutoff - 1, Some ErrRange)
          else if neg && (un >? cutoff) then (- cutoff, Some ErrRange)
          else (if neg then - un else un, None)
      end
  end.

(** ** Bucket status *)

(** Modelled from the spec: [BucketStatus] is declared in another file of
    the package; the specification describes what the bucket endpoint
    returns as a "per-node health list", and [BucketReady] reads
    [status.Nodes] and the [Status] of each of its entries. *)
Module BucketStatus.
Record node := {
  Status : string
}.
Record t := {
  Nodes : list node
}.
End BucketStatus.

(** [*http.Response] as [BucketReady] looks at it: the status code and
    what [ioutil.ReadAll(resp.Body)] returns, the bytes read and an error
    or [nil]. *)
Record RawResponse := {
  RawStatusCode : Z;
  ReadAll : string * option error
}.

(** What [c.request] returns as [(resp, err)]: no response and an error; a
    response and an error (the client gave up following redirects); or a
    response and no error. *)
Inductive Transport : Type :=
| NoResponse (err : error)
| GaveUp (resp : RawResponse) (err : error)
| Responded (resp : RawResponse).

(** How a call ends: it returns [a], or it panics. *)
Inductive Run (A : Type) : Type :=
| Done (a : A)
| Panics (why : string).
Arguments Done {A} a.
Arguments Panics {A} why.

Module Couchbase.

(** [func (c *Couchbase) Request]: the result of [c.request] is [answer].
    Calls to [c.Log()] write log lines only and are left out throughout,
    except [Fatalf], which ends the process. *)
Definition Request {A : Type} (answer : Answer A) : error + Response A :=
  match answer with
  | inl err => inl (Errorf "Error while connecting with auth: %s" [ArgError err])
  | inr resp =>
      if StatusCode resp =? 401
      then inl (Errorf "Error authenticating. Check user/password" [])
      else inr resp
  end.

(** [func (c *Couchbase) CheckStatusCode]. *)
Definition CheckStatusCode {A : Type} (resp : Response A) (validStatusCodes : list Z)
  : option error :=
  if existsb (fun statusCode => statusCode =? StatusCode resp) validStatusCodes
  then None
  else
    match body resp with
    | Unreadable err =>
        Some (Errorf "expected statusCode '%s', got %d: %s"
                [ArgInts validStatusCodes; ArgInt (StatusCode resp); ArgError err])
    | Malformed text _ | Json text _ =>
        Some (Errorf "expected statusCode '%s', got %d: %s"
                [ArgInts validStatusCodes; ArgInt (StatusCode resp); ArgString text])
    end.

(** [func (c *Couchbase) Nodes].  A Go result pair [(value, err)] of which
    exactly one part is set is a sum: [inl err] or [inr value]. *)
Definition Nodes (w : World) : (error + list Node) * World :=
  let (answer, w) := request_poolsDefault w in
  match Request answer with
  | inl err => (inl (Errorf "Error while connecting: %s" [ArgError err]), w)
  | inr resp =>
      if StatusCode resp =? 404 then (inl ErrorNodeUninitialized, w)
      else
        match CheckStatusCode resp [200] with
        | Some err => (inl err, w)
        | None =>
            match body resp with
            | Unreadable err => (inl err, w)
            | Malformed _ err => (inl err, w)
            | Json _ pool => (inr (Nodes pool), w)
            end
        end
  end.

(** [func (c *Couchbase) getInfo]. *)
Fixpoint getInfo (nodes : list Node) : error + Node :=
  match nodes with
  | [] => inl (Errorf "No node info found" [])
  | node :: rest => if ThisNode node then inr node else getInfo rest
  end.

(** [func (c *Couchbase) Info]; the receiver is returned with the result,
    as the call may set [c.info]. *)
Definition Info (c : Couchbase) (w : World) : (error + Node) * Couchbase * World :=
  match info c with
  | None =>
      let (nodes, w) := Nodes w in
      match nodes with
      | inl err => (inl err, c, w)
      | inr nodes =>
          match getInfo nodes with
          | inl err => (inl err, c, w)
          | inr node =>
              let c := {| URL := URL c; Username := Username c; Password := Password c;
                          info := Some node; cluster := cluster c |} in
              (inr node, c, w)
          end
      end
  | Some cached => (inr cached, c, w)
  end.

(** [func (c *Couchbase) Connect]. *)
Definition Connect (c : Couchbase) (w : World) : option error * Couchbase * World :=
  let '(r, c, w) := Info c w in
  match r with
  | inl err => (Some err, c, w)
  | inr _ => (None, c, w)
  end.

(** [func (c *Couchbase) Cluster]; the receiver is returned with the
    result, as the call may set [c.cluster]. *)
Definition Cluster (c : Couchbase) (w : World) : (error + Cluster) * Couchbase * World :=
  match cluster c with
  | None =>
      let (answer, w) := request_pools w in
      match Request answer with
      | inl err => (inl (Errorf "Error while connecting: %s" [ArgError err]), c, w)
      | inr resp =>
          match CheckStatusCode resp [200] with
          | Some err => (inl err, c, w)
          | None =>
              match body resp with
              | Unreadable err => (inl err, c, w)
              | Malformed _ err => (inl err, c, w)
              | Json _ decoded =>
                  let c := {| URL := URL c; Username := Username c; Password := Password c;
                              info := info c; cluster := Some decoded |} in
                  (inr decoded, c, w)
              end
          end
      end
  | Some cached => (inr cached, c, w)
  end.

(** [func (c *Couchbase) ClusterID]. *)
Definition ClusterID (c : Couchbase) (w : World) : (error + string) * Couchbase * World :=
  let '(r, c, w) := Cluster c w in
  match r with
  | inl err => (inl err, c, w)
  | inr cluster => (inr (UUID cluster), c, w)
  end.

(** [func (c *Couchbase) Rebalance]; [url.Values.Encode] writes the keys in
    sorted order. *)
Definition Rebalance (knownNodes ejectedNodes : list string) (w : World)
  : option error * World :=
  let data := [("ejectedNodes", Join ejectedNodes ","); ("knownNodes", Join knownNodes ",")] in
  let (answer, w) := request_controllerRebalance data w in
  match Request answer with
  | inl err => (Some err, w)
  | inr resp => (CheckStatusCode resp [200], w)
  end.

(** Modelled from the spec: [c.RebalanceStatus()] is defined in another
    file of the package; it performs the "read rebalance status" exchange,
    which yields an error or the "recommended retry interval (float
    seconds) + list of currently-rebalancing handles". *)
Definition RebalanceStatus (w : World) : (error + Progress.t) * World :=
  let r := remote w in
  let w := exchange PolledRebalance w in
  match rebalanceProgress r with
  | [] => (inl (External "connection refused"), w)
  | a :: rest =>
      (a, answered {| poolsDefault := poolsDefault r;
                      pools := pools r;
                      controllerRebalance := controllerRebalance r;
                      rebalanceProgress := rest;
                      pings := pings r |} w)
  end.

(** The [for _, node := range nodes] loop of [GetOTPNodes], entered with
    the named results [outEjectNodes] and [outAllNodes]; its third result
    is the named result [err]. *)
Fixpoint GetOTPNodes_range (ejectNodes : list string) (nodes : list Node)
    (outEjectNodes outAllNodes : list string)
  : list string * list string * option error :=
  match nodes with
  | [] => (outEjectNodes, outAllNodes, None)
  | node :: rest =>
      if String.eqb (OTPNode node) ""
      then (outEjectNodes, outAllNodes,
            Some (Errorf "Unable to get OTP name for %+v" [ArgNode node]))
      else
        let outAllNodes := outAllNodes ++ [OTPNode node] in
        let outEjectNodes :=
          if strSliceContains ejectNodes (Hostname node)
          then outEjectNodes ++ [OTPNode node]
          else outEjectNodes in
        GetOTPNodes_range ejectNodes rest outEjectNodes outAllNodes
  end.

(** [func (c *Couchbase) GetOTPNodes]: the results are
    [(outEjectNodes, outFailoverNodes, outReAddNodes, outAllNodes, err)]. *)
Definition GetOTPNodes (ejectNodes failoverNode reAddNode : list string) (w : World)
  : list string * list string * list string * list string * option error * World :=
  let (nodes, w) := Nodes w in
  match nodes with
  | inl err => ([], [], [], [], Some err, w)
  | inr nodes =>
      let '(outEjectNodes, outAllNodes, err) := GetOTPNodes_range ejectNodes nodes [] [] in
      (outEjectNodes, [], [], outAllNodes, err, w)
  end.

(** One turn of the [for] loop of [RemoveNodes], entered with the loop's
    variables [(sleep, nodeInClusterCount)]. *)
Definition RemoveNodes_body (ejectNodes : list string) (s : Z * Z) (w : World)
  : Flow (Z * Z) * World :=
  let '(sleep, nodeInClusterCount) := s in
  let minSleep := Second * 2 in
  let w := time_Sleep sleep w in
  let (status, w) := RebalanceStatus w in
  match status with
  | inl err => (Continue (500 * Millisecond, nodeInClusterCount), w)
  | inr status =>
      let sleep :=
        int64 (PrimFloat.mul (Progress.RecommendedRefreshPeriod status) (float64 Second)) in
      let sleep := if sleep <? minSleep then minSleep else sleep in
      let nodeInRebalance :=
        fold_left (fun flag node =>
                     if strSliceContains (Progress.Nodes status) node then true else flag)
                  ejectNodes false in
      if nodeInRebalance then (Continue (sleep, 0), w)
      else
        let (nodes, w) := Nodes w in
        match nodes with
        | inl err => (Continue (sleep, nodeInClusterCount), w)
        | inr nodes =>
            let nodeInCluster :=
              fold_left (fun flag node =>
                           if strSliceContains ejectNodes (OTPNode node) then true else flag)
                        nodes false in
            if nodeInCluster then
              if nodeInClusterCount >? 10
              then (Fatal "rebalance finished, but node is still in the cluster. Rebalance failed", w)
              else (Continue (sleep, nodeInClusterCount + 1), w)
            else (Break, w)
        end
  end.

(** The [for] loop of [RemoveNodes], followed for at most [fuel] turns. *)
Fixpoint RemoveNodes_for (fuel : nat) (ejectNodes : list string) (s : Z * Z) (w : World)
  : Flow (Z * Z) * World :=
  match fuel with
  | O => (Continue s, w)
  | S fuel =>
      match RemoveNodes_body ejectNodes s w with
      | (Continue s, w) => RemoveNodes_for fuel ejectNodes s w
      | stopped => stopped
      end
  end.

(** [func (c *Couchbase) RemoveNodes], its loop followed for at most
    [fuel] turns. *)
Definition RemoveNodes (fuel : nat) (removeNodes : list string) (w : World)
  : Outcome (option error) * World :=
  let '(ejectNodes, _, _, allNodes, err, w) := GetOTPNodes removeNodes [] [] w in
  match err with
  | Some err => (Returned (Some err), w)
  | None =>
      if negb (Nat.eqb (List.length ejectNodes) (List.length removeNodes))
      then (Returned (Some (Errorf "Some nodes specified to be removed are not part of the cluster" [])), w)
      else
        let (err, w) := Rebalance allNodes ejectNodes w in
        match err with
        | Some err => (Returned (Some err), w)
        | None =>
            match RemoveNodes_for fuel ejectNodes (0, 0) w with
            | (Continue _, w) => (Running, w)
            | (Break, w) => (Returned None, w)
            | (Fatal _, w) => (Exited 1, w)
            end
        end
  end.

(** [func (c *Couchbase) Ping]. *)
Definition Ping (rawURL : string) (w : World) : option error * World :=
  let (answer, w) := requestUrl_ping rawURL w in
  match answer with
  | inl err => (Some err, w)
  | inr resp => (CheckStatusCode resp [200], w)
  end.

(** The [for] loop of [IsReady], followed for at most [fuel] turns. *)
Fixpoint IsReady_for (fuel : nat) (rawURL : string) (timeout : Z) (interval : Ticker)
    (w : World) : Outcome (bool * option error) * World :=
  match fuel with
  | O => (Running, w)
  | S fuel =>
      match select timeout interval w with
      | (TimerFired, _, w) => (Returned (false, Some (NewErrorWaitNodeTimeout rawURL)), w)
      | (Ticked, interval, w) =>
          let (err, w) := Ping rawURL w in
          match err with
          | None => (Returned (true, None), w)
          | Some _ => IsReady_for fuel rawURL timeout interval w
          end
      end
  end.

(** [func (c *Couchbase) IsReady]. *)
Definition IsReady (fuel : nat) (rawURL : string) (timeout : Z) (w : World)
  : Outcome (bool * option error) * World :=
  let interval := time_Tick (1 * Second) w in
  IsReady_for fuel rawURL timeout interval w.

(** [func (c *Couchbase) healthy]. *)
Definition healthy (w : World) : option error * World :=
  let (nodes, w) := Nodes w in
  match nodes with
  | inl err => (Some err, w)
  | inr nodes =>
      if Z.of_nat (List.length nodes) <? 2
      then (Some (Errorf "Node hasn't joined the cluster yet" []), w)
      else
        match getInfo nodes with
        | inl err => (Some err, w)
        | inr info =>
            let (got, expected) := (Status info, "healthy") in
            if negb (String.eqb got expected)
            then (Some (Errorf "status of node is '%s', expected '%s'"
                          [ArgString got; ArgString expected]), w)
            else (None, w)
        end
  end.

(** The [for] loop of [Healthy], followed for at most [fuel] turns. *)
Fixpoint Healthy_for (fuel : nat) (c : Couchbase) (timeout : Z) (interval : Ticker)
    (w : World) : Outcome (option error) * World :=
  match fuel with
  | O => (Running, w)
  | S fuel =>
      match select timeout interval w with
      | (TimerFired, _, w) => (Returned (Some (NewErrorHealthyTimedOut (URL c))), w)
      | (Ticked, interval, w) =>
          let (err, w) := healthy w in
          match err with
          | None => (Returned None, w)
          | Some _ => Healthy_for fuel c timeout interval w
          end
      end
  end.

(** [func (c *Couchbase) Healthy]. *)
Definition Healthy (fuel : nat) (c : Couchbase) (timeout : Z) (w : World)
  : Outcome (option error) * World :=
  let interval := time_Tick (1 * Second) w in
  Healthy_for fuel c timeout interval w.

(** [func (c *Couchbase) KnownOTPNodes]. *)
Definition KnownOTPNodes (w : World) : list string * option error * World :=
  let otpNodes := [] in
  let (nodes, w) := Nodes w in
  match nodes with
  | inl err => (otpNodes, Some err, w)
  | inr nodes =>
      (fold_left (fun otpNodes node => otpNodes ++ [OTPNode node]) nodes otpNodes, None, w)
  end.

(** [func (c *Couchbase) Port], of a handle whose [c.URL.Host] is [Host];
    the result is a [uint16]. *)
Definition Port (Host : string) : Z :=
  let hostParts := Split Host ":"%char in
  if Z.of_nat (List.length hostParts) <? 2 then 80
  else
    match ParseInt (last hostParts "") 16 with
    | (_, Some _) => 80
    | (port, None) => port mod 2 ^ 16
    end.

(** The [for _, node := range status.Nodes] loop of [BucketReady]. *)
Fixpoint BucketReady_range (nodes : list BucketStatus.node) : bool * option error :=
  match nodes with
  | [] => (true, None)
  | node :: rest =>
      if negb (String.eqb (BucketStatus.Status node) "healthy") then (false, None)
      else BucketReady_range rest
  end.

(** [func (c *Couchbase) BucketReady]: [c.request] returns [answer], and
    [Unmarshal] is [json.Unmarshal] into a [BucketStatus].  The deferred
    [resp.Body.Close()] is set up before [err] is looked at: with no
    response, evaluating [resp.Body] panics. *)
Definition BucketReady (Unmarshal : string -> error + BucketStatus.t) (answer : Transport)
  : Run (bool * option error) :=
  match answer with
  | NoResponse _ => Panics "invalid memory address or nil pointer dereference"
  | GaveUp _ err => Done (false, Some err)
  | Responded resp =>
      if negb (RawStatusCode resp =? 200) then Done (false, None)
      else
        let (body, _) := ReadAll resp in
        match Unmarshal body with
        | inl err => Done (false, Some err)
        | inr status =>
            if Z.of_nat (List.length (BucketStatus.Nodes status)) =? 0
            then Done (false, None)
            else Done (BucketReady_range (BucketStatus.Nodes status))
        end
  end.

End Couchbase.

(** ** Scenarios *)

(** A node with the given address, handle, self flag and status. *)
Definition node (hostname otpNode : string) (thisNode : bool) (status : string) : Node :=
  {| Uptime := ""; CouchApiBase := ""; ClusterMembership := "active";
     ClusterCompatibility := 0; Status := status; ThisNode := thisNode;
     Hostname := hostname; Version := ""; OS := ""; Services := [];
     IndexMemoryQuota := 0; MemoryQuota := 0; RebalanceStatus := "";
     OTPCookie := ""; OTPNode := otpNode |}.

(** A [200] response whose body decodes to [value]. *)
Definition ok {A : Type} (value : A) : Answer A :=
  inr {| StatusCode := 200; body := Json "" value |}.

(** A successful topology read that lists [nodes]. *)
Definition topology (nodes : list Node) : Answer Pool :=
  ok {| Nodes := nodes |}.

(** A rebalance-status read with the given period and active handles. *)
Definition progress (period : float) (active : list string) : error + Progress.t :=
  inr {| Progress.RecommendedRefreshPeriod := period; Progress.Nodes := active |}.

(** The world at time [0] in which the remote follows the given scripts,
    every exchange is immediate and a tie goes to the ticker. *)
Definition scripted (topologies : list (Answer Pool)) (identities : list (Answer Cluster))
    (triggers : list (Answer unit)) (statuses : list (error + Progress.t))
    (probes : list (Answer unit)) : World :=
  {| remote := {| poolsDefault := topologies; pools := identities;
                  controllerRebalance := triggers; rebalanceProgress := statuses;
                  pings := probes |};
     now := 0;
     delay := fun _ => 0;
     timerWins := fun _ => false;
     log := [] |}.

(** A fresh client handle: nothing cached. *)
Definition handle (url : string) : Couchbase :=
  {| URL := url; Username := ""; Password := ""; info := None; cluster := None |}.

(** * The vocabulary of the properties *)

(** No byte of [h] is a colon. *)
Definition colon_free (h : string) : Prop :=
  forall i, String.get i h <> Some ":"%char.

(** What the specification calls the host of an address: [h] is the part of
    [a] before its first colon, that is, [h] holds no colon and [a] is
    either [h] or [h] followed by a colon and anything. *)
Definition host_of (a h : string) : Prop :=
  colon_free h /\
  (a = h \/ exists rest, a = String.append h (String ":"%char rest)).

(** The error the specification calls [IncompleteMatch]. *)
Definition IncompleteMatch : error :=
  Errorf "Some nodes specified to be removed are not part of the cluster" [].

(** The request that triggers a rebalance. *)
Definition trigger (knownNodes ejectedNodes : list string) : Event :=
  Requested "POST" "/controller/rebalance"
    [("ejectedNodes", Join ejectedNodes ","); ("knownNodes", Join knownNodes ",")].

(** The host under which a node is listed. *)
Definition node_host (n : Node) : string := stripPort (Hostname n).

(** Every address of [l] matches some node of [nodes]. *)
Definition all_match (l : list string) (nodes : list Node) : Prop :=
  forall a, In a l -> exists n, In n nodes /\ stripPort a = node_host n.

(** [w'] is [w] some events later. *)
Definition later (w w' : World) : Prop := exists evs, log w' = log w ++ evs.

(** What [Nodes] makes of the answer [a] to its request. *)
Definition Nodes_of (a : Answer Pool) : error + list Node :=
  fst (Couchbase.Nodes (scripted [a] [] [] [] [])).

(** An ejected handle is among the handles the status reports active:
    the flag [nodeInRebalance]. *)
Definition in_rebalance (ejectNodes : list string) (status : Progress.t) : bool :=
  existsb (fun node => strSliceContains (Progress.Nodes status) node) ejectNodes.

(** An ejected handle is the handle of a listed node: the flag
    [nodeInCluster]. *)
Definition in_cluster (ejectNodes : list string) (nodes : list Node) : bool :=
  existsb (fun node => strSliceContains ejectNodes (OTPNode node)) nodes.

(** The sleep a successful status poll sets. *)
Definition pause (status : Progress.t) : Z :=
  Z.max (Second * 2)
        (int64 (PrimFloat.mul (Progress.RecommendedRefreshPeriod status) (float64 Second))).

(** One poll that finds the rebalance inactive and an ejected node still
    listed: the status read [r] succeeds with no ejected handle active and
    the topology read answered by [a] succeeds with an ejected handle
    present. *)
Definition still_present (ejectNodes : list string) (r : error + Progress.t)
    (a : Answer Pool) : Prop :=
  exists status nodes,
    r = inr status /\ in_rebalance ejectNodes status = false /\
    Nodes_of a = inr nodes /\ in_cluster ejectNodes nodes = true.

(** The next [n] polls of [w] all find an ejected node still present after
    the rebalance reports inactive. *)
Definition stuck_polls (ejectNodes : list string) (n : nat) (w : World) : Prop :=
  exists rs answers rs' answers',
    rebalanceProgress (remote w) = rs ++ rs' /\
    poolsDefault (remote w) = answers ++ answers' /\
    List.length rs = n /\
    Forall2 (still_present ejectNodes) rs answers.

(** What [Fatalf] is called with when the node does not leave. *)
Definition stuck_message : string :=
  "rebalance finished, but node is still in the cluster. Rebalance failed".

(** The cluster of [A] and [B] in which the rebalance is reported inactive
    and [B], with handle [b], stays listed, poll after poll. *)
Definition stuck_world (n : nat) : World :=
  scripted (repeat (topology [node "A" "a" true "healthy"; node "B" "b" false "healthy"]) n)
           [] [] (repeat (progress 1 []) n) [].


(** [self] is the entry of [nodes] the specification calls the self-node:
    the first one flagged [ThisNode]. *)
Definition self_node (nodes : list Node) (self : Node) : Prop :=
  exists before after,
    nodes = before ++ self :: after /\
    ThisNode self = true /\
    Forall (fun n => ThisNode n = false) before.

(** A call on a handle that goes through one of its caches. *)
Inductive Call : Type :=
| CallCluster
| CallInfo.

(** What such a call returns. *)
Inductive Reply : Type :=
| ClusterReply (r : error + Cluster)
| InfoReply (r : error + Node).

(** One call on the handle [c]. *)
Definition call (op : Call) (c : Couchbase) (w : World) : Reply * Couchbase * World :=
  match op with
  | CallCluster => let '(r, c, w) := Couchbase.Cluster c w in (ClusterReply r, c, w)
  | CallInfo => let '(r, c, w) := Couchbase.Info c w in (InfoReply r, c, w)
  end.

(** The calls [ops] made one after the other on the same handle. *)
Fixpoint session (ops : list Call) (c : Couchbase) (w : World)
  : list Reply * Couchbase * World :=
  match ops with
  | [] => ([], c, w)
  | op :: ops =>
      let '(r, c, w) := call op c w in
      let '(rs, c, w) := session ops c w in
      (r :: rs, c, w)
  end.

(** The reply a call gets from full caches. *)
Definition cached_reply (v : Cluster) (i : Node) (op : Call) : Reply :=
  match op with
  | CallCluster => ClusterReply (inr v)
  | CallInfo => InfoReply (inr i)
  end.

(** A ticker of one second is never more than a second away. *)
Definition ticking (interval : Ticker) (w : World) : Prop :=
  period interval = Second /\ next interval <= now w + Second.

(** No byte of [s] is [c]. *)
Definition free_of (c : ascii) (s : string) : Prop :=
  forall i, String.get i s <> Some c.

(** The answer is a response with status [200]. *)
Definition accepted {A : Type} (a : Answer A) : Prop :=
  exists resp, a = inr resp /\ StatusCode resp = 200.

(** The answer the next request to an endpoint gets from its script. *)
Definition next_answer {A : Type} (script : list (Answer A)) : Answer A :=
  match script with
  | [] => unreachable
  | a :: _ => a
  end.

(** The next poll of [w] finds the removal complete: the status read
    succeeds with no ejected handle active, and the topology read succeeds
    with no ejected handle listed. *)
Definition settled (ejectNodes : list string) (w : World) : Prop :=
  exists status rest a rest' nodes,
    rebalanceProgress (remote w) = inr status :: rest /\
    in_rebalance ejectNodes status = false /\
    poolsDefault (remote w) = a :: rest' /\
    Nodes_of a = inr nodes /\
    in_cluster ejectNodes nodes = false.

(** Polls none of which ends the loop or resets its counter, given by the
    status reads and the topology reads they consume, with the number of
    them that find an ejected node still present: a poll whose status read
    fails, a poll that finds the rebalance inactive and whose topology read
    fails, or a poll that finds an ejected node still present. *)
Inductive unsettled (ejectNodes : list string)
  : list (error + Progress.t) -> list (Answer Pool) -> nat -> Prop :=
| unsettled_none : unsettled ejectNodes [] [] 0
| unsettled_status_failed (err : error) rs answers k :
    unsettled ejectNodes rs answers k ->
    unsettled ejectNodes (inl err :: rs) answers k
| unsettled_read_failed (status : Progress.t) (a : Answer Pool) (err : error) rs answers k :
    in_rebalance ejectNodes status = false ->
    Nodes_of a = inl err ->
    unsettled ejectNodes rs answers k ->
    unsettled ejectNodes (inr status :: rs) (a :: answers) k
| unsettled_present (r : error + Progress.t) (a : Answer Pool) rs answers k :
    still_present ejectNodes r a ->
    unsettled ejectNodes rs answers k ->
    unsettled ejectNodes (r :: rs) (a :: answers) (S k).

(** The cached self-node, if there is one, is flagged [ThisNode]. *)
Definition flagged (c : Couchbase) : Prop :=
  forall i, info c = Some i -> ThisNode i = true.

(** [s] is made of decimal digits, at least one. *)
Fixpoint all_digits (s : string) : bool :=
  match s with
  | EmptyString => true
  | String c rest =>
      (48 <=? Z.of_N (N_of_ascii c)) && (Z.of_N (N_of_ascii c) <=? 57) && all_digits rest
  end.

Definition is_decimal (s : string) : Prop :=
  s <> "" /\ all_digits s = true.

(** The number the digits of [s] write after the digits that wrote [n]. *)
Fixpoint decimal_from (n : Z) (s : string) : Z :=
  match s with
  | EmptyString => n
  | String c rest => decimal_from (10 * n + (Z.of_N (N_of_ascii c) - 48)) rest
  end.

(** The number a decimal numeral writes. *)
Definition decimal_value (s : string) : Z := decimal_from 0 s.

(** What a poll of the removal loop finds when it does not find the removal
    complete: the status read fails; or an ejected handle is reported
    active; or no ejected handle is reported active and the topology read
    fails; or no ejected handle is reported active and an ejected handle is
    still listed. *)
Inductive Observation : Type :=
| StatusFailed
| Active
| ReadFailed
| Present.

(** Successive polls, given by the status reads and the topology reads they
    consume, and what each of them finds. *)
Inductive polls (ejectNodes : list string)
  : list (error + Progress.t) -> list (Answer Pool) -> list Observation -> Prop :=
| polls_none : polls ejectNodes [] [] []
| polls_status_failed (err : error) rs answers obs :
    polls ejectNodes rs answers obs ->
    polls ejectNodes (inl err :: rs) answers (StatusFailed :: obs)
| polls_active (status : Progress.t) rs answers obs :
    in_rebalance ejectNodes status = true ->
    polls ejectNodes rs answers obs ->
    polls ejectNodes (inr status :: rs) answers (Active :: obs)
| polls_read_failed (status : Progress.t) (a : Answer Pool) (err : error) rs answers obs :
    in_rebalance ejectNodes status = false ->
    Nodes_of a = inl err ->
    polls ejectNodes rs answers obs ->
    polls ejectNodes (inr status :: rs) (a :: answers) (ReadFailed :: obs)
| polls_present (r : error + Progress.t) (a : Answer Pool) rs answers obs :
    still_present ejectNodes r a ->
    polls ejectNodes rs answers obs ->
    polls ejectNodes (r :: rs) (a :: answers) (Present :: obs).

Definition is_reset (o : Observation) : bool :=
  match o with
  | Active => true
  | _ => false
  end.

Definition is_present (o : Observation) : bool :=
  match o with
  | Present => true
  | _ => false
  end.

(** The observations made after the last poll that found an ejected handle
    active; all of them when there was no such poll. *)
Fixpoint since_reset (obs : list Observation) : list Observation :=
  match obs with
  | [] => []
  | o :: rest =>
      if is_reset o || existsb is_reset rest then since_reset rest else o :: rest
  end.

(** How many of the polls since the last reset found an ejected node still
    present. *)
Definition stuck_count (obs : list Observation) : nat :=
  List.length (filter is_present (since_reset obs)).

(** The same count when [count] such polls had been made before [obs]. *)
Definition stuck_count_from (count : nat) (obs : list Observation) : nat :=
  if existsb is_reset obs then stuck_count obs else (count + stuck_count obs)%nat.

(** The cluster of [stuck_world], polled thirteen times: the seventh status
    read times out. *)
Definition interrupted_world : World :=
  scripted (repeat (topology [node "A" "a" true "healthy"; node "B" "b" false "healthy"]) 12)
           [] []
           (repeat (progress 1 []) 6 ++ inl (External "timeout") :: repeat (progress 1 []) 6)
           [].

(** What the loop writes to the log, and the sleep it is left with, along
    polls that each fail the status read (answer [inl]) or read the status
    and then fail the topology read (answer [inr]), when no handle is
    ejected and the first of these polls is entered with [sleep]. *)
Fixpoint idle_polls (sleep : Z) (rs : list (error + Progress.t)) : list Event * Z :=
  match rs with
  | [] => ([], sleep)
  | inl _ :: rs =>
      let (evs, last) := idle_polls (500 * Millisecond) rs in
      (Slept sleep :: PolledRebalance :: evs, last)
  | inr status :: rs =>
      let (evs, last) := idle_polls (pause status) rs in
      (Slept sleep :: PolledRebalance :: Requested "GET" "/pools/default" [] :: evs, last)
  end.

(** * Properties *)

(** ** Two runs of [RemoveNodes] *)

(** The cluster of [A], [B] and [C] with handles [a], [b] and [c] is asked
    to remove [B].  The trigger names [b] as ejected and [a,b,c] as known;
    the first status poll reports [b] active, the second reports nothing
    active and the topology read that follows lists [A] and [C] only: the
    call returns without error, having slept two seconds after the first
    poll, whose recommended period was a quarter of a second. *)
Example RemoveNodes_completes :
  let w := scripted [topology [node "A" "a" true "healthy"; node "B" "b" false "healthy";
                               node "C" "c" false "healthy"];
                     topology [node "A" "a" true "healthy"; node "C" "c" false "healthy"]]
                    [] [ok tt] [progress 0.25 ["b"]; progress 5 []] [] in
  fst (Couchbase.RemoveNodes 2 ["B"] w) = Returned None /\
  log (snd (Couchbase.RemoveNodes 2 ["B"] w))
  = [Requested "GET" "/pools/default" [];
     Requested "POST" "/controller/rebalance"
       [("ejectedNodes", "b"); ("knownNodes", "a,b,c")];
     Slept 0; PolledRebalance;
     Slept (2 * Second); PolledRebalance;
     Requested "GET" "/pools/default" []].
Proof. split; vm_compute; reflexivity. Qed.

(** Asked to remove [Z], which is not in the cluster, the call returns
    the error at once, after the topology read alone. *)
Example RemoveNodes_unknown_node :
  let w := scripted [topology [node "A" "a" true "healthy"; node "B" "b" false "healthy"]]
                    [] [ok tt] [] [] in
  forall fuel,
    fst (Couchbase.RemoveNodes fuel ["Z"] w) = Returned (Some IncompleteMatch) /\
    log (snd (Couchbase.RemoveNodes fuel ["Z"] w)) = [Requested "GET" "/pools/default" []].
Proof. intros w fuel. split; reflexivity. Qed.

(** ** Host matching *)

Lemma Split_not_nil (s : string) (sep : ascii) : Split s sep <> [].
Proof.
  destruct s as [|c s]; simpl; [discriminate|].
  destruct (Ascii.eqb c sep); [discriminate|].
  destruct (Split s sep); discriminate.
Qed.

Lemma stripPort_String (c : ascii) (s : string) :
  stripPort (String c s) = if Ascii.eqb c ":"%char then "" else String c (stripPort s).
Proof.
  unfold stripPort; simpl.
  destruct (Ascii.eqb c ":"%char); [reflexivity|].
  pose proof (Split_not_nil s ":"%char) as Hne.
  destruct (Split s ":"%char); [contradiction|reflexivity].
Qed.

Lemma colon_free_String (c : ascii) (h : string) :
  colon_free (String c h) <-> c <> ":"%char /\ colon_free h.
Proof.
  unfold colon_free; split.
  - intros H; split.
    + intros ->. apply (H 0%nat). reflexivity.
    + intros i. apply (H (S i)).
  - intros [Hc Hh] [|i]; simpl.
    + intros E. injection E as E. contradiction.
    + apply Hh.
Qed.

Lemma stripPort_colon_free (a : string) : colon_free (stripPort a).
Proof.
  induction a as [|c a IH].
  - intros [|i]; discriminate.
  - rewrite stripPort_String.
    destruct (Ascii.eqb_spec c ":"%char) as [->|Hc].
    + intros [|i]; discriminate.
    + apply colon_free_String. split; assumption.
Qed.

Lemma stripPort_prefix (a : string) :
  a = stripPort a \/ exists rest, a = String.append (stripPort a) (String ":"%char rest).
Proof.
  induction a as [|c a IH].
  - left; reflexivity.
  - rewrite stripPort_String.
    destruct (Ascii.eqb_spec c ":"%char) as [->|Hc].
    + right. exists a. reflexivity.
    + destruct IH as [IH|[rest IH]].
      * left. congruence.
      * right. exists rest. simpl. congruence.
Qed.

Lemma stripPort_of_host (h : string) :
  colon_free h ->
  stripPort h = h /\ forall rest, stripPort (String.append h (String ":"%char rest)) = h.
Proof.
  induction h as [|c h IH]; intros Hfree.
  - split; [reflexivity|]. intros rest. reflexivity.
  - apply colon_free_String in Hfree as [Hc Hh].
    destruct (IH Hh) as [IH1 IH2].
    split; [|intros rest; simpl]; rewrite stripPort_String;
      destruct (Ascii.eqb_spec c ":"%char); try contradiction; congruence.
Qed.

(** [stripPort] computes the host of the specification. *)
Lemma stripPort_host_of (a h : string) : host_of a h <-> stripPort a = h.
Proof.
  unfold host_of; split.
  - intros [Hfree [->|[rest ->]]]; apply stripPort_of_host; assumption.
  - intros <-. split; [apply stripPort_colon_free|apply stripPort_prefix].
Qed.

Lemma strSliceContains_spec (slice : list string) (item : string) :
  strSliceContains slice item = true <->
  exists elem, In elem slice /\ stripPort item = stripPort elem.
Proof.
  induction slice as [|e slice IH]; simpl.
  - split; [discriminate|intros [? [[] _]]].
  - destruct (String.eqb_spec (stripPort item) (stripPort e)) as [E|NE].
    + split; [|reflexivity]. intros _. exists e. auto.
    + rewrite IH. split.
      * intros [elem [Hin E]]. exists elem. auto.
      * intros [elem [[<-|Hin] E]]; [contradiction|]. exists elem. auto.
Qed.

(** Matching looks at the hosts only: slices with the same hosts contain
    the same items. *)
Lemma strSliceContains_hosts (s1 s2 : list string) (i1 i2 : string) :
  map stripPort s1 = map stripPort s2 -> stripPort i1 = stripPort i2 ->
  strSliceContains s1 i1 = strSliceContains s2 i2.
Proof.
  revert s2; induction s1 as [|e1 s1 IH]; intros [|e2 s2] Hs Hi; try discriminate.
  - reflexivity.
  - simpl in *. injection Hs as He Hs. rewrite Hi, He, (IH s2 Hs Hi). reflexivity.
Qed.

Lemma GetOTPNodes_range_hosts (e1 e2 : list string) (nodes : list Node)
    (outEject outAll : list string) :
  map stripPort e1 = map stripPort e2 ->
  Couchbase.GetOTPNodes_range e1 nodes outEject outAll
  = Couchbase.GetOTPNodes_range e2 nodes outEject outAll.
Proof.
  intros He. revert outEject outAll.
  induction nodes as [|n nodes IH]; intros outEject outAll; simpl; [reflexivity|].
  destruct (String.eqb (OTPNode n) ""); [reflexivity|].
  rewrite (strSliceContains_hosts e1 e2 (Hostname n) (Hostname n) He eq_refl).
  apply IH.
Qed.

(** C4: host matching is port-insensitive.  An item matches a slice exactly
    when the slice holds an element with the same host, the host of an
    address being the part before its first colon; so [a] matches [b]
    exactly when both have the same host.  Resolution depends on the
    requested addresses through their hosts only; in particular
    ["node1:8091"] and ["node1"] resolve identically in every world, and
    against a topology entry with address ["node1"] both resolve to its
    handle. *)
Theorem C4_host_matching_port_insensitive :
  (forall a b : string,
      strSliceContains [b] a = true <-> exists h, host_of a h /\ host_of b h) /\
  (forall (slice : list string) (item : string),
      strSliceContains slice item = true <->
      exists elem h, In elem slice /\ host_of item h /\ host_of elem h) /\
  (forall (l1 l2 failover reAdd : list string) (w : World),
      map stripPort l1 = map stripPort l2 ->
      Couchbase.GetOTPNodes l1 failover reAdd w = Couchbase.GetOTPNodes l2 failover reAdd w) /\
  (forall (failover reAdd : list string) (w : World),
      Couchbase.GetOTPNodes ["node1:8091"] failover reAdd w
      = Couchbase.GetOTPNodes ["node1"] failover reAdd w) /\
  (forall (handle status : string) (self : bool) (addr : string),
      handle <> "" -> addr = "node1:8091" \/ addr = "node1" ->
      fst (Couchbase.GetOTPNodes [addr] [] []
             (scripted [topology [node "node1" handle self status]] [] [] [] []))
      = ([handle], [], [], [handle], None)).
Proof.
  assert (Hslice : forall slice item,
             strSliceContains slice item = true <->
             exists elem h, In elem slice /\ host_of item h /\ host_of elem h).
  { intros slice item. rewrite strSliceContains_spec. split.
    - intros [elem [Hin E]]. exists elem, (stripPort item).
      split; [assumption|]. split; apply stripPort_host_of; congruence.
    - intros [elem [h [Hin [Hi He]]]]. exists elem. split; [assumption|].
      apply stripPort_host_of in Hi, He. congruence. }
  assert (Hres : forall l1 l2 failover reAdd w,
             map stripPort l1 = map stripPort l2 ->
             Couchbase.GetOTPNodes l1 failover reAdd w
             = Couchbase.GetOTPNodes l2 failover reAdd w).
  { intros l1 l2 failover reAdd w Hl. unfold Couchbase.GetOTPNodes.
    destruct (Couchbase.Nodes w) as [[err|nodes] w']; [reflexivity|].
    rewrite (GetOTPNodes_range_hosts l1 l2 nodes [] [] Hl). reflexivity. }
  split; [|split; [exact Hslice|split; [exact Hres|split]]].
  - intros a b. rewrite Hslice. split.
    + intros [elem [h [[<-|[]] [Ha Hb]]]]. exists h. auto.
    + intros [h [Ha Hb]]. exists b, h. simpl. auto.
  - intros failover reAdd w. apply Hres. reflexivity.
  - intros handle status self addr Hh Haddr.
    unfold Couchbase.GetOTPNodes, Couchbase.Nodes; simpl.
    destruct (String.eqb_spec handle "") as [->|_]; [contradiction|].
    destruct Haddr as [->| ->]; reflexivity.
Qed.

(** ** Identity resolution *)

(** A topology read logs one request and changes nothing else but the
    remote's script and the clock. *)
Lemma Nodes_log (w : World) :
  log (snd (Couchbase.Nodes w)) = log w ++ [Requested "GET" "/pools/default" []].
Proof.
  unfold Couchbase.Nodes, request_poolsDefault.
  destruct (poolsDefault (remote w)) as [|a rest]; simpl.
  - reflexivity.
  - destruct (Couchbase.Request a) as [err|resp]; [reflexivity|].
    destruct (StatusCode resp =? 404); [reflexivity|].
    destruct (Couchbase.CheckStatusCode resp [200]); [reflexivity|].
    destruct (body resp); reflexivity.
Qed.

Lemma GetOTPNodes_range_incl (ejectNodes : list string) (nodes : list Node) :
  forall outEject outAll outEject' outAll' err,
    Couchbase.GetOTPNodes_range ejectNodes nodes outEject outAll = (outEject', outAll', err) ->
    incl outEject outAll -> incl outEject' outAll'.
Proof.
  induction nodes as [|n nodes IH]; simpl; intros outEject outAll outEject' outAll' err H Hincl.
  - injection H as <- <- _. assumption.
  - destruct (String.eqb (OTPNode n) "").
    + injection H as <- <- _. assumption.
    + apply IH in H; [assumption|].
      destruct (strSliceContains ejectNodes (Hostname n)).
      * apply incl_app; [apply incl_appl; assumption|apply incl_appr, incl_refl].
      * apply incl_appl; assumption.
Qed.

(** The loop stops at the first node without a handle. *)
Lemma GetOTPNodes_range_missing (ejectNodes : list string) (nodes : list Node) :
  Exists (fun n => OTPNode n = "") nodes ->
  forall outEject outAll, exists n outEject' outAll',
    In n nodes /\ OTPNode n = "" /\
    Couchbase.GetOTPNodes_range ejectNodes nodes outEject outAll
    = (outEject', outAll', Some (Errorf "Unable to get OTP name for %+v" [ArgNode n])).
Proof.
  induction nodes as [|m nodes IH]; intros Hex outEject outAll.
  - inversion Hex.
  - simpl. destruct (String.eqb_spec (OTPNode m) "") as [E|NE].
    + exists m, outEject, outAll. auto.
    + assert (Hex' : Exists (fun n => OTPNode n = "") nodes)
        by (inversion Hex; [contradiction|assumption]).
      destruct (IH Hex' (if strSliceContains ejectNodes (Hostname m)
                         then outEject ++ [OTPNode m] else outEject)
                   (outAll ++ [OTPNode m]))
        as [n [oe [oa [Hin [Hn Hr]]]]].
      exists n, oe, oa. auto.
Qed.

(** C7: when [GetOTPNodes] succeeds, every handle of the returned eject
    list is in the returned list of all handles. *)
Theorem C7_eject_subset_of_all :
  forall (ejectNodes failoverNode reAddNode : list string) (w : World)
         (outEjectNodes outFailoverNodes outReAddNodes outAllNodes : list string),
    fst (Couchbase.GetOTPNodes ejectNodes failoverNode reAddNode w)
    = (outEjectNodes, outFailoverNodes, outReAddNodes, outAllNodes, None) ->
    incl outEjectNodes outAllNodes.
Proof.
  intros ejectNodes failoverNode reAddNode w oe of_ or_ oa H.
  unfold Couchbase.GetOTPNodes in H.
  destruct (Couchbase.Nodes w) as [[err|nodes] w']; [discriminate|].
  destruct (Couchbase.GetOTPNodes_range ejectNodes nodes [] []) as [[oe' oa'] err] eqn:Hr.
  simpl in H. injection H as <- _ _ <- _.
  eapply GetOTPNodes_range_incl; [exact Hr|apply incl_refl].
Qed.

(** In a cluster of [A], [B:8091] and [C], asking for [B] resolves to the
    handle [b] among the handles [a], [b] and [c]. *)
Lemma C7_eject_subset_of_all_witness :
  fst (Couchbase.GetOTPNodes ["B"] [] []
         (scripted [topology [node "A" "a" true "healthy"; node "B:8091" "b" false "healthy";
                              node "C" "c" false "healthy"]] [] [] [] []))
  = (["b"], [], [], ["a"; "b"; "c"], None)
  /\ incl ["b"] ["a"; "b"; "c"].
Proof.
  split; [reflexivity|].
  exact (C7_eject_subset_of_all ["B"] [] []
           (scripted [topology [node "A" "a" true "healthy"; node "B:8091" "b" false "healthy";
                                node "C" "c" false "healthy"]] [] [] [] [])
           ["b"] [] [] ["a"; "b"; "c"] eq_refl).
Defined.

(** C9: when a node of the topology read has an empty handle, resolution
    returns the error naming the first such node; the lists collected up to
    that node come back beside the error, never as a success.  The caller
    [RemoveNodes] returns that error at once: the topology read is the only
    request it has issued. *)
Theorem C9_missing_identity_aborts :
  forall (ejectNodes failoverNode reAddNode : list string) (w w' : World) (nodes : list Node),
    Couchbase.Nodes w = (inr nodes, w') ->
    Exists (fun n => OTPNode n = "") nodes ->
    exists (n : Node) (outEjectNodes outAllNodes : list string),
      In n nodes /\ OTPNode n = "" /\
      Couchbase.GetOTPNodes ejectNodes failoverNode reAddNode w
      = (outEjectNodes, [], [], outAllNodes,
         Some (Errorf "Unable to get OTP name for %+v" [ArgNode n]), w') /\
      (forall fuel,
          Couchbase.RemoveNodes fuel ejectNodes w
          = (Returned (Some (Errorf "Unable to get OTP name for %+v" [ArgNode n])), w')) /\
      log w' = log w ++ [Requested "GET" "/pools/default" []].
Proof.
  intros ejectNodes failoverNode reAddNode w w' nodes HN Hex.
  destruct (GetOTPNodes_range_missing ejectNodes nodes Hex [] [])
    as [n [oe [oa [Hin [Hn Hr]]]]].
  exists n, oe, oa.
  assert (HG : forall f r, Couchbase.GetOTPNodes ejectNodes f r w
               = (oe, [], [], oa, Some (Errorf "Unable to get OTP name for %+v" [ArgNode n]), w')).
  { intros f r. unfold Couchbase.GetOTPNodes. rewrite HN, Hr. reflexivity. }
  repeat split; try assumption.
  - apply HG.
  - intros fuel. unfold Couchbase.RemoveNodes. rewrite HG. reflexivity.
  - pose proof (Nodes_log w) as HL. rewrite HN in HL. exact HL.
Qed.

(** Node [B] has not finished joining: resolution stops there, with the
    handle of [A] already collected. *)
Lemma C9_missing_identity_aborts_witness :
  exists (n : Node) (outEjectNodes outAllNodes : list string),
    In n [node "A" "a" true "healthy"; node "B" "" false "warmup"] /\ OTPNode n = "" /\
    Couchbase.GetOTPNodes ["A"] [] []
      (scripted [topology [node "A" "a" true "healthy"; node "B" "" false "warmup"]] [] [] [] [])
    = (outEjectNodes, [], [], outAllNodes,
       Some (Errorf "Unable to get OTP name for %+v" [ArgNode n]),
       snd (Couchbase.Nodes
              (scripted [topology [node "A" "a" true "healthy"; node "B" "" false "warmup"]]
                 [] [] [] []))) /\
    (forall fuel,
        Couchbase.RemoveNodes fuel ["A"]
          (scripted [topology [node "A" "a" true "healthy"; node "B" "" false "warmup"]] [] [] [] [])
        = (Returned (Some (Errorf "Unable to get OTP name for %+v" [ArgNode n])),
           snd (Couchbase.Nodes
                  (scripted [topology [node "A" "a" true "healthy"; node "B" "" false "warmup"]]
                     [] [] [] [])))) /\
    log (snd (Couchbase.Nodes
                (scripted [topology [node "A" "a" true "healthy"; node "B" "" false "warmup"]]
                   [] [] [] [])))
    = log (scripted [topology [node "A" "a" true "healthy"; node "B" "" false "warmup"]] [] [] [] [])
      ++ [Requested "GET" "/pools/default" []].
Proof.
  apply (C9_missing_identity_aborts ["A"] [] []
           (scripted [topology [node "A" "a" true "healthy"; node "B" "" false "warmup"]] [] [] [] [])
           _ [node "A" "a" true "healthy"; node "B" "" false "warmup"]).
  - reflexivity.
  - apply Exists_cons_tl, Exists_cons_hd. reflexivity.
Defined.

(** C10: [GetOTPNodes] does not look at [failoverNode] and [reAddNode]:
    its second and third results are always empty, and the whole result is
    the same whatever is passed in those two positions. *)
Theorem C10_failover_readd_ignored :
  forall (ejectNodes failoverNode reAddNode failoverNode' reAddNode' : list string) (w : World),
    (let '(_, outFailoverNodes, outReAddNodes, _, _, _) :=
       Couchbase.GetOTPNodes ejectNodes failoverNode reAddNode w in
     outFailoverNodes = [] /\ outReAddNodes = []) /\
    Couchbase.GetOTPNodes ejectNodes failoverNode reAddNode w
    = Couchbase.GetOTPNodes ejectNodes failoverNode' reAddNode' w.
Proof.
  intros ejectNodes failoverNode reAddNode failoverNode' reAddNode' w.
  unfold Couchbase.GetOTPNodes.
  destruct (Couchbase.Nodes w) as [[err|nodes] w'].
  - split; [split|]; reflexivity.
  - destruct (Couchbase.GetOTPNodes_range ejectNodes nodes [] []) as [[oe oa] err].
    split; [split|]; reflexivity.
Qed.

(** ** Resolution followed by the trigger *)

Lemma later_refl (w : World) : later w w.
Proof. exists []. symmetry. apply app_nil_r. Qed.

Lemma later_trans (w1 w2 w3 : World) : later w1 w2 -> later w2 w3 -> later w1 w3.
Proof.
  intros [e1 H1] [e2 H2]. exists (e1 ++ e2). rewrite H2, H1. symmetry. apply app_assoc.
Qed.

Lemma later_Sleep (d : Z) (w : World) : later w (time_Sleep d w).
Proof. exists [Slept d]. reflexivity. Qed.

Lemma later_Nodes (w : World) : later w (snd (Couchbase.Nodes w)).
Proof. eexists. apply Nodes_log. Qed.

Lemma RebalanceStatus_log (w : World) :
  log (snd (Couchbase.RebalanceStatus w)) = log w ++ [PolledRebalance].
Proof.
  unfold Couchbase.RebalanceStatus.
  destruct (rebalanceProgress (remote w)); reflexivity.
Qed.

Lemma later_RebalanceStatus (w : World) : later w (snd (Couchbase.RebalanceStatus w)).
Proof. eexists. apply RebalanceStatus_log. Qed.

Lemma Rebalance_log (knownNodes ejectedNodes : list string) (w : World) :
  log (snd (Couchbase.Rebalance knownNodes ejectedNodes w))
  = log w ++ [trigger knownNodes ejectedNodes].
Proof.
  unfold Couchbase.Rebalance, request_controllerRebalance.
  destruct (controllerRebalance (remote w)) as [|a rest]; simpl.
  - reflexivity.
  - destruct (Couchbase.Request a); reflexivity.
Qed.

Lemma later_body (ejectNodes : list string) (s : Z * Z) (w : World) :
  later w (snd (Couchbase.RemoveNodes_body ejectNodes s w)).
Proof.
  destruct s as [sleep count]. unfold Couchbase.RemoveNodes_body.
  pose proof (later_Sleep sleep w) as H1.
  pose proof (later_RebalanceStatus (time_Sleep sleep w)) as H2.
  destruct (Couchbase.RebalanceStatus (time_Sleep sleep w)) as [[err|status] w1]; simpl in H2.
  - simpl. eapply later_trans; eassumption.
  - match goal with |- context [if ?b then _ else _] => destruct b end.
    + simpl. eapply later_trans; eassumption.
    + pose proof (later_Nodes w1) as H3.
      destruct (Couchbase.Nodes w1) as [[err|nodes] w2]; simpl in H3.
      * simpl. eauto using later_trans.
      * repeat match goal with |- context [if ?b then _ else _] => destruct b end;
          simpl; eauto using later_trans.
Qed.

Lemma later_for (ejectNodes : list string) (fuel : nat) :
  forall s w, later w (snd (Couchbase.RemoveNodes_for fuel ejectNodes s w)).
Proof.
  induction fuel as [|fuel IH]; intros s w; simpl.
  - apply later_refl.
  - pose proof (later_body ejectNodes s w) as H.
    destruct (Couchbase.RemoveNodes_body ejectNodes s w) as [[s'| |msg] w']; simpl in *.
    + eapply later_trans; [exact H|apply IH].
    + exact H.
    + exact H.
Qed.

(** When every node has a handle the loop of [GetOTPNodes] collects the
    handles of all nodes, and of those whose address matches. *)
Lemma GetOTPNodes_range_complete (ejectNodes : list string) (nodes : list Node) :
  Forall (fun n => OTPNode n <> "") nodes ->
  forall outEject outAll,
    Couchbase.GetOTPNodes_range ejectNodes nodes outEject outAll
    = (outEject ++ map OTPNode
                     (filter (fun n => strSliceContains ejectNodes (Hostname n)) nodes),
       outAll ++ map OTPNode nodes, None).
Proof.
  induction 1 as [|n nodes Hn _ IH]; intros outEject outAll; simpl.
  - rewrite !app_nil_r. reflexivity.
  - destruct (String.eqb_spec (OTPNode n) "") as [E|_]; [contradiction|].
    rewrite IH. destruct (strSliceContains ejectNodes (Hostname n)); simpl;
      rewrite <- ?app_assoc; reflexivity.
Qed.

Lemma strSliceContains_In (slice : list string) (item : string) :
  strSliceContains slice item = true <-> In (stripPort item) (map stripPort slice).
Proof.
  rewrite strSliceContains_spec, in_map_iff. split.
  - intros [elem [Hin E]]. exists elem. auto.
  - intros [elem [E Hin]]. exists elem. auto.
Qed.

(** Nodes picked out of nodes with distinct hosts have distinct hosts. *)
Lemma distinct_hosts_filter (keep : Node -> bool) (nodes : list Node) :
  NoDup (map node_host nodes) -> NoDup (map node_host (filter keep nodes)).
Proof.
  induction nodes as [|n nodes IH]; simpl; intros Hnd; [constructor|].
  apply NoDup_cons_iff in Hnd as [Hfresh Hnd].
  destruct (keep n); simpl; [|auto].
  apply NoDup_cons_iff. split; [|auto].
  intros Hin. apply Hfresh.
  apply in_map_iff in Hin as [m [E Hm]].
  apply filter_In in Hm as [Hm _]. rewrite <- E. apply in_map. exact Hm.
Qed.

(** With distinct hosts on both sides, as many nodes match as there are
    addresses exactly when every address matches a node. *)
Lemma matching_count (l : list string) (nodes : list Node) :
  NoDup (map stripPort l) -> NoDup (map node_host nodes) ->
  List.length (filter (fun n => strSliceContains l (Hostname n)) nodes) = List.length l
  <-> all_match l nodes.
Proof.
  intros Hl Hn.
  set (matched := filter (fun n => strSliceContains l (Hostname n)) nodes).
  assert (Hnd : NoDup (map node_host matched)) by (apply distinct_hosts_filter; assumption).
  assert (Hincl : incl (map node_host matched) (map stripPort l)).
  { intros h Hh. apply in_map_iff in Hh as [n [<- Hin]].
    apply filter_In in Hin as [_ Hp]. apply strSliceContains_In in Hp. exact Hp. }
  rewrite <- (length_map node_host matched), <- (length_map stripPort l).
  split.
  - intros Hlen a Ha.
    assert (Hback : incl (map stripPort l) (map node_host matched)).
    { apply NoDup_length_incl; [assumption|lia|assumption]. }
    assert (Hin : In (stripPort a) (map node_host matched))
      by (apply Hback, in_map; assumption).
    apply in_map_iff in Hin as [n [E Hin]]. apply filter_In in Hin as [Hin _].
    exists n. auto.
  - intros Hall. apply Nat.le_antisymm.
    + apply NoDup_incl_length; assumption.
    + apply NoDup_incl_length; [assumption|].
      intros h Hh. apply in_map_iff in Hh as [a [<- Ha]].
      destruct (Hall a Ha) as [n [Hin E]]. rewrite E. apply in_map.
      apply filter_In. split; [assumption|].
      apply strSliceContains_In. unfold node_host in E. rewrite <- E.
      apply in_map. assumption.
Qed.

Lemma GetOTPNodes_resolved (removeNodes failoverNode reAddNode : list string)
    (w w' : World) (nodes : list Node) :
  Couchbase.Nodes w = (inr nodes, w') ->
  Forall (fun n => OTPNode n <> "") nodes ->
  Couchbase.GetOTPNodes removeNodes failoverNode reAddNode w
  = (map OTPNode (filter (fun n => strSliceContains removeNodes (Hostname n)) nodes),
     [], [], map OTPNode nodes, None, w').
Proof.
  intros HN Hotp. unfold Couchbase.GetOTPNodes.
  rewrite HN, (GetOTPNodes_range_complete removeNodes nodes Hotp). reflexivity.
Qed.

(** Once the resolved list is as long as the requested one, the trigger is
    the next request, whatever happens afterwards. *)
Lemma RemoveNodes_triggers (fuel : nat) (removeNodes : list string) (w w' : World)
    (ejectNodes allNodes : list string) :
  Couchbase.GetOTPNodes removeNodes [] [] w = (ejectNodes, [], [], allNodes, None, w') ->
  List.length ejectNodes = List.length removeNodes ->
  exists evs,
    log (snd (Couchbase.RemoveNodes fuel removeNodes w))
    = log w' ++ trigger allNodes ejectNodes :: evs.
Proof.
  intros HG Hlen. unfold Couchbase.RemoveNodes. rewrite HG, Hlen, Nat.eqb_refl. simpl.
  pose proof (Rebalance_log allNodes ejectNodes w') as HR.
  destruct (Couchbase.Rebalance allNodes ejectNodes w') as [[err|] w1]; simpl in HR.
  - exists []. exact HR.
  - pose proof (later_for ejectNodes fuel (0, 0) w1) as [evs HL].
    exists evs.
    destruct (Couchbase.RemoveNodes_for fuel ejectNodes (0, 0) w1) as [[s| |msg] w2];
      simpl in *; rewrite HL, HR, <- app_assoc; reflexivity.
Qed.

Lemma RemoveNodes_incomplete (fuel : nat) (removeNodes : list string) (w w' : World)
    (ejectNodes allNodes : list string) :
  Couchbase.GetOTPNodes removeNodes [] [] w = (ejectNodes, [], [], allNodes, None, w') ->
  List.length ejectNodes <> List.length removeNodes ->
  Couchbase.RemoveNodes fuel removeNodes w = (Returned (Some IncompleteMatch), w').
Proof.
  intros HG Hlen. unfold Couchbase.RemoveNodes. rewrite HG.
  apply Nat.eqb_neq in Hlen. rewrite Hlen. reflexivity.
Qed.

(** C2, as the code has it: let the topology read succeed with nodes that
    all have a handle and pairwise distinct hosts, and let the requested
    addresses have pairwise distinct hosts.  Resolution returns the handles
    of the matching nodes.  If every address matches a node, there are as
    many of them as addresses and the trigger is issued, right after the
    topology read.  Otherwise [RemoveNodes] returns [IncompleteMatch] and
    the topology read is the only request it has issued. *)
Theorem C2_resolution_then_trigger :
  forall (removeNodes : list string) (w w' : World) (nodes : list Node),
    Couchbase.Nodes w = (inr nodes, w') ->
    Forall (fun n => OTPNode n <> "") nodes ->
    NoDup (map node_host nodes) ->
    NoDup (map stripPort removeNodes) ->
    exists ejectNodes allNodes : list string,
      Couchbase.GetOTPNodes removeNodes [] [] w = (ejectNodes, [], [], allNodes, None, w') /\
      (all_match removeNodes nodes ->
       List.length ejectNodes = List.length removeNodes /\
       forall fuel, exists evs,
           log (snd (Couchbase.RemoveNodes fuel removeNodes w))
           = log w ++ Requested "GET" "/pools/default" []
                     :: trigger allNodes ejectNodes :: evs) /\
      (~ all_match removeNodes nodes ->
       forall fuel,
         Couchbase.RemoveNodes fuel removeNodes w = (Returned (Some IncompleteMatch), w') /\
         log w' = log w ++ [Requested "GET" "/pools/default" []]).
Proof.
  intros removeNodes w w' nodes HN Hotp Hnodes Hreq.
  pose proof (GetOTPNodes_resolved removeNodes [] [] w w' nodes HN Hotp) as HG.
  pose proof (matching_count removeNodes nodes Hreq Hnodes) as Hcount.
  assert (HL : log w' = log w ++ [Requested "GET" "/pools/default" []]).
  { pose proof (Nodes_log w) as HL. rewrite HN in HL. exact HL. }
  eexists _, _. split; [exact HG|]. rewrite length_map. split.
  - intros Hall. apply Hcount in Hall. split; [exact Hall|].
    intros fuel.
    destruct (RemoveNodes_triggers fuel removeNodes w w' _ _ HG) as [evs Hevs].
    { rewrite length_map. exact Hall. }
    exists evs. rewrite Hevs, HL, <- app_assoc. reflexivity.
  - intros Hnot fuel. split; [|exact HL].
    apply (RemoveNodes_incomplete fuel removeNodes w w' _ _ HG).
    rewrite length_map. intros Hlen. apply Hnot, Hcount, Hlen.
Qed.

(** The cluster of [A], [B:8091] and [C], asked to remove [B:9000] and
    [C]: both match, the handles [b] and [c] are resolved, and the trigger
    that names them follows the topology read. *)
Lemma C2_resolution_then_trigger_witness :
  exists ejectNodes allNodes : list string,
    ejectNodes = ["b"; "c"] /\ allNodes = ["a"; "b"; "c"] /\
    List.length ejectNodes = List.length ["B:9000"; "C"] /\
    exists evs,
      log (snd (Couchbase.RemoveNodes 1 ["B:9000"; "C"]
                  (scripted [topology [node "A" "a" true "healthy";
                                       node "B:8091" "b" false "healthy";
                                       node "C" "c" false "healthy"]] [] [ok tt] [] [])))
      = log (scripted [topology [node "A" "a" true "healthy";
                                 node "B:8091" "b" false "healthy";
                                 node "C" "c" false "healthy"]] [] [ok tt] [] [])
        ++ Requested "GET" "/pools/default" [] :: trigger allNodes ejectNodes :: evs.
Proof.
  destruct (C2_resolution_then_trigger ["B:9000"; "C"]
              (scripted [topology [node "A" "a" true "healthy";
                                   node "B:8091" "b" false "healthy";
                                   node "C" "c" false "healthy"]] [] [ok tt] [] [])
              _
              [node "A" "a" true "healthy"; node "B:8091" "b" false "healthy";
               node "C" "c" false "healthy"] eq_refl)
    as [ejectNodes [allNodes [HG [Hall _]]]].
  - repeat constructor; discriminate.
  - repeat constructor; simpl; intuition discriminate.
  - repeat constructor; simpl; intuition discriminate.
  - exists ejectNodes, allNodes.
    vm_compute in HG. injection HG as <- <-.
    split; [reflexivity|split; [reflexivity|]].
    destruct Hall as [Hlen Hlog].
    + intros a [<-|[<-|[]]].
      * exists (node "B:8091" "b" false "healthy"). split; [simpl; auto|reflexivity].
      * exists (node "C" "c" false "healthy"). split; [simpl; auto|reflexivity].
    + split; [exact Hlen|apply Hlog].
Defined.

(** C2 as stated fails when an address is requested twice: both addresses
    of [["A"; "A"]] match node [A], yet only one handle is resolved and
    [RemoveNodes] returns [IncompleteMatch] without issuing the trigger. *)
Lemma C2_counterexample :
  all_match ["A"; "A"] [node "A" "a" true "healthy"] /\
  fst (Couchbase.GetOTPNodes ["A"; "A"] [] []
         (scripted [topology [node "A" "a" true "healthy"]] [] [ok tt] [] []))
  = (["a"], [], [], ["a"], None) /\
  List.length ["a"] <> List.length ["A"; "A"] /\
  forall fuel,
    fst (Couchbase.RemoveNodes fuel ["A"; "A"]
           (scripted [topology [node "A" "a" true "healthy"]] [] [ok tt] [] []))
    = Returned (Some IncompleteMatch) /\
    log (snd (Couchbase.RemoveNodes fuel ["A"; "A"]
                (scripted [topology [node "A" "a" true "healthy"]] [] [ok tt] [] [])))
    = [Requested "GET" "/pools/default" []].
Proof.
  split; [|split; [reflexivity|split; [discriminate|]]].
  - intros a [<-|[<-|[]]]; eexists; (split; [left; reflexivity|reflexivity]).
  - intros fuel. split; reflexivity.
Qed.

(** ** The polling loop of [RemoveNodes] *)

Lemma flag_fold {A : Type} (p : A -> bool) (l : list A) :
  fold_left (fun flag x => if p x then true else flag) l false = existsb p l.
Proof.
  assert (H : forall b, fold_left (fun flag x => if p x then true else flag) l b
                        = b || existsb p l).
  { induction l as [|x l IH]; intros b; simpl.
    - symmetry. apply orb_false_r.
    - rewrite IH. destruct (p x), b; reflexivity. }
  apply H.
Qed.

Lemma Nodes_step (w : World) (a : Answer Pool) (rest : list (Answer Pool)) :
  poolsDefault (remote w) = a :: rest ->
  fst (Couchbase.Nodes w) = Nodes_of a /\
  poolsDefault (remote (snd (Couchbase.Nodes w))) = rest /\
  rebalanceProgress (remote (snd (Couchbase.Nodes w))) = rebalanceProgress (remote w).
Proof.
  intros H. unfold Nodes_of, Couchbase.Nodes, request_poolsDefault. rewrite H. simpl.
  destruct (Couchbase.Request a) as [err|resp]; [auto|].
  destruct (StatusCode resp =? 404); [auto|].
  destruct (Couchbase.CheckStatusCode resp [200]); [auto|].
  destruct (body resp); auto.
Qed.

Lemma RebalanceStatus_step (w : World) (r : error + Progress.t)
    (rest : list (error + Progress.t)) :
  rebalanceProgress (remote w) = r :: rest ->
  fst (Couchbase.RebalanceStatus w) = r /\
  rebalanceProgress (remote (snd (Couchbase.RebalanceStatus w))) = rest /\
  poolsDefault (remote (snd (Couchbase.RebalanceStatus w))) = poolsDefault (remote w).
Proof.
  intros H. unfold Couchbase.RebalanceStatus. rewrite H. auto.
Qed.

Lemma sleep_floor (status : Progress.t) :
  (let sleep :=
     int64 (PrimFloat.mul (Progress.RecommendedRefreshPeriod status) (float64 Second)) in
   if sleep <? Second * 2 then Second * 2 else sleep) = pause status.
Proof.
  unfold pause. cbv zeta.
  destruct (Z.ltb_spec
              (int64 (PrimFloat.mul (Progress.RecommendedRefreshPeriod status) (float64 Second)))
              (Second * 2)); lia.
Qed.

(** The turn of the loop taken by a successful status poll. *)
Lemma body_polled (ejectNodes : list string) (sleep count : Z) (w : World)
    (status : Progress.t) (rs : list (error + Progress.t)) :
  rebalanceProgress (remote w) = inr status :: rs ->
  exists w1,
    rebalanceProgress (remote w1) = rs /\
    poolsDefault (remote w1) = poolsDefault (remote w) /\
    Couchbase.RemoveNodes_body ejectNodes (sleep, count) w
    = if in_rebalance ejectNodes status then (Continue (pause status, 0), w1)
      else
        match Couchbase.Nodes w1 with
        | (inl _, w2) => (Continue (pause status, count), w2)
        | (inr nodes, w2) =>
            if in_cluster ejectNodes nodes then
              if count >? 10
              then (Fatal "rebalance finished, but node is still in the cluster. Rebalance failed",
                    w2)
              else (Continue (pause status, count + 1), w2)
            else (Break, w2)
        end.
Proof.
  intros H.
  assert (H' : rebalanceProgress (remote (time_Sleep sleep w)) = inr status :: rs) by exact H.
  destruct (RebalanceStatus_step _ _ _ H') as [Hr [Hrs Hts]].
  exists (snd (Couchbase.RebalanceStatus (time_Sleep sleep w))).
  split; [exact Hrs|split; [exact Hts|]].
  unfold Couchbase.RemoveNodes_body.
  destruct (Couchbase.RebalanceStatus (time_Sleep sleep w)) as [r w1].
  simpl in Hr. subst r. simpl snd.
  rewrite flag_fold.
  change (existsb (strSliceContains (Progress.Nodes status)) ejectNodes)
    with (in_rebalance ejectNodes status).
  pose proof (sleep_floor status) as Hfloor. cbv zeta in Hfloor. rewrite Hfloor.
  destruct (in_rebalance ejectNodes status); [reflexivity|].
  destruct (Couchbase.Nodes w1) as [[err|nodes] w2]; [reflexivity|].
  rewrite flag_fold. reflexivity.
Qed.

(** One poll that finds an ejected node still present. *)
Lemma body_still_present (ejectNodes : list string) (sleep count : Z) (w : World)
    (r : error + Progress.t) (a : Answer Pool)
    (rs : list (error + Progress.t)) (answers : list (Answer Pool)) :
  still_present ejectNodes r a ->
  rebalanceProgress (remote w) = r :: rs ->
  poolsDefault (remote w) = a :: answers ->
  exists sleep' w',
    rebalanceProgress (remote w') = rs /\
    poolsDefault (remote w') = answers /\
    Couchbase.RemoveNodes_body ejectNodes (sleep, count) w
    = (if count >? 10 then Fatal stuck_message else Continue (sleep', count + 1), w').
Proof.
  intros [status [nodes [-> [Hinactive [Hread Hpresent]]]]] Hrs Hts.
  destruct (body_polled ejectNodes sleep count w status rs Hrs) as [w1 [Hrs1 [Hts1 Hbody]]].
  rewrite Hinactive in Hbody. rewrite Hts in Hts1.
  destruct (Nodes_step w1 a answers Hts1) as [Hn [Hts2 Hrs2]].
  destruct (Couchbase.Nodes w1) as [read w2]. simpl in Hn, Hts2, Hrs2.
  rewrite Hn, Hread, Hpresent in Hbody.
  exists (pause status), w2.
  split; [congruence|split; [assumption|]].
  rewrite Hbody. unfold stuck_message. destruct (count >? 10); reflexivity.
Qed.

(** A loop that has stopped stays stopped, however long it is followed. *)
Lemma for_stopped (ejectNodes : list string) (n k : nat) :
  forall s w r w',
    Couchbase.RemoveNodes_for n ejectNodes s w = (r, w') ->
    (forall s', r <> Continue s') ->
    Couchbase.RemoveNodes_for (n + k) ejectNodes s w = (r, w').
Proof.
  induction n as [|n IH]; intros s w r w' H Hstop; simpl in *.
  - injection H as <- <-. exfalso. apply (Hstop s). reflexivity.
  - destruct (Couchbase.RemoveNodes_body ejectNodes s w) as [[s1| |msg] w1]; auto.
Qed.

Lemma stuck_world_polls (n : nat) : stuck_polls ["b"] n (stuck_world n).
Proof.
  exists (repeat (progress 1 []) n),
         (repeat (topology [node "A" "a" true "healthy"; node "B" "b" false "healthy"]) n),
         [], [].
  simpl. rewrite !app_nil_r, repeat_length. repeat split.
  induction n as [|n IH]; simpl; constructor; [|exact IH].
  eexists _, _. repeat split; reflexivity.
Qed.

(** ** Sleeping between polls *)


(** The turn of the loop taken by a failed status poll. *)
Lemma body_failed (ejectNodes : list string) (sleep count : Z) (w : World)
    (err : error) (rest : list (error + Progress.t)) :
  rebalanceProgress (remote w) = inl err :: rest ->
  exists w',
    Couchbase.RemoveNodes_body ejectNodes (sleep, count) w
    = (Continue (500 * Millisecond, count), w') /\
    rebalanceProgress (remote w') = rest /\
    poolsDefault (remote w') = poolsDefault (remote w) /\
    log w' = log w ++ [Slept sleep; PolledRebalance].
Proof.
  intros H.
  assert (H' : rebalanceProgress (remote (time_Sleep sleep w)) = inl err :: rest) by exact H.
  destruct (RebalanceStatus_step _ _ _ H') as [Hr [Hrs Hts]].
  pose proof (RebalanceStatus_log (time_Sleep sleep w)) as HL.
  unfold Couchbase.RemoveNodes_body.
  destruct (Couchbase.RebalanceStatus (time_Sleep sleep w)) as [r w1].
  simpl in Hr, Hrs, Hts, HL. subst r.
  exists w1. repeat split; try assumption.
  rewrite HL. simpl. rewrite <- app_assoc. reflexivity.
Qed.



(** Following the loop for [n + k] turns is following it for [n] turns and
    then, if it is still inside, for [k] more. *)
Lemma for_split (ejectNodes : list string) (n k : nat) :
  forall s w,
    Couchbase.RemoveNodes_for (n + k) ejectNodes s w
    = match Couchbase.RemoveNodes_for n ejectNodes s w with
      | (Continue s', w') => Couchbase.RemoveNodes_for k ejectNodes s' w'
      | stopped => stopped
      end.
Proof.
  induction n as [|n IH]; intros s w; simpl; [reflexivity|].
  destruct (Couchbase.RemoveNodes_body ejectNodes s w) as [[s1| |msg] w1]; auto.
Qed.

(** Once the status script has run out every poll fails, and the loop goes
    on with its counter as it is. *)
Lemma exhausted_run (ejectNodes : list string) (fuel : nat) :
  forall (s : Z * Z) (w : World),
    rebalanceProgress (remote w) = [] ->
    exists sleep' w',
      Couchbase.RemoveNodes_for fuel ejectNodes s w = (Continue (sleep', snd s), w') /\
      rebalanceProgress (remote w') = [].
Proof.
  induction fuel as [|fuel IH]; intros [sleep count] w H.
  - exists sleep, w. auto.
  - cbn [Couchbase.RemoveNodes_for]. unfold Couchbase.RemoveNodes_body.
    unfold Couchbase.RebalanceStatus at 1. simpl remote. rewrite H.
    apply (IH (500 * Millisecond, count)). exact H.
Qed.

(** C1 as stated fails at eleven polls: the rebalance is reported inactive
    and the ejected node [b] is still listed on eleven polls in a row, which
    is more than ten, and the loop is still polling, its counter at 11;
    however long this run is followed, it does not end in [Fatalf]. *)
Lemma C1_counterexample :
  stuck_polls ["b"] 11 (stuck_world 11) /\
  fst (Couchbase.RemoveNodes_for 11 ["b"] (0, 0) (stuck_world 11))
  = Continue (2 * Second, 11) /\
  forall fuel msg,
    fst (Couchbase.RemoveNodes_for fuel ["b"] (0, 0) (stuck_world 11)) <> Fatal msg.
Proof.
  split; [apply stuck_world_polls|split; [vm_compute; reflexivity|]].
  intros fuel msg.
  destruct (Nat.le_gt_cases fuel 11) as [Hle|Hgt].
  - do 12 (destruct fuel as [|fuel]; [vm_compute; discriminate|]). lia.
  - replace fuel with (11 + (fuel - 11))%nat by lia.
    rewrite for_split.
    destruct (Couchbase.RemoveNodes_for 11 ["b"] (0, 0) (stuck_world 11)) as [flow w'] eqn:Hrun.
    vm_compute in Hrun. injection Hrun as <- <-.
    match goal with
    | |- fst (Couchbase.RemoveNodes_for ?k ?e ?s ?v) <> _ =>
        destruct (exhausted_run e k s v eq_refl) as [sleep' [v' [Hk _]]]; rewrite Hk
    end.
    discriminate.
Qed.

(** ** The health check *)

Lemma getInfo_self_node (nodes : list Node) (self : Node) :
  Couchbase.getInfo nodes = inr self <-> self_node nodes self.
Proof.
  unfold self_node. induction nodes as [|n nodes IH]; simpl.
  - split; [discriminate|]. intros [[|b before] [after [H _]]]; discriminate.
  - destruct (ThisNode n) eqn:Hn.
    + split.
      * intros H. injection H as <-. exists [], nodes. auto.
      * intros [[|b before] [after [H [Hs Hb]]]]; simpl in H; injection H as <- _.
        -- reflexivity.
        -- inversion Hb; congruence.
    + rewrite IH. split.
      * intros [before [after [-> [Hs Hb]]]]. exists (n :: before), after. auto.
      * intros [[|b before] [after [H [Hs Hb]]]]; simpl in H; injection H as <- ->.
        -- congruence.
        -- exists before, after. inversion Hb; auto.
Qed.

(** C6: the health check succeeds exactly when the topology read succeeds
    with at least two nodes, one of them is flagged as this node, and the
    status of the first such node is ["healthy"].  A topology of one node,
    or a self-node whose status is ["warmup"], makes it fail; and on a
    failed check [Healthy] goes round its loop again. *)
Theorem C6_healthy_check :
  forall (w : World),
    (fst (Couchbase.healthy w) = None <->
     exists nodes self,
       fst (Couchbase.Nodes w) = inr nodes /\
       (2 <= List.length nodes)%nat /\
       self_node nodes self /\
       Status self = "healthy") /\
    (forall n, fst (Couchbase.Nodes w) = inr [n] -> fst (Couchbase.healthy w) <> None) /\
    (forall nodes self,
        fst (Couchbase.Nodes w) = inr nodes -> self_node nodes self ->
        Status self = "warmup" -> fst (Couchbase.healthy w) <> None) /\
    (forall fuel c timeout interval interval' w1,
        select timeout interval w = (Ticked, interval', w1) ->
        Couchbase.Healthy_for (S fuel) c timeout interval w
        = match Couchbase.healthy w1 with
          | (None, w2) => (Returned None, w2)
          | (Some _, w2) => Couchbase.Healthy_for fuel c timeout interval' w2
          end).
Proof.
  intros w.
  assert (Hiff : fst (Couchbase.healthy w) = None <->
                 exists nodes self,
                   fst (Couchbase.Nodes w) = inr nodes /\
                   (2 <= List.length nodes)%nat /\
                   self_node nodes self /\
                   Status self = "healthy").
  { unfold Couchbase.healthy.
    destruct (Couchbase.Nodes w) as [[err|nodes] w']; simpl.
    - split; [discriminate|]. intros [nodes [self [H _]]]. discriminate.
    - destruct (Z.ltb_spec (Z.of_nat (List.length nodes)) 2) as [Hlt|Hge]; simpl.
      + split; [discriminate|]. intros [nodes' [self [H [Hlen _]]]].
        injection H as <-. lia.
      + destruct (Couchbase.getInfo nodes) as [err|self] eqn:Hinfo; simpl.
        * split; [discriminate|]. intros [nodes' [self [H [_ [Hself _]]]]].
          injection H as <-. apply getInfo_self_node in Hself. congruence.
        * destruct (String.eqb_spec (Status self) "healthy") as [E|NE]; simpl.
          -- split; [|reflexivity]. intros _. exists nodes, self.
             repeat split; [lia| |exact E]. apply getInfo_self_node. exact Hinfo.
          -- split; [discriminate|]. intros [nodes' [self' [H [_ [Hself E]]]]].
             injection H as <-. apply getInfo_self_node in Hself. congruence. }
  split; [exact Hiff|split; [|split]].
  - intros n Hn Hok. apply Hiff in Hok as [nodes [self [H [Hlen _]]]].
    rewrite Hn in H. injection H as <-. simpl in Hlen. lia.
  - intros nodes self Hn Hself Hwarm Hok.
    apply Hiff in Hok as [nodes' [self' [H [_ [Hself' Hh]]]]].
    rewrite Hn in H. injection H as <-.
    apply getInfo_self_node in Hself, Hself'.
    assert (self = self') by congruence. subst self'.
    rewrite Hwarm in Hh. discriminate.
  - intros fuel c timeout interval interval' w1 Hsel.
    cbn [Couchbase.Healthy_for]. rewrite Hsel.
    destruct (Couchbase.healthy w1) as [[err|] w2]; reflexivity.
Qed.

(** ** The two caches of a handle *)

Lemma Cluster_cached (c : Couchbase) (w : World) (v : Cluster) :
  cluster c = Some v -> Couchbase.Cluster c w = (inr v, c, w).
Proof. intros H. unfold Couchbase.Cluster. rewrite H. reflexivity. Qed.

Lemma Info_cached (c : Couchbase) (w : World) (i : Node) :
  info c = Some i -> Couchbase.Info c w = (inr i, c, w).
Proof. intros H. unfold Couchbase.Info. rewrite H. reflexivity. Qed.

(** The first read of the cluster identity: one request; the cache is set
    exactly when the call succeeds, to the value it returns. *)
Lemma Cluster_first (c : Couchbase) (w : World) :
  cluster c = None ->
  exists r c' w',
    Couchbase.Cluster c w = (r, c', w') /\
    log w' = log w ++ [Requested "GET" "/pools" []] /\
    info c' = info c /\
    match r with
    | inr v => cluster c' = Some v
    | inl _ => c' = c
    end.
Proof.
  intros H. unfold Couchbase.Cluster, request_pools. rewrite H.
  destruct (pools (remote w)) as [|a rest]; simpl.
  - eexists _, _, _. repeat split.
  - destruct (Couchbase.Request a) as [err|resp]; [eexists _, _, _; repeat split|].
    destruct (Couchbase.CheckStatusCode resp [200]); [eexists _, _, _; repeat split|].
    destruct (body resp); eexists _, _, _; repeat split.
Qed.

(** The first read of the self-node: one request; the cache is set exactly
    when the call succeeds, to the value it returns. *)
Lemma Info_first (c : Couchbase) (w : World) :
  info c = None ->
  exists r c' w',
    Couchbase.Info c w = (r, c', w') /\
    log w' = log w ++ [Requested "GET" "/pools/default" []] /\
    cluster c' = cluster c /\
    match r with
    | inr i => info c' = Some i
    | inl _ => c' = c
    end.
Proof.
  intros H. unfold Couchbase.Info. rewrite H.
  pose proof (Nodes_log w) as HL.
  destruct (Couchbase.Nodes w) as [[err|nodes] w']; simpl in HL.
  - eexists _, _, _. repeat split. exact HL.
  - destruct (Couchbase.getInfo nodes) as [err|node];
      eexists _, _, _; repeat split; exact HL.
Qed.

(** With both caches full a session of calls changes nothing and reads
    nothing. *)
Lemma session_cached (ops : list Call) (c : Couchbase) (w : World) (v : Cluster) (i : Node) :
  cluster c = Some v -> info c = Some i ->
  session ops c w = (map (cached_reply v i) ops, c, w).
Proof.
  intros Hv Hi. induction ops as [|op ops IH]; simpl; [reflexivity|].
  destruct op; simpl.
  - rewrite (Cluster_cached c w v Hv), IH. reflexivity.
  - rewrite (Info_cached c w i Hi), IH. reflexivity.
Qed.

Lemma Info_pools (c : Couchbase) (w : World) :
  pools (remote (snd (Couchbase.Info c w))) = pools (remote w).
Proof.
  unfold Couchbase.Info. destruct (info c); [reflexivity|].
  unfold Couchbase.Nodes, request_poolsDefault.
  destruct (poolsDefault (remote w)) as [|a rest]; simpl; [reflexivity|].
  destruct (Couchbase.Request a) as [err|resp]; [reflexivity|].
  destruct (StatusCode resp =? 404); [reflexivity|].
  destruct (Couchbase.CheckStatusCode resp [200]); [reflexivity|].
  destruct (body resp) as [err|text err|text pool]; [reflexivity|reflexivity|].
  destruct (Couchbase.getInfo (Nodes pool)); reflexivity.
Qed.

Lemma Cluster_poolsDefault (c : Couchbase) (w : World) :
  poolsDefault (remote (snd (Couchbase.Cluster c w))) = poolsDefault (remote w).
Proof.
  unfold Couchbase.Cluster. destruct (cluster c); [reflexivity|].
  unfold request_pools.
  destruct (pools (remote w)) as [|a rest]; simpl; [reflexivity|].
  destruct (Couchbase.Request a) as [err|resp]; [reflexivity|].
  destruct (Couchbase.CheckStatusCode resp [200]); [reflexivity|].
  destruct (body resp); reflexivity.
Qed.

(** A cached cluster identity stays as it is through any session: every
    [Cluster] call is answered with it, the identity script of the remote
    is not touched, and the only requests of the session are the topology
    reads of [Info]. *)
Lemma session_keeps_cluster (ops : list Call) :
  forall (c : Couchbase) (w : World) (v : Cluster),
    cluster c = Some v ->
    let '(replies, c', w') := session ops c w in
    cluster c' = Some v /\
    pools (remote w') = pools (remote w) /\
    (forall r, In (ClusterReply r) replies -> r = inr v) /\
    exists evs,
      log w' = log w ++ evs /\
      Forall (fun e => e = Requested "GET" "/pools/default" []) evs.
Proof.
  induction ops as [|op ops IH]; intros c w v Hv; simpl.
  - repeat split; try assumption.
    + intros r [].
    + exists []. split; [symmetry; apply app_nil_r|constructor].
  - destruct op; simpl.
    + rewrite (Cluster_cached c w v Hv).
      specialize (IH c w v Hv). destruct (session ops c w) as [[rs c'] w'].
      destruct IH as [H1 [H2 [H3 H4]]]. repeat split; try assumption.
      intros r [E|Hin]; [congruence|auto].
    + pose proof (Info_pools c w) as Hp.
      assert (HI : exists r c1 w1 evs1,
                 Couchbase.Info c w = (r, c1, w1) /\ cluster c1 = cluster c /\
                 log w1 = log w ++ evs1 /\
                 Forall (fun e => e = Requested "GET" "/pools/default" []) evs1).
      { destruct (info c) as [i|] eqn:Hi.
        - exists (inr i), c, w, []. rewrite (Info_cached c w i Hi).
          repeat split; [symmetry; apply app_nil_r|constructor].
        - destruct (Info_first c w Hi) as [r [c1 [w1 [HI [HL [Hc _]]]]]].
          exists r, c1, w1, [Requested "GET" "/pools/default" []].
          repeat split; try assumption. repeat constructor. }
      destruct HI as [r [c1 [w1 [evs1 [HI [Hc [HL Hevs1]]]]]]].
      rewrite HI in Hp |- *. simpl in Hp.
      assert (Hv1 : cluster c1 = Some v) by congruence.
      specialize (IH c1 w1 v Hv1). destruct (session ops c1 w1) as [[rs c'] w'].
      destruct IH as [H1 [H2 [H3 [evs [H4 H5]]]]]. repeat split.
      * assumption.
      * congruence.
      * intros r0 [E|Hin]; [discriminate|auto].
      * exists (evs1 ++ evs). split.
        -- rewrite H4, HL, <- app_assoc. reflexivity.
        -- apply Forall_app. auto.
Qed.

(** The same for a cached self-node. *)
Lemma session_keeps_info (ops : list Call) :
  forall (c : Couchbase) (w : World) (i : Node),
    info c = Some i ->
    let '(replies, c', w') := session ops c w in
    info c' = Some i /\
    poolsDefault (remote w') = poolsDefault (remote w) /\
    (forall r, In (InfoReply r) replies -> r = inr i) /\
    exists evs,
      log w' = log w ++ evs /\
      Forall (fun e => e = Requested "GET" "/pools" []) evs.
Proof.
  induction ops as [|op ops IH]; intros c w i Hi; simpl.
  - repeat split; try assumption.
    + intros r [].
    + exists []. split; [symmetry; apply app_nil_r|constructor].
  - destruct op; simpl.
    + pose proof (Cluster_poolsDefault c w) as Hp.
      assert (HC : exists r c1 w1 evs1,
                 Couchbase.Cluster c w = (r, c1, w1) /\ info c1 = info c /\
                 log w1 = log w ++ evs1 /\
                 Forall (fun e => e = Requested "GET" "/pools" []) evs1).
      { destruct (cluster c) as [v|] eqn:Hv.
        - exists (inr v), c, w, []. rewrite (Cluster_cached c w v Hv).
          repeat split; [symmetry; apply app_nil_r|constructor].
        - destruct (Cluster_first c w Hv) as [r [c1 [w1 [HC [HL [Hc _]]]]]].
          exists r, c1, w1, [Requested "GET" "/pools" []].
          repeat split; try assumption. repeat constructor. }
      destruct HC as [r [c1 [w1 [evs1 [HC [Hc [HL Hevs1]]]]]]].
      rewrite HC in Hp |- *. simpl in Hp.
      assert (Hi1 : info c1 = Some i) by congruence.
      specialize (IH c1 w1 i Hi1). destruct (session ops c1 w1) as [[rs c'] w'].
      destruct IH as [H1 [H2 [H3 [evs [H4 H5]]]]]. repeat split.
      * assumption.
      * congruence.
      * intros r0 [E|Hin]; [discriminate|auto].
      * exists (evs1 ++ evs). split.
        -- rewrite H4, HL, <- app_assoc. reflexivity.
        -- apply Forall_app. auto.
    + rewrite (Info_cached c w i Hi).
      specialize (IH c w i Hi). destruct (session ops c w) as [[rs c'] w'].
      destruct IH as [H1 [H2 [H3 H4]]]. repeat split; try assumption.
      intros r [E|Hin]; [congruence|auto].
Qed.

(** C8: each of the two caches of a handle is filled by the first call
    that reads successfully, and by nothing else.  A call that finds its
    cache full returns the cached value and leaves the handle and the world
    as they are: no request is issued.  A call that finds it empty issues
    one request; if the read succeeds the value returned is cached, if it
    fails the handle is unchanged, so that the next call reads again.  Once
    a cache is full it holds the same value after any further calls of
    [Cluster] and [Info], each of which is answered with that value, and
    the endpoint behind it is not read again. *)
Theorem C8_caches_populated_once :
  forall (c : Couchbase) (w : World),
    (forall v, cluster c = Some v -> Couchbase.Cluster c w = (inr v, c, w)) /\
    (forall i, info c = Some i -> Couchbase.Info c w = (inr i, c, w)) /\
    (cluster c = None ->
     exists r c' w',
       Couchbase.Cluster c w = (r, c', w') /\
       log w' = log w ++ [Requested "GET" "/pools" []] /\
       info c' = info c /\
       match r with
       | inr v => cluster c' = Some v
       | inl _ => c' = c
       end) /\
    (info c = None ->
     exists r c' w',
       Couchbase.Info c w = (r, c', w') /\
       log w' = log w ++ [Requested "GET" "/pools/default" []] /\
       cluster c' = cluster c /\
       match r with
       | inr i => info c' = Some i
       | inl _ => c' = c
       end) /\
    (forall v i ops,
        cluster c = Some v -> info c = Some i ->
        session ops c w = (map (cached_reply v i) ops, c, w)) /\
    (forall v ops,
        cluster c = Some v ->
        let '(replies, c', w') := session ops c w in
        cluster c' = Some v /\
        pools (remote w') = pools (remote w) /\
        (forall r, In (ClusterReply r) replies -> r = inr v) /\
        exists evs,
          log w' = log w ++ evs /\
          Forall (fun e => e = Requested "GET" "/pools/default" []) evs) /\
    (forall i ops,
        info c = Some i ->
        let '(replies, c', w') := session ops c w in
        info c' = Some i /\
        poolsDefault (remote w') = poolsDefault (remote w) /\
        (forall r, In (InfoReply r) replies -> r = inr i) /\
        exists evs,
          log w' = log w ++ evs /\
          Forall (fun e => e = Requested "GET" "/pools" []) evs).
Proof.
  intros c w. repeat split.
  - intros v. apply Cluster_cached.
  - intros i. apply Info_cached.
  - apply Cluster_first.
  - apply Info_first.
  - intros v i ops Hv Hi. apply session_cached; assumption.
  - intros v ops Hv. apply (session_keeps_cluster ops c w v Hv).
  - intros i ops Hi. apply (session_keeps_info ops c w i Hi).
Qed.

(** ** Waiting with a timeout *)

Lemma Ping_now (rawURL : string) (w : World) :
  now w <= now (snd (Couchbase.Ping rawURL w)).
Proof.
  unfold Couchbase.Ping, requestUrl_ping.
  destruct (pings (remote w)) as [|a rest]; simpl.
  - lia.
  - destruct a as [err|resp]; simpl; lia.
Qed.

Lemma Nodes_now (w : World) : now w <= now (snd (Couchbase.Nodes w)).
Proof.
  unfold Couchbase.Nodes, request_poolsDefault.
  destruct (poolsDefault (remote w)) as [|a rest]; simpl; [lia|].
  destruct (Couchbase.Request a) as [err|resp]; simpl; [lia|].
  destruct (StatusCode resp =? 404); simpl; [lia|].
  destruct (Couchbase.CheckStatusCode resp [200]); simpl; [lia|].
  destruct (body resp); simpl; lia.
Qed.

Lemma healthy_now (w : World) : now w <= now (snd (Couchbase.healthy w)).
Proof.
  unfold Couchbase.healthy. pose proof (Nodes_now w) as H.
  destruct (Couchbase.Nodes w) as [[err|nodes] w']; simpl in *; [exact H|].
  destruct (Z.of_nat (List.length nodes) <? 2); [exact H|].
  destruct (Couchbase.getInfo nodes) as [err|self]; [exact H|].
  simpl. destruct (negb (Status self =? "healthy")%string); exact H.
Qed.

(** With a timeout above one second the timer started on entry is always
    later than the next tick: the ticker's case is taken. *)
Lemma select_ticks (timeout : Z) (interval : Ticker) (w : World) :
  Second < timeout -> ticking interval w ->
  exists interval' w',
    select timeout interval w = (Ticked, interval', w') /\
    ticking interval' w' /\ now w <= now w'.
Proof.
  intros Ht [Hp Hn]. unfold select.
  assert (HS : 0 < Second) by (unfold Second, Millisecond; lia).
  destruct (Z.ltb_spec (now w + Z.max 0 timeout) (Z.max (now w) (next interval))); [lia|].
  destruct (Z.eqb_spec (now w + Z.max 0 timeout) (Z.max (now w) (next interval))); [lia|].
  cbn [orb andb]. eexists _, _. split; [reflexivity|].
  unfold ticking. cbn [period next now wait_until]. rewrite Hp.
  split; [split; [reflexivity|]|lia].
  pose proof (Z.mul_div_le (Z.max (now w) (next interval) - next interval) Second HS).
  rewrite Z.mul_add_distr_l, Z.mul_1_r. lia.
Qed.

Lemma ticking_later (interval : Ticker) (w w' : World) :
  ticking interval w -> now w <= now w' -> ticking interval w'.
Proof. intros [Hp Hn] H. split; [exact Hp|lia]. Qed.

Lemma IsReady_for_no_timeout (fuel : nat) (rawURL : string) (timeout : Z) :
  Second < timeout ->
  forall interval w,
    ticking interval w ->
    fst (Couchbase.IsReady_for fuel rawURL timeout interval w)
    <> Returned (false, Some (NewErrorWaitNodeTimeout rawURL)).
Proof.
  intros Ht. induction fuel as [|fuel IH]; intros interval w Htick; simpl.
  - discriminate.
  - destruct (select_ticks timeout interval w Ht Htick) as [i' [w' [Hsel [Htick' _]]]].
    rewrite Hsel. pose proof (Ping_now rawURL w') as Hnow.
    destruct (Couchbase.Ping rawURL w') as [[err|] w2]; simpl in *.
    + apply IH. eapply ticking_later; eassumption.
    + discriminate.
Qed.

Lemma Healthy_for_no_timeout (fuel : nat) (c : Couchbase) (timeout : Z) :
  Second < timeout ->
  forall interval w,
    ticking interval w ->
    fst (Couchbase.Healthy_for fuel c timeout interval w)
    <> Returned (Some (NewErrorHealthyTimedOut (URL c))).
Proof.
  intros Ht. induction fuel as [|fuel IH]; intros interval w Htick; simpl.
  - discriminate.
  - destruct (select_ticks timeout interval w Ht Htick) as [i' [w' [Hsel [Htick' _]]]].
    rewrite Hsel. pose proof (healthy_now w') as Hnow.
    destruct (Couchbase.healthy w') as [[err|] w2]; simpl in *.
    + apply IH. eapply ticking_later; eassumption.
    + discriminate.
Qed.

Lemma time_Tick_ticking (w : World) : ticking (time_Tick (1 * Second) w) w.
Proof. unfold ticking, time_Tick. cbn [period next]. lia. Qed.

(** C3 does not hold of the code: [time.After(timeout)] is called inside
    the loop, so every turn starts a new timer, and with a timeout of more
    than one second the tick always comes first.  Waiting five seconds for
    a node that refuses every connection, [IsReady] is still probing when
    ten seconds have passed, and so is [Healthy] on a node that stays
    alone; for no timeout above one second and no world does either of them
    ever return its timeout error.  A timeout below one second does fire,
    at the deadline and before any probe. *)
Theorem C3_timer_restarted_every_turn :
  (fst (Couchbase.IsReady 10 "http://node1:8091" (5 * Second) (scripted [] [] [] [] []))
   = Running /\
   now (snd (Couchbase.IsReady 10 "http://node1:8091" (5 * Second) (scripted [] [] [] [] [])))
   = 10 * Second) /\
  (fst (Couchbase.Healthy 10 (handle "http://node1:8091") (5 * Second)
          (scripted (repeat (topology [node "node1" "n1" true "healthy"]) 10) [] [] [] []))
   = Running /\
   now (snd (Couchbase.Healthy 10 (handle "http://node1:8091") (5 * Second)
               (scripted (repeat (topology [node "node1" "n1" true "healthy"]) 10) [] [] [] [])))
   = 10 * Second) /\
  (forall (fuel : nat) (rawURL : string) (timeout : Z) (w : World),
      Second < timeout ->
      fst (Couchbase.IsReady fuel rawURL timeout w)
      <> Returned (false, Some (NewErrorWaitNodeTimeout rawURL))) /\
  (forall (fuel : nat) (c : Couchbase) (timeout : Z) (w : World),
      Second < timeout ->
      fst (Couchbase.Healthy fuel c timeout w)
      <> Returned (Some (NewErrorHealthyTimedOut (URL c)))) /\
  Couchbase.IsReady 1 "http://node1:8091" (500 * Millisecond) (scripted [] [] [] [] [])
  = (Returned (false, Some (NewErrorWaitNodeTimeout "http://node1:8091")),
     wait_until (500 * Millisecond) (scripted [] [] [] [] [])).
Proof.
  split; [split; vm_compute; reflexivity|].
  split; [split; vm_compute; reflexivity|].
  split; [|split; [|reflexivity]].
  - intros fuel rawURL timeout w Ht. unfold Couchbase.IsReady.
    apply IsReady_for_no_timeout; [exact Ht|apply time_Tick_ticking].
  - intros fuel c timeout w Ht. unfold Couchbase.Healthy.
    apply Healthy_for_no_timeout; [exact Ht|apply time_Tick_ticking].
Qed.

(** * More of the client *)

(** ** Host matching as a relation *)

(** Stripping the port twice is stripping it once, and two addresses match
    exactly when they have the same stripped host: matching is reflexive,
    symmetric and transitive, a slice matches what one of its parts
    matches, and ports on either side make no difference. *)
Theorem host_matching_equivalence :
  (forall s, stripPort (stripPort s) = stripPort s) /\
  (forall a, strSliceContains [a] a = true) /\
  (forall a b, strSliceContains [a] b = strSliceContains [b] a) /\
  (forall a b c,
      strSliceContains [b] a = true -> strSliceContains [c] b = true ->
      strSliceContains [c] a = true) /\
  (forall l1 l2 x,
      strSliceContains (l1 ++ l2) x = strSliceContains l1 x || strSliceContains l2 x) /\
  (forall l x, strSliceContains (map stripPort l) (stripPort x) = strSliceContains l x).
Proof.
  assert (Hidem : forall s, stripPort (stripPort s) = stripPort s).
  { intros s. apply stripPort_of_host, stripPort_colon_free. }
  split; [exact Hidem|]. split; [|split; [|split; [|split]]].
  - intros a. simpl. rewrite String.eqb_refl. reflexivity.
  - intros a b. simpl. rewrite (String.eqb_sym (stripPort b) (stripPort a)). reflexivity.
  - intros a b c. simpl.
    destruct (String.eqb_spec (stripPort a) (stripPort b)) as [->|]; [|discriminate].
    intros _ H. exact H.
  - intros l1 l2 x. induction l1 as [|e l1 IH]; simpl; [reflexivity|].
    destruct (String.eqb (stripPort x) (stripPort e)); [reflexivity|exact IH].
  - intros l x. apply strSliceContains_hosts; [|apply Hidem].
    rewrite map_map. apply map_ext. exact Hidem.
Qed.

(** ** The topology read *)

(** The status check passes exactly the listed codes. *)
Lemma CheckStatusCode_passes {A : Type} (resp : Response A) (valid : list Z) :
  Couchbase.CheckStatusCode resp valid = None <-> In (StatusCode resp) valid.
Proof.
  unfold Couchbase.CheckStatusCode.
  destruct (existsb (fun statusCode => statusCode =? StatusCode resp) valid) eqn:E.
  - split; [|reflexivity]. intros _.
    apply existsb_exists in E as [c [Hin Hc]]. apply Z.eqb_eq in Hc. subst c. exact Hin.
  - split.
    + destruct (body resp); discriminate.
    + intros Hin. assert (Ht : existsb (fun statusCode => statusCode =? StatusCode resp) valid
                               = true).
      { apply existsb_exists. exists (StatusCode resp). split; [exact Hin|apply Z.eqb_refl]. }
      congruence.
Qed.

(** [Nodes] succeeds exactly when its request is answered, by a response
    with status 200 whose body decodes; it then returns the nodes of the
    decoded pool. *)
Theorem Nodes_succeeds_iff :
  forall (w : World) (nodes : list Node),
    fst (Couchbase.Nodes w) = inr nodes <->
    exists resp rest text pool,
      poolsDefault (remote w) = inr resp :: rest /\
      StatusCode resp = 200 /\
      body resp = Json text pool /\
      Nodes pool = nodes.
Proof.
  intros w nodes. unfold Couchbase.Nodes, request_poolsDefault.
  destruct (poolsDefault (remote w)) as [|[err|resp] rest]; unfold Couchbase.Request;
    cbn [fst unreachable].
  - split; [discriminate|]. intros [? [? [? [? [H _]]]]]. discriminate.
  - split; [discriminate|]. intros [? [? [? [? [H _]]]]]. discriminate.
  - pose proof (CheckStatusCode_passes resp [200]) as Hcheck.
    destruct (Z.eqb_spec (StatusCode resp) 401) as [E401|N401]; cbn [fst].
    { split; [discriminate|]. intros [r [? [? [? [H [H200 _]]]]]].
      injection H as <- _. lia. }
    destruct (Z.eqb_spec (StatusCode resp) 404) as [E404|N404]; cbn [fst].
    { split; [discriminate|]. intros [r [? [? [? [H [H200 _]]]]]].
      injection H as <- _. lia. }
    destruct (Couchbase.CheckStatusCode resp [200]) as [err|]; cbn [fst].
    + split; [discriminate|]. intros [r [? [? [? [H [H200 _]]]]]].
      injection H as <- _.
      assert (Hnone : Some err = None) by (apply Hcheck; left; symmetry; exact H200).
      discriminate.
    + assert (H200 : StatusCode resp = 200).
      { destruct (proj1 Hcheck eq_refl) as [E|[]]. symmetry. exact E. }
      destruct (body resp) as [err|text err|text pool] eqn:Hb; cbn [fst].
      * split; [discriminate|]. intros [r [? [? [? [H [_ [Hj _]]]]]]].
        injection H as <- _. congruence.
      * split; [discriminate|]. intros [r [? [? [? [H [_ [Hj _]]]]]]].
        injection H as <- _. congruence.
      * split.
        -- intros H. injection H as <-. exists resp, rest, text, pool. auto.
        -- intros [r [? [t [p [H [_ [Hj Hn]]]]]]]. injection H as <- _.
           rewrite Hb in Hj. injection Hj as _ <-. congruence.
Qed.

(** A response with status 401 makes [Nodes] return the authentication
    error and one with status 404 the error [ErrorNodeUninitialized],
    whatever the body holds; any status other than 200 is an error.  The
    call issues one request and takes one answer from the script. *)
Theorem Nodes_error_by_status :
  forall (w : World) (resp : Response Pool) (rest : list (Answer Pool)),
    poolsDefault (remote w) = inr resp :: rest ->
    (StatusCode resp = 401 ->
     fst (Couchbase.Nodes w)
     = inl (Errorf "Error while connecting: %s"
              [ArgError (Errorf "Error authenticating. Check user/password" [])])) /\
    (StatusCode resp = 404 -> fst (Couchbase.Nodes w) = inl ErrorNodeUninitialized) /\
    (StatusCode resp <> 200 -> exists err, fst (Couchbase.Nodes w) = inl err) /\
    poolsDefault (remote (snd (Couchbase.Nodes w))) = rest /\
    log (snd (Couchbase.Nodes w)) = log w ++ [Requested "GET" "/pools/default" []].
Proof.
  intros w resp rest H.
  destruct (Nodes_step w (inr resp) rest H) as [Hfst [Hrest _]].
  split; [|split; [|split; [|split; [exact Hrest|apply Nodes_log]]]].
  - intros E. rewrite Hfst. unfold Nodes_of, Couchbase.Nodes. simpl. rewrite E. reflexivity.
  - intros E. rewrite Hfst. unfold Nodes_of, Couchbase.Nodes. simpl. rewrite E. simpl.
    rewrite E. reflexivity.
  - intros N. rewrite Hfst. unfold Nodes_of, Couchbase.Nodes. simpl.
    destruct (StatusCode resp =? 401); cbn [fst]; [eauto|].
    destruct (StatusCode resp =? 404); cbn [fst]; [eauto|].
    pose proof (CheckStatusCode_passes resp [200]) as Hcheck.
    destruct (Couchbase.CheckStatusCode resp [200]) as [err|]; cbn [fst]; [eauto|].
    destruct (proj1 Hcheck eq_refl) as [E|[]]. congruence.
Qed.

(** A cluster that has not been initialised answers 404: [Nodes] returns
    [ErrorNodeUninitialized] and has used up the answer. *)
Lemma Nodes_error_by_status_witness :
  fst (Couchbase.Nodes
         (scripted [inr {| StatusCode := 404;
                           body := Malformed "Not found." (External "invalid character") |}]
                   [] [] [] []))
  = inl ErrorNodeUninitialized
  /\ poolsDefault
       (remote (snd (Couchbase.Nodes
                       (scripted [inr {| StatusCode := 404;
                                         body := Malformed "Not found."
                                                   (External "invalid character") |}]
                                 [] [] [] []))))
     = [].
Proof.
  destruct (Nodes_error_by_status
              (scripted [inr {| StatusCode := 404;
                                body := Malformed "Not found." (External "invalid character") |}]
                        [] [] [] [])
              {| StatusCode := 404;
                 body := Malformed "Not found." (External "invalid character") |}
              [] eq_refl) as [_ [H404 [_ [Hrest _]]]].
  split; [apply H404; reflexivity|exact Hrest].
Defined.

(** ** Resolution, once more *)

(** [GetOTPNodes] succeeds exactly when the topology read succeeds and
    every node listed has a handle.  It then returns the handles of all
    nodes in the order of the topology, none of them empty, and as eject
    list the handles of the matching nodes in that order. *)
Theorem GetOTPNodes_succeeds_iff :
  forall (ejectNodes failoverNode reAddNode : list string) (w : World),
    let '(outEjectNodes, _, _, outAllNodes, err, _) :=
      Couchbase.GetOTPNodes ejectNodes failoverNode reAddNode w in
    (err = None <->
     exists nodes,
       fst (Couchbase.Nodes w) = inr nodes /\ Forall (fun n => OTPNode n <> "") nodes) /\
    (err = None ->
     forall nodes,
       fst (Couchbase.Nodes w) = inr nodes ->
       outAllNodes = map OTPNode nodes /\
       outEjectNodes
       = map OTPNode (filter (fun n => strSliceContains ejectNodes (Hostname n)) nodes) /\
       ~ In "" outAllNodes /\ ~ In "" outEjectNodes).
Proof.
  intros ejectNodes failoverNode reAddNode w. unfold Couchbase.GetOTPNodes.
  destruct (Couchbase.Nodes w) as [[e|nodes] w']; cbn [fst].
  - split; [|discriminate]. split; [discriminate|]. intros [nodes [H _]]. discriminate.
  - destruct (Forall_Exists_dec (fun n => OTPNode n <> "")
                (fun n => match string_dec (OTPNode n) "" with
                          | left E => right (fun H => H E)
                          | right N => left N
                          end) nodes) as [Hall|Hex].
    + rewrite (GetOTPNodes_range_complete ejectNodes nodes Hall). simpl.
      assert (Hno : forall l, ~ In "" (map OTPNode (filter l nodes))).
      { intros l Hin. apply in_map_iff in Hin as [n [E Hn]].
        apply filter_In in Hn as [Hn _].
        rewrite Forall_forall in Hall. exact (Hall n Hn E). }
      split.
      * split; [|reflexivity]. intros _. exists nodes. auto.
      * intros _ nodes' H. injection H as <-. repeat split; [|apply Hno].
        intros Hin. apply in_map_iff in Hin as [n [E Hn]].
        rewrite Forall_forall in Hall. exact (Hall n Hn E).
    + assert (Hmiss : Exists (fun n => OTPNode n = "") nodes).
      { apply Exists_exists in Hex as [n [Hin Hn]]. apply Exists_exists. exists n.
        split; [exact Hin|]. destruct (string_dec (OTPNode n) ""); [assumption|contradiction]. }
      destruct (GetOTPNodes_range_missing ejectNodes nodes Hmiss [] [])
        as [n [oe [oa [Hin [Hn Hr]]]]].
      rewrite Hr. split; [|discriminate]. split; [discriminate|].
      intros [nodes' [H Hall]]. injection H as <-.
      rewrite Forall_forall in Hall. exfalso. exact (Hall n Hin Hn).
Qed.

Lemma collect_handles (nodes : list Node) (acc : list string) :
  fold_left (fun otpNodes node => otpNodes ++ [OTPNode node]) nodes acc
  = acc ++ map OTPNode nodes.
Proof.
  revert acc. induction nodes as [|n nodes IH]; intros acc; simpl.
  - symmetry. apply app_nil_r.
  - rewrite IH, <- app_assoc. reflexivity.
Qed.

(** [KnownOTPNodes] returns the handle of every node of the topology read
    as it is, an empty one too: it succeeds whenever the read does.  Where
    [GetOTPNodes] succeeds the two agree on the list of all handles. *)
Theorem KnownOTPNodes_lists_every_handle :
  forall (w : World),
    (forall nodes,
        fst (Couchbase.Nodes w) = inr nodes ->
        Couchbase.KnownOTPNodes w = (map OTPNode nodes, None, snd (Couchbase.Nodes w))) /\
    (forall err,
        fst (Couchbase.Nodes w) = inl err ->
        Couchbase.KnownOTPNodes w = ([], Some err, snd (Couchbase.Nodes w))) /\
    (forall ejectNodes failoverNode reAddNode outEjectNodes outFailoverNodes outReAddNodes
            outAllNodes,
        fst (Couchbase.GetOTPNodes ejectNodes failoverNode reAddNode w)
        = (outEjectNodes, outFailoverNodes, outReAddNodes, outAllNodes, None) ->
        Couchbase.KnownOTPNodes w
        = (outAllNodes, None, snd (Couchbase.GetOTPNodes ejectNodes failoverNode reAddNode w))).
Proof.
  intros w. unfold Couchbase.KnownOTPNodes, Couchbase.GetOTPNodes.
  destruct (Couchbase.Nodes w) as [[e|nodes] w']; cbn [fst snd]; repeat split.
  - discriminate.
  - intros err H. injection H as <-. reflexivity.
  - discriminate.
  - intros nodes' H. injection H as <-. rewrite collect_handles. reflexivity.
  - discriminate.
  - intros ejectNodes failoverNode reAddNode oe of_ or_ oa.
    destruct (Couchbase.GetOTPNodes_range ejectNodes nodes [] []) as [[oe' oa'] err] eqn:Hr.
    cbn [fst snd]. intros H. injection H as _ _ _ <- ->.
    rewrite collect_handles. simpl. f_equal. f_equal.
    destruct (Forall_Exists_dec (fun n => OTPNode n <> "")
                (fun n => match string_dec (OTPNode n) "" with
                          | left E => right (fun H => H E)
                          | right N => left N
                          end) nodes) as [Hall|Hex].
    + rewrite (GetOTPNodes_range_complete ejectNodes nodes Hall) in Hr.
      injection Hr as _ <-. reflexivity.
    + assert (Hmiss : Exists (fun n => OTPNode n = "") nodes).
      { apply Exists_exists in Hex as [n [Hin Hn]]. apply Exists_exists. exists n.
        split; [exact Hin|]. destruct (string_dec (OTPNode n) ""); [assumption|contradiction]. }
      destruct (GetOTPNodes_range_missing ejectNodes nodes Hmiss [] [])
        as [n [oe2 [oa2 [_ [_ Hr2]]]]].
      rewrite Hr2 in Hr. discriminate.
Qed.

(** ** The trigger *)

Lemma Rebalance_step (knownNodes ejectedNodes : list string) (w : World) :
  (fst (Couchbase.Rebalance knownNodes ejectedNodes w) = None
   <-> accepted (next_answer (controllerRebalance (remote w)))) /\
  controllerRebalance (remote (snd (Couchbase.Rebalance knownNodes ejectedNodes w)))
  = tl (controllerRebalance (remote w)) /\
  poolsDefault (remote (snd (Couchbase.Rebalance knownNodes ejectedNodes w)))
  = poolsDefault (remote w) /\
  rebalanceProgress (remote (snd (Couchbase.Rebalance knownNodes ejectedNodes w)))
  = rebalanceProgress (remote w).
Proof.
  unfold Couchbase.Rebalance, request_controllerRebalance, accepted.
  destruct (controllerRebalance (remote w)) as [|[err|resp] rest] eqn:Hscript;
    unfold Couchbase.Request; cbn [fst snd tl next_answer unreachable].
  - repeat split; try reflexivity; try exact Hscript; [discriminate|].
    intros [resp [H _]]. discriminate.
  - repeat split; try reflexivity; [discriminate|]. intros [resp [H _]]. discriminate.
  - pose proof (CheckStatusCode_passes resp [200]) as Hcheck.
    destruct (Z.eqb_spec (StatusCode resp) 401) as [E|N]; cbn [fst snd].
    + repeat split; try reflexivity; [discriminate|].
      intros [r [H H200]]. injection H as <-. lia.
    + repeat split; try reflexivity.
      * intros H. apply Hcheck in H as [H|[]]. exists resp. auto.
      * intros [r [H H200]]. injection H as <-. apply Hcheck. left. auto.
Qed.

(** [Rebalance] issues one request, the POST of the two handle lists, and
    takes one answer; it returns [nil] exactly when that answer is a
    response with status 200. *)
Theorem Rebalance_accepted_iff :
  forall (knownNodes ejectedNodes : list string) (w : World),
    (fst (Couchbase.Rebalance knownNodes ejectedNodes w) = None
     <-> accepted (next_answer (controllerRebalance (remote w)))) /\
    log (snd (Couchbase.Rebalance knownNodes ejectedNodes w))
    = log w ++ [Requested "POST" "/controller/rebalance"
                  [("ejectedNodes", Join ejectedNodes ",");
                   ("knownNodes", Join knownNodes ",")]] /\
    controllerRebalance (remote (snd (Couchbase.Rebalance knownNodes ejectedNodes w)))
    = tl (controllerRebalance (remote w)).
Proof.
  intros knownNodes ejectedNodes w.
  destruct (Rebalance_step knownNodes ejectedNodes w) as [H1 [H2 _]].
  split; [exact H1|split; [apply Rebalance_log|exact H2]].
Qed.

Lemma free_of_String (c a : ascii) (s : string) :
  free_of c (String a s) <-> a <> c /\ free_of c s.
Proof.
  unfold free_of; split.
  - intros H; split.
    + intros ->. apply (H 0%nat). reflexivity.
    + intros i. apply (H (S i)).
  - intros [Ha Hs] [|i]; simpl.
    + intros E. injection E as E. contradiction.
    + apply Hs.
Qed.

(** A string without the separator is one piece; followed by the
    separator and more, it is the first piece. *)
Lemma Split_piece (c : ascii) (s : string) :
  free_of c s ->
  Split s c = [s] /\ forall t, Split (String.append s (String c t)) c = s :: Split t c.
Proof.
  induction s as [|a s IH]; intros Hfree.
  - split; [reflexivity|]. intros t. simpl. rewrite Ascii.eqb_refl. reflexivity.
  - apply free_of_String in Hfree as [Ha Hs]. destruct (IH Hs) as [IH1 IH2].
    split; [|intros t]; simpl;
      (destruct (Ascii.eqb_spec a c); [contradiction|]).
    + rewrite IH1. reflexivity.
    + rewrite IH2. reflexivity.
Qed.

Lemma Split_Join (c : ascii) (l : list string) :
  l <> [] -> Forall (free_of c) l -> Split (Join l (String c "")) c = l.
Proof.
  induction l as [|e l IH]; intros Hne Hall; [contradiction|].
  inversion Hall as [|? ? He Hl]; subst.
  destruct l as [|e' l].
  - simpl. apply Split_piece. exact He.
  - change (Join (e :: e' :: l) (String c ""))
      with (String.append e (String c (Join (e' :: l) (String c "")))).
    rewrite (proj2 (Split_piece c e He)), IH; [reflexivity|discriminate|exact Hl].
Qed.

(** The two fields of the form [Rebalance] posts can be read back: split
    at the commas, each gives the handle list it was joined from, as long
    as the list is not empty and no handle holds a comma. *)
Theorem Rebalance_form_round_trip :
  forall (knownNodes ejectedNodes : list string) (w : World),
    knownNodes <> [] -> ejectedNodes <> [] ->
    Forall (free_of ","%char) knownNodes -> Forall (free_of ","%char) ejectedNodes ->
    exists ejected known,
      log (snd (Couchbase.Rebalance knownNodes ejectedNodes w))
      = log w ++ [Requested "POST" "/controller/rebalance"
                    [("ejectedNodes", ejected); ("knownNodes", known)]] /\
      Split ejected ","%char = ejectedNodes /\
      Split known ","%char = knownNodes.
Proof.
  intros knownNodes ejectedNodes w Hk He Hkf Hef.
  exists (Join ejectedNodes ","), (Join knownNodes ",").
  split; [apply Rebalance_log|]. split; apply Split_Join; assumption.
Qed.

(** The handles [a], [b] and [c] known and [b] ejected. *)
Lemma Rebalance_form_round_trip_witness :
  exists ejected known,
    log (snd (Couchbase.Rebalance ["a"; "b"; "c"] ["b"] (scripted [] [] [ok tt] [] [])))
    = log (scripted [] [] [ok tt] [] [])
      ++ [Requested "POST" "/controller/rebalance"
            [("ejectedNodes", ejected); ("knownNodes", known)]] /\
    Split ejected ","%char = ["b"] /\
    Split known ","%char = ["a"; "b"; "c"].
Proof.
  apply (Rebalance_form_round_trip ["a"; "b"; "c"] ["b"] (scripted [] [] [ok tt] [] [])).
  - discriminate.
  - discriminate.
  - repeat constructor; intros [|[|i]]; discriminate.
  - repeat constructor; intros [|[|i]]; discriminate.
Defined.

(** ** The removal run *)

Lemma Nodes_controllerRebalance (w : World) :
  controllerRebalance (remote (snd (Couchbase.Nodes w))) = controllerRebalance (remote w).
Proof.
  unfold Couchbase.Nodes, request_poolsDefault.
  destruct (poolsDefault (remote w)) as [|a rest]; simpl; [reflexivity|].
  destruct (Couchbase.Request a) as [err|resp]; [reflexivity|].
  destruct (StatusCode resp =? 404); [reflexivity|].
  destruct (Couchbase.CheckStatusCode resp [200]); [reflexivity|].
  destruct (body resp); reflexivity.
Qed.

Lemma Nodes_exhausted (w : World) :
  poolsDefault (remote w) = [] -> exists err, fst (Couchbase.Nodes w) = inl err.
Proof.
  intros H. unfold Couchbase.Nodes, request_poolsDefault. rewrite H. simpl. eauto.
Qed.

(** The turn of the loop taken by a successful status poll, with what it
    has logged when the status is in. *)
Lemma body_polled_logged (ejectNodes : list string) (sleep count : Z) (w : World)
    (status : Progress.t) (rs : list (error + Progress.t)) :
  rebalanceProgress (remote w) = inr status :: rs ->
  exists w1,
    rebalanceProgress (remote w1) = rs /\
    poolsDefault (remote w1) = poolsDefault (remote w) /\
    log w1 = log w ++ [Slept sleep; PolledRebalance] /\
    Couchbase.RemoveNodes_body ejectNodes (sleep, count) w
    = if in_rebalance ejectNodes status then (Continue (pause status, 0), w1)
      else
        match Couchbase.Nodes w1 with
        | (inl _, w2) => (Continue (pause status, count), w2)
        | (inr nodes, w2) =>
            if in_cluster ejectNodes nodes then
              if count >? 10 then (Fatal stuck_message, w2)
              else (Continue (pause status, count + 1), w2)
            else (Break, w2)
        end.
Proof.
  intros H.
  assert (H' : rebalanceProgress (remote (time_Sleep sleep w)) = inr status :: rs) by exact H.
  destruct (RebalanceStatus_step _ _ _ H') as [Hr [Hrs Hts]].
  pose proof (RebalanceStatus_log (time_Sleep sleep w)) as HL.
  exists (snd (Couchbase.RebalanceStatus (time_Sleep sleep w))).
  split; [exact Hrs|split; [exact Hts|split]].
  - rewrite HL. simpl. rewrite <- app_assoc. reflexivity.
  - unfold Couchbase.RemoveNodes_body.
    destruct (Couchbase.RebalanceStatus (time_Sleep sleep w)) as [r w1].
    simpl in Hr. subst r. simpl snd.
    rewrite flag_fold.
    change (existsb (strSliceContains (Progress.Nodes status)) ejectNodes)
      with (in_rebalance ejectNodes status).
    pose proof (sleep_floor status) as Hfloor. cbv zeta in Hfloor. rewrite Hfloor.
    destruct (in_rebalance ejectNodes status); [reflexivity|].
    destruct (Couchbase.Nodes w1) as [[err|nodes] w2]; [reflexivity|].
    rewrite flag_fold. reflexivity.
Qed.

(** A poll that finds the removal complete leaves the loop, having slept,
    read the status and read the topology. *)
Lemma body_settles (ejectNodes : list string) (sleep count : Z) (w : World) :
  settled ejectNodes w ->
  exists w',
    Couchbase.RemoveNodes_body ejectNodes (sleep, count) w = (Break, w') /\
    log w' = log w ++ [Slept sleep; PolledRebalance; Requested "GET" "/pools/default" []].
Proof.
  intros [status [rest [a [rest' [nodes [Hrs [Hinactive [Hts [Hread Habsent]]]]]]]]].
  destruct (body_polled_logged ejectNodes sleep count w status rest Hrs)
    as [w1 [_ [Hts1 [HL Hbody]]]].
  rewrite Hinactive in Hbody. rewrite Hts in Hts1.
  destruct (Nodes_step w1 a rest' Hts1) as [Hn _].
  pose proof (Nodes_log w1) as HL2.
  destruct (Couchbase.Nodes w1) as [read w2]. simpl in Hn, HL2.
  rewrite Hn, Hread, Habsent in Hbody.
  exists w2. split; [exact Hbody|].
  rewrite HL2, HL, <- app_assoc. reflexivity.
Qed.

Lemma body_breaks_settled (ejectNodes : list string) (s : Z * Z) (w : World) :
  fst (Couchbase.RemoveNodes_body ejectNodes s w) = Break -> settled ejectNodes w.
Proof.
  destruct s as [sleep count]. intros Hbreak.
  destruct (rebalanceProgress (remote w)) as [|[err|status] rest] eqn:Hrs.
  - exfalso. unfold Couchbase.RemoveNodes_body in Hbreak.
    unfold Couchbase.RebalanceStatus at 1 in Hbreak. simpl remote in Hbreak.
    rewrite Hrs in Hbreak. discriminate.
  - exfalso. destruct (body_failed ejectNodes sleep count w err rest Hrs) as [w' [Hb _]].
    rewrite Hb in Hbreak. discriminate.
  - destruct (body_polled ejectNodes sleep count w status rest Hrs) as [w1 [_ [Hts1 Hbody]]].
    rewrite Hbody in Hbreak.
    destruct (in_rebalance ejectNodes status) eqn:Hactive; [discriminate|].
    destruct (poolsDefault (remote w)) as [|a rest'] eqn:Hts.
    + exfalso. destruct (Nodes_exhausted w1 Hts1) as [err Herr].
      destruct (Couchbase.Nodes w1) as [read w2]. simpl in Herr. subst read. discriminate.
    + destruct (Nodes_step w1 a rest' Hts1) as [Hn _].
      destruct (Couchbase.Nodes w1) as [read w2]. simpl in Hn. subst read.
      destruct (Nodes_of a) as [err|nodes] eqn:Hread; [discriminate|].
      destruct (in_cluster ejectNodes nodes) eqn:Hlisted.
      * destruct (count >? 10); discriminate.
      * exists status, rest, a, rest', nodes. auto.
Qed.

(** The loop is left through [break] by exactly the polls that find the
    removal complete: the status read succeeds with no ejected handle
    active, and the topology read succeeds with no ejected handle listed.
    So when the loop has ended that way, its last poll was such a poll. *)
Theorem loop_breaks_when_settled :
  forall (ejectNodes : list string),
    (forall s w,
        fst (Couchbase.RemoveNodes_body ejectNodes s w) = Break <-> settled ejectNodes w) /\
    (forall fuel s w w',
        Couchbase.RemoveNodes_for fuel ejectNodes s w = (Break, w') ->
        exists s0 w0,
          settled ejectNodes w0 /\
          Couchbase.RemoveNodes_body ejectNodes s0 w0 = (Break, w')).
Proof.
  intros ejectNodes.
  assert (Hiff : forall s w,
             fst (Couchbase.RemoveNodes_body ejectNodes s w) = Break <-> settled ejectNodes w).
  { intros [sleep count] w. split; [apply body_breaks_settled|].
    intros H. destruct (body_settles ejectNodes sleep count w H) as [w' [Hb _]].
    rewrite Hb. reflexivity. }
  split; [exact Hiff|].
  induction fuel as [|fuel IH]; intros s w w' Hrun; simpl in Hrun; [discriminate|].
  destruct (Couchbase.RemoveNodes_body ejectNodes s w) as [[s1| |msg] w1] eqn:Hb.
  - apply (IH s1 w1 w' Hrun).
  - injection Hrun as <-. exists s, w. split; [|exact Hb].
    apply (proj1 (Hiff s w)). rewrite Hb. reflexivity.
  - discriminate.
Qed.

Lemma nothing_matches_nothing (nodes : list Node) :
  filter (fun n => strSliceContains [] (Hostname n)) nodes = []
  /\ in_cluster [] nodes = false.
Proof.
  induction nodes as [|n nodes [IH1 IH2]]; simpl; auto.
Qed.

Lemma body_read_failed_logged (ejectNodes : list string) (sleep count : Z) (w : World)
    (status : Progress.t) (a : Answer Pool) (err : error)
    (rs : list (error + Progress.t)) (answers : list (Answer Pool)) :
  in_rebalance ejectNodes status = false ->
  Nodes_of a = inl err ->
  rebalanceProgress (remote w) = inr status :: rs ->
  poolsDefault (remote w) = a :: answers ->
  exists w',
    rebalanceProgress (remote w') = rs /\
    poolsDefault (remote w') = answers /\
    log w' = log w ++ [Slept sleep; PolledRebalance; Requested "GET" "/pools/default" []] /\
    Couchbase.RemoveNodes_body ejectNodes (sleep, count) w
    = (Continue (pause status, count), w').
Proof.
  intros Hinactive Hread Hrs Hts.
  destruct (body_polled_logged ejectNodes sleep count w status rs Hrs)
    as [w1 [Hrs1 [Hts1 [HL Hbody]]]].
  rewrite Hinactive in Hbody. rewrite Hts in Hts1.
  destruct (Nodes_step w1 a answers Hts1) as [Hn [Hts2 Hrs2]].
  pose proof (Nodes_log w1) as HL2.
  destruct (Couchbase.Nodes w1) as [read w2]. simpl in Hn, Hts2, Hrs2, HL2.
  rewrite Hn, Hread in Hbody.
  exists w2. split; [congruence|split; [assumption|split; [|assumption]]].
  rewrite HL2, HL, <- app_assoc. reflexivity.
Qed.

(** With nothing to eject every poll that fails one of its reads leaves
    the loop polling, its counter as it was. *)
Lemma idle_run (rs : list (error + Progress.t)) (answers : list (Answer Pool)) (k : nat) :
  unsettled [] rs answers k ->
  forall (rs' : list (error + Progress.t)) (answers' : list (Answer Pool))
         (sleep count : Z) (w : World),
    rebalanceProgress (remote w) = rs ++ rs' ->
    poolsDefault (remote w) = answers ++ answers' ->
    exists w',
      Couchbase.RemoveNodes_for (List.length rs) [] (sleep, count) w
      = (Continue (snd (idle_polls sleep rs), count), w') /\
      rebalanceProgress (remote w') = rs' /\
      poolsDefault (remote w') = answers' /\
      log w' = log w ++ fst (idle_polls sleep rs).
Proof.
  induction 1 as [|err rs answers k _ IH|status a err rs answers k Hinactive Hread _ IH
                  |r a rs answers k Hra _ IH];
    intros rs' answers' sleep count w Hrs Hts.
  - exists w. simpl. rewrite app_nil_r. auto.
  - simpl app in Hrs.
    destruct (body_failed [] sleep count w err _ Hrs) as [w1 [Hbody [Hrs1 [Hts1 HL]]]].
    rewrite Hts in Hts1.
    destruct (IH rs' answers' (500 * Millisecond) count w1 Hrs1 Hts1)
      as [w' [Hrun [Hrs' [Hts' HL']]]].
    exists w'.
    change (List.length (inl err :: rs)) with (S (List.length rs)).
    cbn [Couchbase.RemoveNodes_for idle_polls]. rewrite Hbody, Hrun, HL', HL.
    destruct (idle_polls (500 * Millisecond) rs) as [evs last].
    cbn [fst snd]. rewrite <- app_assoc. auto.
  - simpl app in Hrs, Hts.
    destruct (body_read_failed_logged [] sleep count w status a err _ _
                Hinactive Hread Hrs Hts) as [w1 [Hrs1 [Hts1 [HL Hbody]]]].
    destruct (IH rs' answers' (pause status) count w1 Hrs1 Hts1)
      as [w' [Hrun [Hrs' [Hts' HL']]]].
    exists w'.
    change (List.length (inr status :: rs)) with (S (List.length rs)).
    cbn [Couchbase.RemoveNodes_for idle_polls]. rewrite Hbody, Hrun, HL', HL.
    destruct (idle_polls (pause status) rs) as [evs last].
    cbn [fst snd]. rewrite <- app_assoc. auto.
  - exfalso. destruct Hra as [status [nodes [_ [_ [_ Hpresent]]]]].
    rewrite (proj2 (nothing_matches_nothing nodes)) in Hpresent. discriminate.
Qed.

(** Asked to remove no node at all, [RemoveNodes] still triggers a
    rebalance, with an empty eject list, and returns [nil] at the first
    poll whose status read and topology read both succeed, whatever the
    status says about a rebalance in progress.  The polls [rs] before that
    one each fail the status read or the topology read; after them the
    call has not returned, and the next poll returns. *)
Theorem RemoveNodes_nothing_to_eject :
  forall (w : World) (a0 a1 : Answer Pool) (answers rest : list (Answer Pool))
         (nodes0 nodes1 : list Node) (status : Progress.t)
         (rs rs' : list (error + Progress.t)),
    poolsDefault (remote w) = a0 :: answers ++ a1 :: rest ->
    Nodes_of a0 = inr nodes0 ->
    Forall (fun n => OTPNode n <> "") nodes0 ->
    accepted (next_answer (controllerRebalance (remote w))) ->
    rebalanceProgress (remote w) = rs ++ inr status :: rs' ->
    unsettled [] rs answers 0 ->
    Nodes_of a1 = inr nodes1 ->
    fst (Couchbase.RemoveNodes (List.length rs) [] w) = Running /\
    forall fuel,
      fst (Couchbase.RemoveNodes (List.length rs + S fuel) [] w) = Returned None /\
      rebalanceProgress (remote (snd (Couchbase.RemoveNodes (List.length rs + S fuel) [] w)))
      = rs' /\
      poolsDefault (remote (snd (Couchbase.RemoveNodes (List.length rs + S fuel) [] w)))
      = rest /\
      log (snd (Couchbase.RemoveNodes (List.length rs + S fuel) [] w))
      = log w ++ [Requested "GET" "/pools/default" [];
                  trigger (map OTPNode nodes0) []]
              ++ fst (idle_polls 0 rs)
              ++ [Slept (snd (idle_polls 0 rs)); PolledRebalance;
                  Requested "GET" "/pools/default" []].
Proof.
  intros w a0 a1 answers rest nodes0 nodes1 status rs rs'
         Hts Hread0 Hotp Hacc Hrs Hidle Hread1.
  destruct (Nodes_step w a0 (answers ++ a1 :: rest) Hts) as [Hn [Hts1 Hrs1]].
  pose proof (Nodes_controllerRebalance w) as Hcr1.
  pose proof (Nodes_log w) as HL1.
  destruct (Couchbase.Nodes w) as [read w1] eqn:HN. simpl in Hn, Hts1, Hrs1, Hcr1, HL1.
  rewrite Hread0 in Hn. subst read.
  pose proof (GetOTPNodes_resolved [] [] [] w w1 nodes0 HN Hotp) as HG.
  rewrite (proj1 (nothing_matches_nothing nodes0)) in HG. simpl map in HG.
  unfold Couchbase.RemoveNodes. rewrite HG. cbn [List.length Nat.eqb negb].
  destruct (Rebalance_step (map OTPNode nodes0) [] w1) as [Hacc2 [_ [Hts2 Hrs2]]].
  pose proof (Rebalance_log (map OTPNode nodes0) [] w1) as HL2.
  destruct (Couchbase.Rebalance (map OTPNode nodes0) [] w1) as [err w2].
  simpl in Hacc2, Hts2, Hrs2, HL2.
  rewrite Hcr1 in Hacc2. rewrite (proj2 Hacc2 Hacc).
  rewrite Hrs1, Hrs in Hrs2. rewrite Hts1 in Hts2.
  destruct (idle_run rs answers 0 Hidle _ _ 0 0 w2 Hrs2 Hts2)
    as [w3 [Hrun [Hrs3 [Hts3 HL3]]]].
  split; [rewrite Hrun; reflexivity|].
  intros fuel. rewrite for_split, Hrun.
  assert (Hsettled : settled [] w3).
  { exists status, rs', a1, rest, nodes1. repeat split; try assumption.
    apply nothing_matches_nothing. }
  destruct (body_settles [] (snd (idle_polls 0 rs)) 0 w3 Hsettled) as [w4 [Hb HL4]].
  destruct (body_polled [] (snd (idle_polls 0 rs)) 0 w3 status rs' Hrs3)
    as [v1 [Hv1 [Hv2 Hbody]]].
  rewrite Hts3 in Hv2.
  destruct (Nodes_step v1 a1 rest Hv2) as [Hn1 [Hv3 Hv4]].
  cbn [Couchbase.RemoveNodes_for]. rewrite Hb. cbn [fst snd].
  split; [reflexivity|].
  assert (Hw4 : w4 = snd (Couchbase.Nodes v1)).
  { rewrite Hbody in Hb. cbn [in_rebalance existsb] in Hb.
    destruct (Couchbase.Nodes v1) as [[e|nodes] v2]; [discriminate Hb|].
    destruct (in_cluster [] nodes); [destruct (0 >? 10); discriminate Hb|].
    injection Hb as <-. reflexivity. }
  split; [rewrite Hw4, Hv4; exact Hv1|].
  split; [rewrite Hw4; exact Hv3|].
  rewrite HL4, HL3, HL2, HL1, <- !app_assoc. reflexivity.
Qed.

(** A cluster of [A] and [B] in the middle of a rebalance that involves
    [b]: asked to remove nothing, the call finds the status unreadable at
    the first poll and the topology unreadable at the second, and returns
    at the third. *)
Lemma RemoveNodes_nothing_to_eject_witness :
  fst (Couchbase.RemoveNodes 2 []
         (scripted [topology [node "A" "a" true "healthy"; node "B" "b" false "healthy"];
                    inl (External "timeout");
                    topology [node "A" "a" true "healthy"; node "B" "b" false "healthy"]]
                   [] [ok tt]
                   [inl (External "timeout"); progress 1 ["b"]; progress 1 ["b"]] []))
  = Running /\
  fst (Couchbase.RemoveNodes 3 []
         (scripted [topology [node "A" "a" true "healthy"; node "B" "b" false "healthy"];
                    inl (External "timeout");
                    topology [node "A" "a" true "healthy"; node "B" "b" false "healthy"]]
                   [] [ok tt]
                   [inl (External "timeout"); progress 1 ["b"]; progress 1 ["b"]] []))
  = Returned None.
Proof.
  assert (Hhandles : Forall (fun n => OTPNode n <> "")
                       [node "A" "a" true "healthy"; node "B" "b" false "healthy"]).
  { repeat constructor; discriminate. }
  assert (Hfailing : unsettled [] [inl (External "timeout"); progress 1 ["b"]]
                       [inl (External "timeout")] 0).
  { apply unsettled_status_failed.
    eapply unsettled_read_failed; [reflexivity|reflexivity|apply unsettled_none]. }
  destruct (RemoveNodes_nothing_to_eject
              (scripted [topology [node "A" "a" true "healthy"; node "B" "b" false "healthy"];
                         inl (External "timeout");
                         topology [node "A" "a" true "healthy"; node "B" "b" false "healthy"]]
                        [] [ok tt]
                        [inl (External "timeout"); progress 1 ["b"]; progress 1 ["b"]] [])
              _ _ [inl (External "timeout")] []
              [node "A" "a" true "healthy"; node "B" "b" false "healthy"]
              [node "A" "a" true "healthy"; node "B" "b" false "healthy"]
              {| Progress.RecommendedRefreshPeriod := 1; Progress.Nodes := ["b"] |}
              [inl (External "timeout"); progress 1 ["b"]] []
              eq_refl eq_refl Hhandles) as [Hrunning Hreturned].
  - eexists. split; reflexivity.
  - reflexivity.
  - exact Hfailing.
  - reflexivity.
  - split; [exact Hrunning|apply (Hreturned 0%nat)].
Defined.

(** When the trigger is not answered by a response with status 200,
    [RemoveNodes] returns an error, whatever it was asked to remove: it has
    read the topology, and at most posted the trigger; it has neither
    slept nor polled. *)
Theorem RemoveNodes_refused_trigger :
  forall (fuel : nat) (removeNodes : list string) (w : World),
    ~ accepted (next_answer (controllerRebalance (remote w))) ->
    exists err,
      fst (Couchbase.RemoveNodes fuel removeNodes w) = Returned (Some err) /\
      (log (snd (Couchbase.RemoveNodes fuel removeNodes w))
       = log w ++ [Requested "GET" "/pools/default" []]
       \/ exists knownNodes ejectedNodes,
           log (snd (Couchbase.RemoveNodes fuel removeNodes w))
           = log w ++ [Requested "GET" "/pools/default" [];
                       trigger knownNodes ejectedNodes]).
Proof.
  intros fuel removeNodes w Hrefused.
  unfold Couchbase.RemoveNodes, Couchbase.GetOTPNodes.
  pose proof (Nodes_controllerRebalance w) as Hcr.
  pose proof (Nodes_log w) as HL.
  destruct (Couchbase.Nodes w) as [[e|nodes] w1]; simpl in Hcr, HL.
  - exists e. split; [reflexivity|]. left. exact HL.
  - destruct (Couchbase.GetOTPNodes_range removeNodes nodes [] []) as [[oe oa] [e|]].
    + exists e. split; [reflexivity|]. left. exact HL.
    + destruct (negb (List.length oe =? List.length removeNodes)%nat).
      * eexists. split; [reflexivity|]. left. exact HL.
      * destruct (Rebalance_step oa oe w1) as [Hacc _].
        pose proof (Rebalance_log oa oe w1) as HL2.
        destruct (Couchbase.Rebalance oa oe w1) as [[e|] w2]; simpl in Hacc, HL2.
        -- exists e. split; [reflexivity|]. right. exists oa, oe.
           simpl. rewrite HL2, HL, <- app_assoc. reflexivity.
        -- exfalso. apply Hrefused. rewrite <- Hcr. apply Hacc. reflexivity.
Qed.

(** The cluster answers the trigger with status 500. *)
Lemma RemoveNodes_refused_trigger_witness :
  exists err,
    fst (Couchbase.RemoveNodes 5 ["B"]
           (scripted [topology [node "A" "a" true "healthy"; node "B" "b" false "healthy"]] []
                     [inr {| StatusCode := 500; body := Malformed "error" (External "json") |}]
                     [progress 1 []] []))
    = Returned (Some err) /\
    (log (snd (Couchbase.RemoveNodes 5 ["B"]
                 (scripted [topology [node "A" "a" true "healthy";
                                      node "B" "b" false "healthy"]] []
                           [inr {| StatusCode := 500;
                                   body := Malformed "error" (External "json") |}]
                           [progress 1 []] [])))
     = log (scripted [topology [node "A" "a" true "healthy"; node "B" "b" false "healthy"]] []
                     [inr {| StatusCode := 500; body := Malformed "error" (External "json") |}]
                     [progress 1 []] [])
       ++ [Requested "GET" "/pools/default" []]
     \/ exists knownNodes ejectedNodes,
         log (snd (Couchbase.RemoveNodes 5 ["B"]
                     (scripted [topology [node "A" "a" true "healthy";
                                          node "B" "b" false "healthy"]] []
                               [inr {| StatusCode := 500;
                                       body := Malformed "error" (External "json") |}]
                               [progress 1 []] [])))
         = log (scripted [topology [node "A" "a" true "healthy";
                                    node "B" "b" false "healthy"]] []
                         [inr {| StatusCode := 500;
                                 body := Malformed "error" (External "json") |}]
                         [progress 1 []] [])
           ++ [Requested "GET" "/pools/default" []; trigger knownNodes ejectedNodes]).
Proof.
  apply (RemoveNodes_refused_trigger 5 ["B"]).
  intros [resp [H H200]]. injection H as <-. discriminate.
Defined.

(** A poll that finds the rebalance inactive and whose topology read
    fails: the loop goes on, its counter as it was. *)
Lemma body_read_failed (ejectNodes : list string) (sleep count : Z) (w : World)
    (status : Progress.t) (a : Answer Pool) (err : error)
    (rs : list (error + Progress.t)) (answers : list (Answer Pool)) :
  in_rebalance ejectNodes status = false ->
  Nodes_of a = inl err ->
  rebalanceProgress (remote w) = inr status :: rs ->
  poolsDefault (remote w) = a :: answers ->
  exists w',
    rebalanceProgress (remote w') = rs /\
    poolsDefault (remote w') = answers /\
    Couchbase.RemoveNodes_body ejectNodes (sleep, count) w
    = (Continue (pause status, count), w').
Proof.
  intros Hinactive Hread Hrs Hts.
  destruct (body_polled ejectNodes sleep count w status rs Hrs) as [w1 [Hrs1 [Hts1 Hbody]]].
  rewrite Hinactive in Hbody. rewrite Hts in Hts1.
  destruct (Nodes_step w1 a answers Hts1) as [Hn [Hts2 Hrs2]].
  destruct (Couchbase.Nodes w1) as [read w2]. simpl in Hn, Hts2, Hrs2.
  rewrite Hn, Hread in Hbody.
  exists w2. split; [congruence|split; assumption].
Qed.

Lemma unsettled_run (ejectNodes : list string) (rs : list (error + Progress.t))
    (answers : list (Answer Pool)) (k : nat) :
  unsettled ejectNodes rs answers k ->
  forall (rs' : list (error + Progress.t)) (answers' : list (Answer Pool))
         (sleep count : Z) (w : World),
    rebalanceProgress (remote w) = rs ++ rs' ->
    poolsDefault (remote w) = answers ++ answers' ->
    0 <= count <= 11 ->
    (count + Z.of_nat k <= 11 ->
     exists sleep' w',
       Couchbase.RemoveNodes_for (List.length rs) ejectNodes (sleep, count) w
       = (Continue (sleep', count + Z.of_nat k), w') /\
       rebalanceProgress (remote w') = rs' /\ poolsDefault (remote w') = answers') /\
    (11 < count + Z.of_nat k ->
     exists w',
       Couchbase.RemoveNodes_for (List.length rs) ejectNodes (sleep, count) w
       = (Fatal stuck_message, w')).
Proof.
  induction 1 as [|err rs answers k _ IH|status a err rs answers k Hinactive Hread _ IH
                  |r a rs answers k Hra _ IH];
    intros rs' answers' sleep count w Hrs Hts Hc.
  - simpl. split; [|lia]. intros _. exists sleep, w. rewrite Z.add_0_r. auto.
  - simpl app in Hrs.
    destruct (body_failed ejectNodes sleep count w err _ Hrs) as [w1 [Hbody [Hrs1 [Hts1 _]]]].
    rewrite Hts in Hts1.
    change (List.length (inl err :: rs)) with (S (List.length rs)).
    cbn [Couchbase.RemoveNodes_for]. rewrite Hbody.
    apply (IH rs' answers' (500 * Millisecond) count w1 Hrs1 Hts1 Hc).
  - simpl app in Hrs, Hts.
    destruct (body_read_failed ejectNodes sleep count w status a err _ _
                Hinactive Hread Hrs Hts) as [w1 [Hrs1 [Hts1 Hbody]]].
    change (List.length (inr status :: rs)) with (S (List.length rs)).
    cbn [Couchbase.RemoveNodes_for]. rewrite Hbody.
    apply (IH rs' answers' (pause status) count w1 Hrs1 Hts1 Hc).
  - simpl app in Hrs, Hts.
    destruct (body_still_present ejectNodes sleep count w r a _ _ Hra Hrs Hts)
      as [sleep1 [w1 [Hrs1 [Hts1 Hbody]]]].
    change (List.length (r :: rs)) with (S (List.length rs)).
    cbn [Couchbase.RemoveNodes_for]. rewrite Hbody.
    destruct (Z.gtb_spec count 10) as [Hgt|Hle].
    + split; [lia|]. intros _. exists w1. reflexivity.
    + destruct (IH rs' answers' sleep1 (count + 1) w1 Hrs1 Hts1) as [IH1 IH2]; [lia|].
      split.
      * intros Hn. destruct IH1 as [sleep' [w' [Hrun Hrest]]]; [lia|].
        exists sleep', w'. split; [|exact Hrest].
        rewrite Hrun. do 3 f_equal. lia.
      * intros Hn. apply IH2. lia.
Qed.

(** Failed polls neither count nor reset: along polls each of which has a
    failed status read, or finds the rebalance inactive and fails to read
    the topology, or finds an ejected node still present, the counter is
    the number of polls of the last kind.  With at most eleven of them the
    loop is still polling after all these polls; the twelfth ends the
    process, however many failed polls lie in between. *)
Theorem failed_polls_keep_the_count :
  forall (ejectNodes : list string) (rs rs' : list (error + Progress.t))
         (answers answers' : list (Answer Pool)) (k : nat) (sleep : Z) (w : World),
    unsettled ejectNodes rs answers k ->
    rebalanceProgress (remote w) = rs ++ rs' ->
    poolsDefault (remote w) = answers ++ answers' ->
    ((k <= 11)%nat ->
     exists sleep' w',
       Couchbase.RemoveNodes_for (List.length rs) ejectNodes (sleep, 0) w
       = (Continue (sleep', Z.of_nat k), w') /\
       rebalanceProgress (remote w') = rs' /\ poolsDefault (remote w') = answers') /\
    ((12 <= k)%nat ->
     exists w',
       Couchbase.RemoveNodes_for (List.length rs) ejectNodes (sleep, 0) w
       = (Fatal stuck_message, w')).
Proof.
  intros ejectNodes rs rs' answers answers' k sleep w Hun Hrs Hts.
  destruct (unsettled_run ejectNodes rs answers k Hun rs' answers' sleep 0 w Hrs Hts)
    as [H1 H2]; [lia|].
  split.
  - intros Hk. apply H1. lia.
  - intros Hk. apply H2. lia.
Qed.

(** Three polls: the node is still listed, then the status read fails,
    then the node is still listed again.  The counter stands at two. *)
Lemma failed_polls_keep_the_count_witness :
  exists sleep' w',
    Couchbase.RemoveNodes_for 3 ["b"] (0, 0)
      (scripted [topology [node "B" "b" true "healthy"]; topology [node "B" "b" true "healthy"]]
                [] [] [progress 1 []; inl (External "timeout"); progress 1 []] [])
    = (Continue (sleep', 2), w') /\
    rebalanceProgress (remote w') = [] /\ poolsDefault (remote w') = [].
Proof.
  destruct (failed_polls_keep_the_count ["b"]
              [progress 1 []; inl (External "timeout"); progress 1 []] []
              [topology [node "B" "b" true "healthy"]; topology [node "B" "b" true "healthy"]] []
              2 0
              (scripted [topology [node "B" "b" true "healthy"];
                         topology [node "B" "b" true "healthy"]]
                        [] [] [progress 1 []; inl (External "timeout"); progress 1 []] []))
    as [H _].
  - apply unsettled_present; [eexists _, _; repeat split; reflexivity|].
    apply unsettled_status_failed.
    apply unsettled_present; [eexists _, _; repeat split; reflexivity|].
    apply unsettled_none.
  - reflexivity.
  - reflexivity.
  - apply H. lia.
Defined.

(** ** The counter of the removal loop, over any polls *)

Lemma since_reset_none (obs : list Observation) :
  existsb is_reset obs = false -> since_reset obs = obs.
Proof.
  destruct obs as [|o rest]; [reflexivity|].
  cbn [existsb since_reset]. intros ->. reflexivity.
Qed.

Lemma stuck_count_from_kept (count : nat) (o : Observation) (obs : list Observation) :
  is_reset o = false -> is_present o = false ->
  stuck_count_from count (o :: obs) = stuck_count_from count obs.
Proof.
  intros Hr Hp. unfold stuck_count_from, stuck_count.
  cbn [existsb since_reset]. rewrite Hr. cbn [orb].
  destruct (existsb is_reset obs) eqn:E; [reflexivity|].
  rewrite (since_reset_none obs E). cbn [filter]. rewrite Hp. reflexivity.
Qed.

Lemma stuck_count_from_reset (count : nat) (obs : list Observation) :
  stuck_count_from count (Active :: obs) = stuck_count_from 0 obs.
Proof.
  unfold stuck_count_from, stuck_count. cbn [existsb since_reset is_reset orb].
  destruct (existsb is_reset obs); reflexivity.
Qed.

Lemma stuck_count_from_present (count : nat) (obs : list Observation) :
  stuck_count_from count (Present :: obs) = stuck_count_from (S count) obs.
Proof.
  unfold stuck_count_from, stuck_count. cbn [existsb since_reset is_reset orb].
  destruct (existsb is_reset obs) eqn:E; [reflexivity|].
  rewrite (since_reset_none obs E). cbn [filter is_present List.length]. lia.
Qed.

Lemma stuck_count_from_zero (obs : list Observation) :
  stuck_count_from 0 obs = stuck_count obs.
Proof.
  unfold stuck_count_from. destruct (existsb is_reset obs); reflexivity.
Qed.

(** Two polls find the node still present, a poll finds it active, then
    two more find it still present with a failed status read in between:
    two are counted. *)
Example stuck_count_after_reset :
  stuck_count [Present; Present; Active; Present; StatusFailed; Present] = 2%nat.
Proof. reflexivity. Qed.

(** A poll that finds an ejected handle active. *)
Lemma body_active (ejectNodes : list string) (sleep count : Z) (w : World)
    (status : Progress.t) (rs : list (error + Progress.t)) :
  in_rebalance ejectNodes status = true ->
  rebalanceProgress (remote w) = inr status :: rs ->
  exists w',
    rebalanceProgress (remote w') = rs /\
    poolsDefault (remote w') = poolsDefault (remote w) /\
    Couchbase.RemoveNodes_body ejectNodes (sleep, count) w = (Continue (pause status, 0), w').
Proof.
  intros Hactive Hrs.
  destruct (body_polled ejectNodes sleep count w status rs Hrs) as [w1 [Hrs1 [Hts1 Hbody]]].
  rewrite Hactive in Hbody. exists w1. auto.
Qed.

(** The loop along any polls, entered with the counter at [count]: either
    one of them finds an ejected node still present when eleven such polls
    are counted, and the loop ends in [Fatalf] there; or there is no such
    poll, and the loop is still polling after them all, its counter at the
    number of such polls since the last reset. *)
Lemma polls_run (ejectNodes : list string) (rs : list (error + Progress.t))
    (answers : list (Answer Pool)) (obs : list Observation) :
  polls ejectNodes rs answers obs ->
  forall (rs' : list (error + Progress.t)) (answers' : list (Answer Pool))
         (sleep : Z) (count : nat) (w : World),
    rebalanceProgress (remote w) = rs ++ rs' ->
    poolsDefault (remote w) = answers ++ answers' ->
    (count <= 11)%nat ->
    (exists before after w',
        obs = before ++ Present :: after /\
        stuck_count_from count before = 11%nat /\
        Couchbase.RemoveNodes_for (List.length rs) ejectNodes (sleep, Z.of_nat count) w
        = (Fatal stuck_message, w'))
    \/
    ((forall before after,
         obs = before ++ Present :: after -> stuck_count_from count before <> 11%nat) /\
     (stuck_count_from count obs <= 11)%nat /\
     exists sleep' w',
       Couchbase.RemoveNodes_for (List.length rs) ejectNodes (sleep, Z.of_nat count) w
       = (Continue (sleep', Z.of_nat (stuck_count_from count obs)), w') /\
       rebalanceProgress (remote w') = rs' /\ poolsDefault (remote w') = answers').
Proof.
  induction 1 as [|err rs answers obs _ IH
                  |status rs answers obs Hactive _ IH
                  |status a err rs answers obs Hinactive Hread _ IH
                  |r a rs answers obs Hra _ IH];
    intros rs' answers' sleep count w Hrs Hts Hc.
  - right. split; [|split].
    + intros [|o before] after H; discriminate H.
    + unfold stuck_count_from, stuck_count. simpl. lia.
    + exists sleep, w. unfold stuck_count_from, stuck_count. simpl.
      rewrite Nat.add_0_r. auto.
  - simpl app in Hrs.
    destruct (body_failed ejectNodes sleep (Z.of_nat count) w err _ Hrs)
      as [w1 [Hbody [Hrs1 [Hts1 _]]]].
    rewrite Hts in Hts1.
    change (List.length (inl err :: rs)) with (S (List.length rs)).
    cbn [Couchbase.RemoveNodes_for]. rewrite Hbody.
    destruct (IH rs' answers' (500 * Millisecond) count w1 Hrs1 Hts1 Hc)
      as [[before [after [w' [Hobs [Hcount Hrun]]]]]|[Hnone [Hle Hrun]]].
    + left. exists (StatusFailed :: before), after, w'.
      rewrite stuck_count_from_kept by reflexivity.
      split; [rewrite Hobs; reflexivity|auto].
    + right. rewrite stuck_count_from_kept by reflexivity.
      split; [|auto].
      intros [|o before] after H; [discriminate H|].
      injection H as <- H. rewrite stuck_count_from_kept by reflexivity.
      apply (Hnone before after H).
  - simpl app in Hrs.
    destruct (body_active ejectNodes sleep (Z.of_nat count) w status _ Hactive Hrs)
      as [w1 [Hrs1 [Hts1 Hbody]]].
    rewrite Hts in Hts1.
    change (List.length (inr status :: rs)) with (S (List.length rs)).
    cbn [Couchbase.RemoveNodes_for]. rewrite Hbody.
    destruct (IH rs' answers' (pause status) 0%nat w1 Hrs1 Hts1 ltac:(lia))
      as [[before [after [w' [Hobs [Hcount Hrun]]]]]|[Hnone [Hle Hrun]]].
    + left. exists (Active :: before), after, w'.
      rewrite stuck_count_from_reset.
      split; [rewrite Hobs; reflexivity|auto].
    + right. rewrite stuck_count_from_reset.
      split; [|auto].
      intros [|o before] after H; [discriminate H|].
      injection H as <- H. rewrite stuck_count_from_reset.
      apply (Hnone before after H).
  - simpl app in Hrs, Hts.
    destruct (body_read_failed ejectNodes sleep (Z.of_nat count) w status a err _ _
                Hinactive Hread Hrs Hts) as [w1 [Hrs1 [Hts1 Hbody]]].
    change (List.length (inr status :: rs)) with (S (List.length rs)).
    cbn [Couchbase.RemoveNodes_for]. rewrite Hbody.
    destruct (IH rs' answers' (pause status) count w1 Hrs1 Hts1 Hc)
      as [[before [after [w' [Hobs [Hcount Hrun]]]]]|[Hnone [Hle Hrun]]].
    + left. exists (ReadFailed :: before), after, w'.
      rewrite stuck_count_from_kept by reflexivity.
      split; [rewrite Hobs; reflexivity|auto].
    + right. rewrite stuck_count_from_kept by reflexivity.
      split; [|auto].
      intros [|o before] after H; [discriminate H|].
      injection H as <- H. rewrite stuck_count_from_kept by reflexivity.
      apply (Hnone before after H).
  - simpl app in Hrs, Hts.
    destruct (body_still_present ejectNodes sleep (Z.of_nat count) w r a _ _ Hra Hrs Hts)
      as [sleep1 [w1 [Hrs1 [Hts1 Hbody]]]].
    change (List.length (r :: rs)) with (S (List.length rs)).
    cbn [Couchbase.RemoveNodes_for]. rewrite Hbody.
    destruct (Z.gtb_spec (Z.of_nat count) 10) as [Hgt|Hle].
    + left. exists [], obs, w1.
      split; [reflexivity|split; [|reflexivity]].
      unfold stuck_count_from, stuck_count. simpl. lia.
    + replace (Z.of_nat count + 1) with (Z.of_nat (S count)) by lia.
      destruct (IH rs' answers' sleep1 (S count) w1 Hrs1 Hts1 ltac:(lia))
        as [[before [after [w' [Hobs [Hcount Hrun]]]]]|[Hnone [Hle' Hrun]]].
      * left. exists (Present :: before), after, w'.
        rewrite stuck_count_from_present.
        split; [rewrite Hobs; reflexivity|auto].
      * right. rewrite stuck_count_from_present.
        split; [|auto].
        intros [|o before] after H.
        -- unfold stuck_count_from, stuck_count. simpl. lia.
        -- injection H as <- H. rewrite stuck_count_from_present.
           apply (Hnone before after H).
Qed.

(** C1, as the code has it.  The loop is entered with the counter at zero
    and followed along any polls short of the one that finds the removal
    complete; [stuck_count] counts the polls that found no ejected handle
    active and an ejected handle still listed, since the loop was entered
    or since the last poll that found an ejected handle active, whatever
    failed polls lie in between.  The process ends through [Fatalf] if and
    only if one of the polls finds an ejected node still present when
    eleven such polls are counted before it, so at the twelfth of them.
    When there is no such poll the loop is still polling after them all,
    and its counter is that count, at most eleven. *)
Theorem C1_stuck_removal_twelfth_since_reset :
  forall (ejectNodes : list string) (rs rs' : list (error + Progress.t))
         (answers answers' : list (Answer Pool)) (obs : list Observation)
         (sleep : Z) (w : World),
    polls ejectNodes rs answers obs ->
    rebalanceProgress (remote w) = rs ++ rs' ->
    poolsDefault (remote w) = answers ++ answers' ->
    ((exists before after,
         obs = before ++ Present :: after /\ stuck_count before = 11%nat) ->
     forall fuel, (List.length rs <= fuel)%nat ->
       exists w',
         Couchbase.RemoveNodes_for fuel ejectNodes (sleep, 0) w = (Fatal stuck_message, w')) /\
    (forall fuel msg w',
        (fuel <= List.length rs)%nat ->
        Couchbase.RemoveNodes_for fuel ejectNodes (sleep, 0) w = (Fatal msg, w') ->
        msg = stuck_message /\
        exists before after,
          obs = before ++ Present :: after /\ stuck_count before = 11%nat) /\
    ((forall before after,
         obs = before ++ Present :: after -> stuck_count before <> 11%nat) ->
     (stuck_count obs <= 11)%nat /\
     exists sleep' w',
       Couchbase.RemoveNodes_for (List.length rs) ejectNodes (sleep, 0) w
       = (Continue (sleep', Z.of_nat (stuck_count obs)), w') /\
       rebalanceProgress (remote w') = rs' /\ poolsDefault (remote w') = answers').
Proof.
  intros ejectNodes rs rs' answers answers' obs sleep w Hpolls Hrs Hts.
  destruct (polls_run ejectNodes rs answers obs Hpolls rs' answers' sleep 0%nat w Hrs Hts
              ltac:(lia))
    as [[before [after [w1 [Hobs [Hcount Hrun]]]]]|[Hnone [Hle [sleep1 [w1 [Hrun Hrest]]]]]];
    change (Z.of_nat 0) with 0 in Hrun; rewrite stuck_count_from_zero in *.
  - split; [|split].
    + intros _ fuel Hfuel. exists w1.
      replace fuel with (List.length rs + (fuel - List.length rs))%nat by lia.
      apply for_stopped; [exact Hrun|discriminate].
    + intros fuel msg w' Hfuel Hfatal.
      assert (Hend : Couchbase.RemoveNodes_for (fuel + (List.length rs - fuel)) ejectNodes
                       (sleep, 0) w = (Fatal msg, w')).
      { apply for_stopped; [exact Hfatal|discriminate]. }
      replace (fuel + (List.length rs - fuel))%nat with (List.length rs) in Hend by lia.
      rewrite Hrun in Hend. injection Hend as <- _.
      split; [reflexivity|]. exists before, after. auto.
    + intros Hno. exfalso. apply (Hno before after Hobs Hcount).
  - assert (Hnone' : forall before after,
               obs = before ++ Present :: after -> stuck_count before <> 11%nat).
    { intros before after H. rewrite <- stuck_count_from_zero. apply (Hnone before after H). }
    split; [|split].
    + intros [before [after [Hobs Hcount]]]. exfalso. apply (Hnone' before after Hobs Hcount).
    + intros fuel msg w' Hfuel Hfatal. exfalso.
      assert (Hend : Couchbase.RemoveNodes_for (fuel + (List.length rs - fuel)) ejectNodes
                       (sleep, 0) w = (Fatal msg, w')).
      { apply for_stopped; [exact Hfatal|discriminate]. }
      replace (fuel + (List.length rs - fuel))%nat with (List.length rs) in Hend by lia.
      rewrite Hrun in Hend. discriminate Hend.
    + intros _. split; [exact Hle|]. exists sleep1, w1. auto.
Qed.

(** Six polls find the node still present, the seventh status read times
    out, six more polls find the node still present: the last of them is
    the twelfth to find it, and ends the process. *)
Lemma C1_stuck_removal_twelfth_since_reset_witness :
  exists w',
    Couchbase.RemoveNodes_for 13 ["b"] (0, 0) interrupted_world = (Fatal stuck_message, w').
Proof.
  assert (Hpolls :
            polls ["b"]
              (repeat (progress 1 []) 6 ++ inl (External "timeout") :: repeat (progress 1 []) 6)
              (repeat (topology [node "A" "a" true "healthy"; node "B" "b" false "healthy"]) 12)
              (repeat Present 6 ++ StatusFailed :: repeat Present 6)).
  { simpl.
    repeat first [ apply polls_none
                 | apply polls_status_failed
                 | apply polls_present; [eexists _, _; repeat split; reflexivity|] ]. }
  apply (proj1 (C1_stuck_removal_twelfth_since_reset ["b"] _ [] _ []
                  _ 0 interrupted_world Hpolls eq_refl eq_refl)).
  - exists (repeat Present 6 ++ StatusFailed :: repeat Present 5), [].
    split; reflexivity.
  - simpl. lia.
Defined.

(** ** The handle's caches, once more *)

Lemma getInfo_flagged (nodes : list Node) (node : Node) :
  Couchbase.getInfo nodes = inr node -> ThisNode node = true.
Proof.
  intros H. apply getInfo_self_node in H as [before [after [_ [H _]]]]. exact H.
Qed.

Lemma Info_flagged (c : Couchbase) (w : World) :
  flagged c ->
  flagged (snd (fst (Couchbase.Info c w))) /\
  forall i, fst (fst (Couchbase.Info c w)) = inr i -> ThisNode i = true.
Proof.
  intros Hc. unfold Couchbase.Info. destruct (info c) as [cached|] eqn:Hi.
  - simpl. split; [exact Hc|]. intros i H. injection H as <-. apply Hc. exact Hi.
  - destruct (Couchbase.Nodes w) as [[err|nodes] w1]; simpl.
    + split; [exact Hc|discriminate].
    + destruct (Couchbase.getInfo nodes) as [err|node] eqn:Hg; simpl.
      * split; [exact Hc|discriminate].
      * apply getInfo_flagged in Hg. split.
        -- intros i H. simpl in H. injection H as <-. exact Hg.
        -- intros i H. injection H as <-. exact Hg.
Qed.

Lemma Cluster_keeps_info (c : Couchbase) (w : World) :
  info (snd (fst (Couchbase.Cluster c w))) = info c.
Proof.
  destruct (cluster c) as [v|] eqn:Hv.
  - rewrite (Cluster_cached c w v Hv). reflexivity.
  - destruct (Cluster_first c w Hv) as [r [c' [w' [H [_ [Hi _]]]]]]. rewrite H. exact Hi.
Qed.

(** The self-node a handle caches and returns is a node flagged
    [ThisNode]: a handle whose cache is empty, or holds a flagged node, is
    such a handle again after any calls of [Info] and [Cluster], and every
    node [Info] returns on the way is flagged. *)
Theorem Info_returns_flagged_node :
  forall (ops : list Call) (c : Couchbase) (w : World),
    flagged c ->
    let '(replies, c', _) := session ops c w in
    flagged c' /\ forall i, In (InfoReply (inr i)) replies -> ThisNode i = true.
Proof.
  induction ops as [|op ops IH]; intros c w Hc; simpl.
  - split; [exact Hc|]. intros i [].
  - destruct op; simpl.
    + pose proof (Cluster_keeps_info c w) as Hi.
      destruct (Couchbase.Cluster c w) as [[r c1] w1]. simpl in Hi.
      assert (Hc1 : flagged c1) by (intros i H; apply Hc; congruence).
      specialize (IH c1 w1 Hc1). destruct (session ops c1 w1) as [[rs c'] w'].
      destruct IH as [IH1 IH2]. split; [exact IH1|].
      intros i [H|H]; [discriminate|auto].
    + destruct (Info_flagged c w Hc) as [Hc1 Hr].
      destruct (Couchbase.Info c w) as [[r c1] w1]. simpl in Hc1, Hr.
      specialize (IH c1 w1 Hc1). destruct (session ops c1 w1) as [[rs c'] w'].
      destruct IH as [IH1 IH2]. split; [exact IH1|].
      intros i [H|H]; [|auto]. injection H as ->. apply Hr. reflexivity.
Qed.

(** A fresh handle asks twice who it is, in a cluster that lists the
    other node first. *)
Lemma Info_returns_flagged_node_witness :
  let '(replies, c', _) :=
    session [CallInfo; CallInfo] (handle "http://b:8091")
      (scripted [topology [node "A" "a" false "healthy"; node "B" "b" true "healthy"]]
                [] [] [] []) in
  flagged c' /\ forall i, In (InfoReply (inr i)) replies -> ThisNode i = true.
Proof.
  apply (Info_returns_flagged_node [CallInfo; CallInfo] (handle "http://b:8091")
           (scripted [topology [node "A" "a" false "healthy"; node "B" "b" true "healthy"]]
                     [] [] [] [])).
  intros i H. discriminate.
Defined.

(** [Connect] returns [nil] exactly when it leaves the self-node cached;
    it never touches the cached cluster identity, and on a handle that has
    its self-node already it does nothing at all. *)
Theorem Connect_fills_the_cache :
  forall (c : Couchbase) (w : World),
    let '(err, c', w') := Couchbase.Connect c w in
    (err = None <-> info c' <> None) /\
    cluster c' = cluster c /\
    (info c <> None -> err = None /\ c' = c /\ w' = w).
Proof.
  intros c w. unfold Couchbase.Connect.
  destruct (info c) as [i|] eqn:Hi.
  - rewrite (Info_cached c w i Hi). repeat split; try congruence.
  - destruct (Info_first c w Hi) as [r [c' [w' [H [_ [Hc Hr]]]]]]. rewrite H.
    destruct r as [err|node].
    + subst c'. split; [|split; [reflexivity|congruence]].
      split; [discriminate|congruence].
    + split; [|split; [exact Hc|congruence]].
      split; [congruence|reflexivity].
Qed.

(** [ClusterID] returns the UUID of the cluster identity the handle holds
    afterwards; when the identity was cached before the call, it answers
    from the cache and changes nothing; when it fails the cache stays
    empty. *)
Theorem ClusterID_from_the_cache :
  forall (c : Couchbase) (w : World),
    let '(r, c', w') := Couchbase.ClusterID c w in
    match r with
    | inr id => exists v, cluster c' = Some v /\ id = UUID v
    | inl _ => cluster c = None /\ c' = c
    end /\
    (forall v, cluster c = Some v -> r = inr (UUID v) /\ c' = c /\ w' = w).
Proof.
  intros c w. unfold Couchbase.ClusterID.
  destruct (cluster c) as [v|] eqn:Hv.
  - rewrite (Cluster_cached c w v Hv). split.
    + exists v. auto.
    + intros v' H. injection H as <-. auto.
  - destruct (Cluster_first c w Hv) as [r [c' [w' [H [_ [_ Hr]]]]]]. rewrite H.
    destruct r as [err|v].
    + split; [auto|discriminate].
    + split; [exists v; auto|discriminate].
Qed.

(** ** The port of the handle's URL *)

Lemma Split_last_piece (h s : string) :
  free_of ":"%char s ->
  last (Split (String.append h (String ":"%char s)) ":"%char) "" = s /\
  (2 <= List.length (Split (String.append h (String ":"%char s)) ":"%char))%nat.
Proof.
  intros Hs. pose proof (proj1 (Split_piece ":"%char s Hs)) as Hone.
  induction h as [|a h [IH1 IH2]]; simpl.
  - rewrite Hone. simpl. split; [reflexivity|lia].
  - destruct (Split (String.append h (String ":"%char s)) ":"%char) as [|p [|q ps]] eqn:E;
      simpl in IH2; try lia.
    destruct (Ascii.eqb a ":"%char); simpl in *; split; try exact IH1; lia.
Qed.

Lemma digits_free_of_colon (s : string) : all_digits s = true -> free_of ":"%char s.
Proof.
  induction s as [|c s IH]; simpl; intros H.
  - intros [|i]; discriminate.
  - apply andb_prop in H as [H Hs]. apply andb_prop in H as [_ Hhi].
    apply free_of_String. split; [|exact (IH Hs)].
    intros ->. discriminate.
Qed.

Lemma decimal_from_grows (s : string) :
  all_digits s = true -> forall n, 0 <= n -> n <= decimal_from n s.
Proof.
  induction s as [|c s IH]; cbn [all_digits decimal_from]; intros H n Hn; [lia|].
  apply andb_prop in H as [H Hs]. apply andb_prop in H as [Hlo Hhi].
  apply Z.leb_le in Hlo, Hhi.
  specialize (IH Hs (10 * n + (Z.of_N (N_of_ascii c) - 48))). lia.
Qed.

(** On digits, the loop of [ParseUint] for 16 bits computes the number
    written, or stops with a range error when that number is above
    65535. *)
Lemma ParseUint_loop_digits (s : string) :
  all_digits s = true ->
  forall n, 0 <= n <= 65535 ->
    ParseUint_loop s 65535 n
    = if decimal_from n s <=? 65535 then (decimal_from n s, None)
      else (65535, Some ErrRange).
Proof.
  induction s as [|c s IH]; cbn [all_digits decimal_from ParseUint_loop]; intros H n Hn.
  - destruct (Z.leb_spec n 65535); [reflexivity|lia].
  - apply andb_prop in H as [H Hs]. rewrite H.
    apply andb_prop in H as [Hlo Hhi]. apply Z.leb_le in Hlo, Hhi.
    set (d := Z.of_N (N_of_ascii c) - 48) in *.
    assert (Hsmall : (n >=? maxUint64 / 10 + 1) = false).
    { rewrite Z.geb_leb. apply Z.leb_gt.
      change (maxUint64 / 10 + 1) with 1844674407370955162. lia. }
    rewrite Hsmall.
    assert (Hmod : (n * 10 + d) mod 2 ^ 64 = 10 * n + d).
    { rewrite Z.mod_small; [lia|]. change (2 ^ 64) with 18446744073709551616. lia. }
    rewrite Hmod.
    destruct (Z.ltb_spec (10 * n + d) (n * 10)) as [Hlt|_]; [lia|]. cbn [orb].
    destruct (Z.gtb_spec (10 * n + d) 65535) as [Hover|Hfits].
    + pose proof (decimal_from_grows s Hs (10 * n + d)).
      destruct (Z.leb_spec (decimal_from (10 * n + d) s) 65535); [lia|reflexivity].
    + apply IH; [exact Hs|lia].
Qed.

Lemma ParseInt_decimal (s : string) :
  is_decimal s ->
  ParseInt s 16
  = if decimal_value s <=? 32767 then (decimal_value s, None) else (32767, Some ErrRange).
Proof.
  intros [Hne Hdig]. destruct s as [|c s]; [contradiction|].
  unfold ParseInt.
  assert (Hc : Ascii.eqb c "-"%char = false /\ Ascii.eqb c "+"%char = false).
  { simpl in Hdig. apply andb_prop in Hdig as [H _]. apply andb_prop in H as [Hlo _].
    split; apply Ascii.eqb_neq; intros ->; discriminate. }
  destruct Hc as [-> ->]. cbn [orb negb andb].
  unfold ParseUint. cbn [String.eqb].
  change (2 ^ 16 - 1) with 65535. change (2 ^ (16 - 1)) with 32768.
  rewrite (ParseUint_loop_digits (String c s) Hdig 0) by lia.
  fold (decimal_value (String c s)).
  destruct (Z.leb_spec (decimal_value (String c s)) 65535) as [Hfits|Hover].
  - destruct (Z.geb_spec (decimal_value (String c s)) 32768) as [Hhigh|Hlow];
      destruct (Z.leb_spec (decimal_value (String c s)) 32767); try lia; reflexivity.
  - destruct (Z.leb_spec (decimal_value (String c s)) 32767); [lia|]. reflexivity.
Qed.

(** Where the host of the URL ends in a colon and a decimal numeral,
    [Port] is the number written as long as that is at most 32767; for
    every larger number, 32768 to 65535 included, it is 80. *)
Theorem Port_of_decimal :
  forall (h s : string),
    is_decimal s ->
    Couchbase.Port (String.append h (String ":"%char s))
    = if decimal_value s <=? 32767 then decimal_value s else 80.
Proof.
  intros h s Hs. unfold Couchbase.Port.
  pose proof (decimal_from_grows s (proj2 Hs) 0 ltac:(lia)) as Hpos.
  fold (decimal_value s) in Hpos.
  destruct (Split_last_piece h s (digits_free_of_colon s (proj2 Hs))) as [Hlast Hlen].
  destruct (Z.ltb_spec (Z.of_nat (List.length (Split (String.append h (String ":"%char s))
                                                      ":"%char))) 2); [lia|].
  rewrite Hlast, (ParseInt_decimal s Hs).
  destruct (Z.leb_spec (decimal_value s) 32767); [|reflexivity].
  apply Z.mod_small. change (2 ^ 16) with 65536. lia.
Qed.

(** The usual port of the cluster manager. *)
Lemma Port_of_decimal_witness :
  Couchbase.Port "node1:8091" = 8091.
Proof.
  assert (H : is_decimal "8091") by (split; [discriminate|reflexivity]).
  exact (Port_of_decimal "node1" "8091" H).
Defined.

(** [Port] is a 16-bit number, and it is 80 for a host without a colon
    and for a host that ends in a colon. *)
Theorem Port_default :
  forall (Host : string),
    0 <= Couchbase.Port Host <= 65535 /\
    (colon_free Host -> Couchbase.Port Host = 80) /\
    Couchbase.Port (String.append Host ":") = 80.
Proof.
  intros Host. split; [|split].
  - unfold Couchbase.Port.
    destruct (Z.of_nat (List.length (Split Host ":"%char)) <? 2); [lia|].
    destruct (ParseInt (last (Split Host ":"%char) "") 16) as [port [e|]]; [lia|].
    pose proof (Z.mod_pos_bound port (2 ^ 16) ltac:(reflexivity)).
    change (2 ^ 16) with 65536 in *. lia.
  - intros Hfree. unfold Couchbase.Port.
    rewrite (proj1 (Split_piece ":"%char Host Hfree)). reflexivity.
  - unfold Couchbase.Port.
    assert (Hempty : free_of ":"%char "") by (intros [|i]; discriminate).
    destruct (Split_last_piece Host "" Hempty) as [Hlast Hlen].
    destruct (Z.ltb_spec (Z.of_nat (List.length (Split (String.append Host ":") ":"%char))) 2);
      [lia|].
    rewrite Hlast. reflexivity.
Qed.

(** ** Waiting, once more *)

(** A timeout of less than a second ends the wait at the deadline,
    before the first tick: [IsReady] and [Healthy] return their timeout
    errors without having issued any request. *)
Theorem short_timeout_never_probes :
  forall (fuel : nat) (rawURL : string) (c : Couchbase) (timeout : Z) (w : World),
    timeout < Second ->
    Couchbase.IsReady (S fuel) rawURL timeout w
    = (Returned (false, Some (NewErrorWaitNodeTimeout rawURL)),
       wait_until (now w + Z.max 0 timeout) w) /\
    Couchbase.Healthy (S fuel) c timeout w
    = (Returned (Some (NewErrorHealthyTimedOut (URL c))),
       wait_until (now w + Z.max 0 timeout) w) /\
    log (wait_until (now w + Z.max 0 timeout) w) = log w.
Proof.
  intros fuel rawURL c timeout w Ht.
  assert (Hsel : select timeout (time_Tick (1 * Second) w) w
                 = (TimerFired, time_Tick (1 * Second) w,
                    wait_until (now w + Z.max 0 timeout) w)).
  { unfold select, time_Tick. cbn [next period].
    assert (HS : 0 < Second) by (unfold Second, Millisecond; lia).
    destruct (Z.ltb_spec (now w + Z.max 0 timeout) (Z.max (now w) (now w + 1 * Second)));
      [reflexivity|lia]. }
  unfold Couchbase.IsReady, Couchbase.Healthy.
  cbn [Couchbase.IsReady_for Couchbase.Healthy_for]. rewrite Hsel.
  repeat split.
Qed.

(** Half a second to wait for a node that would answer. *)
Lemma short_timeout_never_probes_witness :
  Couchbase.IsReady 1 "http://node1:8091" (500 * Millisecond) (scripted [] [] [] [] [ok tt])
  = (Returned (false, Some (NewErrorWaitNodeTimeout "http://node1:8091")),
     wait_until (500 * Millisecond) (scripted [] [] [] [] [ok tt])).
Proof.
  apply (short_timeout_never_probes 0 "http://node1:8091" (handle "http://node1:8091")
           (500 * Millisecond) (scripted [] [] [] [] [ok tt])).
  reflexivity.
Defined.

Lemma Ping_step (rawURL : string) (w : World) (a : Answer unit) (rest : list (Answer unit)) :
  pings (remote w) = a :: rest ->
  (fst (Couchbase.Ping rawURL w) = None <-> accepted a) /\
  pings (remote (snd (Couchbase.Ping rawURL w))) = rest /\
  log (snd (Couchbase.Ping rawURL w)) = log w ++ [Requested "GET" rawURL []].
Proof.
  intros H. unfold Couchbase.Ping, requestUrl_ping, accepted. rewrite H.
  destruct a as [err|resp]; cbn [fst snd].
  - repeat split; try reflexivity; [discriminate|]. intros [r [E _]]. discriminate.
  - pose proof (CheckStatusCode_passes resp [200]) as Hcheck.
    repeat split; try reflexivity.
    + intros Hnil. apply Hcheck in Hnil as [E|[]]. exists resp. auto.
    + intros [r [E H200]]. injection E as <-. apply Hcheck. left. auto.
Qed.

Lemma select_keeps (timeout : Z) (interval : Ticker) (w : World) :
  remote (snd (select timeout interval w)) = remote w /\
  log (snd (select timeout interval w)) = log w.
Proof.
  unfold select.
  destruct ((now w + Z.max 0 timeout <? Z.max (now w) (next interval))
            || (now w + Z.max 0 timeout =? Z.max (now w) (next interval))
               && timerWins w (Z.max (now w) (next interval))); split; reflexivity.
Qed.

Lemma IsReady_for_succeeds (rawURL : string) (timeout : Z) (fails : list (Answer unit)) :
  Second < timeout ->
  Forall (fun a => ~ accepted a) fails ->
  forall (good : Answer unit) (rest : list (Answer unit)) (extra : nat)
         (interval : Ticker) (w : World),
    accepted good ->
    pings (remote w) = fails ++ good :: rest ->
    ticking interval w ->
    exists w',
      Couchbase.IsReady_for (List.length fails + S extra) rawURL timeout interval w
      = (Returned (true, None), w') /\
      pings (remote w') = rest /\
      log w' = log w ++ repeat (Requested "GET" rawURL []) (S (List.length fails)).
Proof.
  intros Ht. induction 1 as [|a fails Ha _ IH];
    intros good rest extra interval w Hgood Hp Htick.
  - destruct (select_ticks timeout interval w Ht Htick) as [i' [w1 [Hsel _]]].
    pose proof (select_keeps timeout interval w) as [Hr HL]. rewrite Hsel in Hr, HL.
    simpl in Hr, HL. simpl in Hp.
    assert (Hp1 : pings (remote w1) = good :: rest) by congruence.
    destruct (Ping_step rawURL w1 good rest Hp1) as [Hok [Hrest HL1]].
    cbn [List.length Nat.add Couchbase.IsReady_for]. rewrite Hsel.
    destruct (Couchbase.Ping rawURL w1) as [[err|] w2]; simpl in Hok, Hrest, HL1.
    + apply Hok in Hgood. discriminate.
    + exists w2. repeat split; [exact Hrest|]. rewrite HL1, HL. reflexivity.
  - destruct (select_ticks timeout interval w Ht Htick) as [i' [w1 [Hsel [Htick1 _]]]].
    pose proof (select_keeps timeout interval w) as [Hr HL]. rewrite Hsel in Hr, HL.
    simpl in Hr, HL. simpl in Hp.
    assert (Hp1 : pings (remote w1) = a :: fails ++ good :: rest) by congruence.
    destruct (Ping_step rawURL w1 a _ Hp1) as [Hok [Hrest HL1]].
    pose proof (Ping_now rawURL w1) as Hnow.
    cbn [List.length Nat.add Couchbase.IsReady_for]. rewrite Hsel.
    destruct (Couchbase.Ping rawURL w1) as [[err|] w2]; simpl in Hok, Hrest, HL1, Hnow.
    + destruct (IH good rest extra i' w2 Hgood Hrest (ticking_later i' w1 w2 Htick1 Hnow))
        as [w' [Hrun [Hrest' HL']]].
      exists w'. split; [exact Hrun|split; [exact Hrest'|]].
      rewrite HL', HL1, HL, <- app_assoc. reflexivity.
    + exfalso. apply Ha, Hok. reflexivity.
Qed.

(** With a timeout above one second, [IsReady] returns [true] at the first
    probe that is answered with status 200, having issued one request per
    probe and nothing else. *)
Theorem IsReady_first_answer :
  forall (rawURL : string) (timeout : Z) (fails rest : list (Answer unit))
         (good : Answer unit) (extra : nat) (w : World),
    Second < timeout ->
    Forall (fun a => ~ accepted a) fails ->
    accepted good ->
    pings (remote w) = fails ++ good :: rest ->
    exists w',
      Couchbase.IsReady (List.length fails + S extra) rawURL timeout w
      = (Returned (true, None), w') /\
      pings (remote w') = rest /\
      log w' = log w ++ repeat (Requested "GET" rawURL []) (S (List.length fails)).
Proof.
  intros rawURL timeout fails rest good extra w Ht Hfails Hgood Hp.
  unfold Couchbase.IsReady.
  apply (IsReady_for_succeeds rawURL timeout fails Ht Hfails good rest extra
           (time_Tick (1 * Second) w) w Hgood Hp (time_Tick_ticking w)).
Qed.

(** The node refuses two connections and answers the third. *)
Lemma IsReady_first_answer_witness :
  exists w',
    Couchbase.IsReady 3 "http://node1:8091" (5 * Second)
      (scripted [] [] [] [] [inl (External "refused"); inl (External "refused"); ok tt])
    = (Returned (true, None), w') /\
    pings (remote w') = [] /\
    log w' = repeat (Requested "GET" "http://node1:8091" []) 3.
Proof.
  apply (IsReady_first_answer "http://node1:8091" (5 * Second)
           [inl (External "refused"); inl (External "refused")] [] (ok tt) 0
           (scripted [] [] [] [] [inl (External "refused"); inl (External "refused"); ok tt])).
  - reflexivity.
  - repeat constructor; intros [r [H _]]; discriminate.
  - eexists. split; reflexivity.
  - reflexivity.
Defined.

(** What a [select] over a one-second ticker does to the clock: the timer
    never fires before the moment of entry; a tick is never received before
    it is due, and the ticker's next tick is at least a second after the
    one received. *)
Lemma select_clock (timeout : Z) (interval : Ticker) (w : World) :
  period interval = Second ->
  match select timeout interval w with
  | (TimerFired, _, w1) => now w <= now w1
  | (Ticked, interval', w1) =>
      period interval' = Second /\
      now w <= now w1 /\
      next interval <= now w1 /\
      next interval + Second <= next interval'
  end.
Proof.
  intros Hp. unfold select. rewrite Hp.
  assert (HS : 0 < Second) by (unfold Second, Millisecond; lia).
  destruct ((now w + Z.max 0 timeout <? Z.max (now w) (next interval))
            || (now w + Z.max 0 timeout =? Z.max (now w) (next interval))
               && timerWins w (Z.max (now w) (next interval))).
  - cbn [now wait_until]. lia.
  - cbn [now wait_until period next]. repeat split; try lia.
    assert (Hq : 0 <= (Z.max (now w) (next interval) - next interval) / Second).
    { apply Z.div_pos; lia. }
    rewrite Z.mul_add_distr_l, Z.mul_1_r.
    assert (0 <= Second * ((Z.max (now w) (next interval) - next interval) / Second))
      by (apply Z.mul_nonneg_nonneg; lia).
    lia.
Qed.

Lemma IsReady_for_rate (rawURL : string) (timeout : Z) (fuel : nat) :
  forall (interval : Ticker) (w : World),
    period interval = Second ->
    exists k,
      log (snd (Couchbase.IsReady_for fuel rawURL timeout interval w))
      = log w ++ repeat (Requested "GET" rawURL []) k /\
      now w <= now (snd (Couchbase.IsReady_for fuel rawURL timeout interval w)) /\
      ((1 <= k)%nat ->
       next interval + (Z.of_nat k - 1) * Second
       <= now (snd (Couchbase.IsReady_for fuel rawURL timeout interval w))).
Proof.
  assert (HS : 0 < Second) by (unfold Second, Millisecond; lia).
  induction fuel as [|fuel IH]; intros interval w Hp; cbn [Couchbase.IsReady_for].
  - exists 0%nat. simpl. rewrite app_nil_r. repeat split; lia.
  - pose proof (select_clock timeout interval w Hp) as Hclock.
    pose proof (select_keeps timeout interval w) as [_ HL].
    destruct (select timeout interval w) as [[[|] i'] w1]; simpl in HL.
    + exists 0%nat. simpl. rewrite app_nil_r. repeat split; try lia. congruence.
    + destruct Hclock as [Hp' [Hnow [Hdue Hnext]]].
      pose proof (Ping_now rawURL w1) as Hnow1.
      assert (HL1 : log (snd (Couchbase.Ping rawURL w1))
                    = log w1 ++ [Requested "GET" rawURL []]).
      { unfold Couchbase.Ping, requestUrl_ping.
        destruct (pings (remote w1)) as [|[err|resp] rest]; reflexivity. }
      destruct (Couchbase.Ping rawURL w1) as [[err|] w2]; simpl in Hnow1, HL1.
      * destruct (IH i' w2 Hp') as [k [HLk [Hnowk Hrate]]].
        exists (S k). split; [|split].
        -- rewrite HLk, HL1, HL, <- app_assoc. reflexivity.
        -- lia.
        -- intros _. destruct k as [|k]; [lia|].
           specialize (Hrate ltac:(lia)). lia.
      * exists 1%nat. simpl. split; [congruence|]. split; lia.
Qed.

Lemma Healthy_for_rate (c : Couchbase) (timeout : Z) (fuel : nat) :
  forall (interval : Ticker) (w : World),
    period interval = Second ->
    exists k,
      log (snd (Couchbase.Healthy_for fuel c timeout interval w))
      = log w ++ repeat (Requested "GET" "/pools/default" []) k /\
      now w <= now (snd (Couchbase.Healthy_for fuel c timeout interval w)) /\
      ((1 <= k)%nat ->
       next interval + (Z.of_nat k - 1) * Second
       <= now (snd (Couchbase.Healthy_for fuel c timeout interval w))).
Proof.
  assert (HS : 0 < Second) by (unfold Second, Millisecond; lia).
  induction fuel as [|fuel IH]; intros interval w Hp; cbn [Couchbase.Healthy_for].
  - exists 0%nat. simpl. rewrite app_nil_r. repeat split; lia.
  - pose proof (select_clock timeout interval w Hp) as Hclock.
    pose proof (select_keeps timeout interval w) as [_ HL].
    destruct (select timeout interval w) as [[[|] i'] w1]; simpl in HL.
    + exists 0%nat. simpl. rewrite app_nil_r. repeat split; try lia. congruence.
    + destruct Hclock as [Hp' [Hnow [Hdue Hnext]]].
      pose proof (healthy_now w1) as Hnow1.
      assert (HL1 : log (snd (Couchbase.healthy w1))
                    = log w1 ++ [Requested "GET" "/pools/default" []]).
      { unfold Couchbase.healthy. pose proof (Nodes_log w1) as HN.
        destruct (Couchbase.Nodes w1) as [[err|nodes] w2]; simpl in *; [exact HN|].
        destruct (Z.of_nat (List.length nodes) <? 2); [exact HN|].
        destruct (Couchbase.getInfo nodes) as [err|self]; [exact HN|].
        simpl. destruct (negb (Status self =? "healthy")%string); exact HN. }
      destruct (Couchbase.healthy w1) as [[err|] w2]; simpl in Hnow1, HL1.
      * destruct (IH i' w2 Hp') as [k [HLk [Hnowk Hrate]]].
        exists (S k). split; [|split].
        -- rewrite HLk, HL1, HL, <- app_assoc. reflexivity.
        -- lia.
        -- intros _. destruct k as [|k]; [lia|].
           specialize (Hrate ltac:(lia)). lia.
      * exists 1%nat. simpl. split; [congruence|]. split; lia.
Qed.

(** Probes come no faster than the ticker: whatever the timeout and
    however the world answers, when [IsReady] or [Healthy] has issued [k]
    requests, and it issues requests only, at least [k] seconds have
    passed since the call began. *)
Theorem probes_once_per_second :
  forall (fuel : nat) (rawURL : string) (c : Couchbase) (timeout : Z) (w : World),
    (exists k,
        log (snd (Couchbase.IsReady fuel rawURL timeout w))
        = log w ++ repeat (Requested "GET" rawURL []) k /\
        now w + Z.of_nat k * Second <= now (snd (Couchbase.IsReady fuel rawURL timeout w))) /\
    (exists k,
        log (snd (Couchbase.Healthy fuel c timeout w))
        = log w ++ repeat (Requested "GET" "/pools/default" []) k /\
        now w + Z.of_nat k * Second <= now (snd (Couchbase.Healthy fuel c timeout w))).
Proof.
  intros fuel rawURL c timeout w.
  assert (Hp : period (time_Tick (1 * Second) w) = Second) by (cbn [period time_Tick]; lia).
  split.
  - unfold Couchbase.IsReady.
    destruct (IsReady_for_rate rawURL timeout fuel (time_Tick (1 * Second) w) w Hp)
      as [k [HL [Hnow Hrate]]].
    exists k. split; [exact HL|]. destruct k as [|k]; [lia|].
    specialize (Hrate ltac:(lia)). cbn [next time_Tick] in Hrate. lia.
  - unfold Couchbase.Healthy.
    destruct (Healthy_for_rate c timeout fuel (time_Tick (1 * Second) w) w Hp)
      as [k [HL [Hnow Hrate]]].
    exists k. split; [exact HL|]. destruct k as [|k]; [lia|].
    specialize (Hrate ltac:(lia)). cbn [next time_Tick] in Hrate. lia.
Qed.

(** ** Bucket readiness *)

Lemma BucketReady_range_spec (nodes : list BucketStatus.node) :
  (Couchbase.BucketReady_range nodes = (true, None)
   <-> Forall (fun n => BucketStatus.Status n = "healthy") nodes) /\
  (Couchbase.BucketReady_range nodes = (true, None)
   \/ Couchbase.BucketReady_range nodes = (false, None)).
Proof.
  induction nodes as [|n nodes [IH1 IH2]]; simpl.
  - split; [|auto]. split; auto.
  - destruct (String.eqb_spec (BucketStatus.Status n) "healthy") as [E|N]; simpl.
    + split; [|exact IH2]. rewrite IH1. split.
      * intros H. constructor; assumption.
      * intros H. inversion H; assumption.
    + split; [|auto]. split; [discriminate|].
      intros H. inversion H. contradiction.
Qed.

(** [BucketReady] answers [true] exactly when the request is answered
    without error by a response with status 200, the bytes read from its
    body decode to a status that lists at least one node, and every node
    listed is ["healthy"].  An error met while reading the body plays no
    part: only the bytes read count. *)
Theorem BucketReady_true_iff :
  forall (Unmarshal : string -> error + BucketStatus.t) (answer : Transport),
    Couchbase.BucketReady Unmarshal answer = Done (true, None) <->
    exists resp status,
      answer = Responded resp /\
      RawStatusCode resp = 200 /\
      Unmarshal (fst (ReadAll resp)) = inr status /\
      BucketStatus.Nodes status <> [] /\
      Forall (fun n => BucketStatus.Status n = "healthy") (BucketStatus.Nodes status).
Proof.
  intros Unmarshal answer. unfold Couchbase.BucketReady.
  destruct answer as [err|resp err|resp].
  - split; [discriminate|]. intros [r [s [H _]]]. discriminate.
  - split; [discriminate|]. intros [r [s [H _]]]. discriminate.
  - destruct (Z.eqb_spec (RawStatusCode resp) 200) as [E|N]; cbn [negb].
    + destruct (ReadAll resp) as [text readErr] eqn:Hread. cbn [fst].
      destruct (Unmarshal text) as [err|status] eqn:Hdec.
      * split; [discriminate|]. intros [r [s [H [_ [Hd _]]]]].
        injection H as <-. rewrite Hread in Hd. simpl in Hd. congruence.
      * destruct (BucketStatus.Nodes status) as [|n nodes] eqn:Hnodes.
        -- simpl. split; [discriminate|]. intros [r [s [H [_ [Hd [Hne _]]]]]].
           injection H as <-. rewrite Hread in Hd. simpl in Hd.
           rewrite Hdec in Hd. injection Hd as <-. contradiction.
        -- change (Z.of_nat (List.length (n :: nodes)) =? 0) with false. cbv iota.
           pose proof (proj1 (BucketReady_range_spec (n :: nodes))) as Hrange.
           split.
           ++ intros H. injection H as H. exists resp, status.
              rewrite Hread, Hnodes. repeat split; try assumption; [discriminate|].
              apply Hrange. exact H.
           ++ intros [r [s [H [_ [Hd [_ Hall]]]]]]. injection H as <-.
              rewrite Hread in Hd. simpl in Hd. rewrite Hdec in Hd. injection Hd as <-.
              rewrite Hnodes in Hall. f_equal. apply Hrange. exact Hall.
    + split; [discriminate|]. intros [r [s [H [H200 _]]]]. injection H as <-. contradiction.
Qed.

(** How [BucketReady] fails.  It panics exactly when the request fails
    without a response.  It returns an error in two cases only, and then
    with [false]: the client gave up on the request, or the body of a 200
    response does not decode.  A response with any other status makes it
    return [false] and no error. *)
Theorem BucketReady_failures :
  forall (Unmarshal : string -> error + BucketStatus.t) (answer : Transport),
    ((exists why, Couchbase.BucketReady Unmarshal answer = Panics why)
     <-> exists err, answer = NoResponse err) /\
    (forall ready err,
        Couchbase.BucketReady Unmarshal answer = Done (ready, Some err) <->
        ready = false /\
        ((exists resp, answer = GaveUp resp err) \/
         (exists resp, answer = Responded resp /\ RawStatusCode resp = 200 /\
                       Unmarshal (fst (ReadAll resp)) = inl err))) /\
    (forall resp,
        answer = Responded resp -> RawStatusCode resp <> 200 ->
        Couchbase.BucketReady Unmarshal answer = Done (false, None)).
Proof.
  intros Unmarshal answer. unfold Couchbase.BucketReady.
  destruct answer as [e|resp e|resp].
  - split; [|split].
    + split; eauto.
    + intros ready err. split; [discriminate|].
      intros [_ [[r H]|[r [H _]]]]; discriminate.
    + discriminate.
  - split; [|split].
    + split; [intros [why H]; discriminate|intros [err H]; discriminate].
    + intros ready err. split.
      * intros H. injection H as <- <-. split; [reflexivity|]. left. eauto.
      * intros [-> [[r H]|[r [H _]]]]; [|discriminate]. injection H as _ <-. reflexivity.
    + discriminate.
  - destruct (Z.eqb_spec (RawStatusCode resp) 200) as [E|N]; cbn [negb].
    + destruct (ReadAll resp) as [text readErr] eqn:Hread. cbn [fst].
      destruct (Unmarshal text) as [err0|status] eqn:Hdec.
      * split; [|split].
        -- split; [intros [why H]; discriminate|intros [err H]; discriminate].
        -- intros ready err. split.
           ++ intros H. injection H as <- <-. split; [reflexivity|]. right.
              exists resp. rewrite Hread. auto.
           ++ intros [-> [[r H]|[r [H [_ Hd]]]]]; [discriminate|].
              injection H as <-. rewrite Hread in Hd. simpl in Hd. congruence.
        -- intros r H. injection H as <-. contradiction.
      * assert (Hnoerr : forall ready err,
                   (if Z.of_nat (List.length (BucketStatus.Nodes status)) =? 0
                    then Done (false, None)
                    else Done (Couchbase.BucketReady_range (BucketStatus.Nodes status)))
                   <> Done (ready, Some err)).
        { intros ready err.
          destruct (Z.of_nat (List.length (BucketStatus.Nodes status)) =? 0); [discriminate|].
          destruct (proj2 (BucketReady_range_spec (BucketStatus.Nodes status))) as [-> | ->];
            discriminate. }
        split; [|split].
        -- split; [|intros [err H]; discriminate]. intros [why H].
           destruct (Z.of_nat (List.length (BucketStatus.Nodes status)) =? 0); discriminate.
        -- intros ready err. split.
           ++ intros H. exfalso. exact (Hnoerr ready err H).
           ++ intros [_ [[r H]|[r [H [_ Hd]]]]]; [discriminate|].
              injection H as <-. rewrite Hread in Hd. simpl in Hd. congruence.
        -- intros r H. injection H as <-. contradiction.
    + split; [|split].
      * split; [intros [why H]; discriminate|intros [err H]; discriminate].
      * intros ready err. split; [discriminate|].
        intros [_ [[r H]|[r [H [H200 _]]]]]; [discriminate|].
        injection H as <-. contradiction.
      * reflexivity.
Qed.
